(** * Groovia bot: navigation tokens, session store and retrieval pipeline

    A shallow embedding of [bot.py].  Python strings are Rocq strings (the
    ASCII view), Python ints are [Z], dictionaries keyed by the Telegram user
    id are [gmap Z _], and the handlers are written in a small
    state/trace/exception monad: a handler threads the three process-wide
    stores, appends the transport effects it emits, and may raise. *)

From Stdlib Require Import ZArith String Ascii List Lia Bool.
From Stdlib Require Import DecimalString DecimalPos DecimalZ.
From stdpp Require Import gmap strings list.

Open Scope string_scope.
Open Scope Z_scope.
Open Scope list_scope.

(** ** Python string primitives *)

Module PyStr.

(** [c.isspace()] on the ASCII range: TAB..CR, FS..US and the blank. *)
Definition is_space (c : ascii) : bool :=
  let n := nat_of_ascii c in
  ((9 <=? n)%nat && (n <=? 13)%nat) || ((28 <=? n)%nat && (n <=? 32)%nat).

Fixpoint lstrip (s : string) : string :=
  match s with
  | "" => ""
  | String c s' => if is_space c then lstrip s' else s
  end.

Fixpoint rstrip (s : string) : string :=
  match s with
  | "" => ""
  | String c s' =>
      match rstrip s' with
      | "" => if is_space c then "" else String c ""
      | r => String c r
      end
  end.

(** [s.strip()] *)
Definition strip (s : string) : string := rstrip (lstrip s).

(** [s.startswith(p)] *)
Definition startswith (s p : string) : bool := String.prefix p s.

(** [needle in hay] *)
Fixpoint contains (needle hay : string) : bool :=
  String.prefix needle hay ||
  match hay with
  | "" => false
  | String _ hay' => contains needle hay'
  end.

(** [s.split(sep)] for a one-character separator: never the empty list. *)
Fixpoint split (sep : ascii) (s : string) : list string :=
  match s with
  | "" => [""]
  | String c s' =>
      if Ascii.eqb c sep then "" :: split sep s'
      else match split sep s' with
           | p :: ps => String c p :: ps
           | [] => [String c ""]
           end
  end.

(** [s.split(sep, 1)]: cut at the first separator only. *)
Fixpoint split1 (sep : ascii) (s : string) : list string :=
  match s with
  | "" => [""]
  | String c s' =>
      if Ascii.eqb c sep then [""; s']
      else match split1 sep s' with
           | p :: ps => String c p :: ps
           | [] => [String c ""]
           end
  end.

(** [sep.join(parts)] *)
Fixpoint join (sep : string) (parts : list string) : string :=
  match parts with
  | [] => ""
  | [p] => p
  | p :: ps => p +:+ sep +:+ join sep ps
  end.

(** [s.split()]: the maximal runs of non-blank characters.  [cur] is the
    word being read, if any. *)
Fixpoint words_aux (cur : option string) (s : string) : list string :=
  match s with
  | "" => match cur with Some w => [w] | None => [] end
  | String c s' =>
      if is_space c
      then match cur with
           | Some w => w :: words_aux None s'
           | None => words_aux None s'
           end
      else match cur with
           | Some w => words_aux (Some (w +:+ String c "")) s'
           | None => words_aux (Some (String c "")) s'
           end
  end.

Definition words (s : string) : list string := words_aux None s.

(** [str(n)] for an int. *)
Definition str (n : Z) : string := NilZero.string_of_int (Z.to_int n).

(** The blanks [int] skips around a numeral: on an ASCII string these are
    TAB..CR and the blank; the separators FS..US, which [strip] drops, are
    not among them. *)
Definition is_int_space (c : ascii) : bool :=
  let n := nat_of_ascii c in
  ((9 <=? n)%nat && (n <=? 13)%nat) || (n =? 32)%nat.

Fixpoint lstrip_by (p : ascii -> bool) (s : string) : string :=
  match s with
  | "" => ""
  | String c s' => if p c then lstrip_by p s' else s
  end.

Fixpoint rstrip_by (p : ascii -> bool) (s : string) : string :=
  match s with
  | "" => ""
  | String c s' =>
      match rstrip_by p s' with
      | "" => if p c then "" else String c ""
      | r => String c r
      end
  end.

(** [int(s)]: surrounding blanks are dropped, one sign is allowed, at least
    one digit is required; [None] stands for [ValueError].  The digit
    grouping character of Python's literal syntax is the underscore, which
    never reaches [int] here because every argument is a field of a
    [split("_")]. *)
Definition int (s : string) : option Z :=
  match rstrip_by is_int_space (lstrip_by is_int_space s) with
  | String "+" r =>
      match r with
      | String "-" _ => None
      | _ => option_map Z.of_int (NilZero.int_of_string r)
      end
  | t => option_map Z.of_int (NilZero.int_of_string t)
  end.

(** No occurrence of the field separator. *)
Fixpoint sep_free (sep : ascii) (s : string) : bool :=
  match s with
  | "" => true
  | String c s' => negb (Ascii.eqb c sep) && sep_free sep s'
  end.

End PyStr.

(** ** Exceptions and the handler monad *)

Inductive Exc : Type :=
| IndexError      (* a list index out of range *)
| ValueError      (* int() on a non-number *)
| KeyError        (* a missing dictionary key *)
| NameError       (* a local variable read before assignment *)
| AttributeError  (* an attribute the object does not have *)
| ClientError     (* aiohttp: transport failure or timeout of a GET *)
| TelegramError.  (* the upload of a binary was refused *)

Inductive Res (A : Type) : Type :=
| Ok (a : A)
| Raise (e : Exc).
Arguments Ok {A} a.
Arguments Raise {A} e.

(** [parts[i]] *)
Definition py_nth {A} (l : list A) (i : nat) : Res A :=
  match l !! i with
  | Some x => Ok x
  | None => Raise IndexError
  end.

(** [int(s)] as a raising operation. *)
Definition py_int (s : string) : Res Z :=
  match PyStr.int s with
  | Some n => Ok n
  | None => Raise ValueError
  end.

Definition res_bind {A B} (r : Res A) (k : A -> Res B) : Res B :=
  match r with
  | Ok a => k a
  | Raise e => Raise e
  end.

Notation "'let?' x := r 'in' k" := (res_bind r (fun x => k))
  (at level 10, x name, r at level 100, k at level 200).

(** ** Interaction tokens

    The source has no codec of its own: a token is written by the f-string
    of the keyboard that offers it and read back by the [if]/[elif] chain of
    [callback_query_handler].  [Action] names the branches of that chain,
    [encode] collects the f-strings, [decode] is the chain with the parsing
    each branch does before its first effect. *)

Inductive Action : Type :=
| MainMenu
| Help
| Settings
| SetQuality (quality_choice : string)
| MyStats
| History
| ClearHistory
| SearchPrompt (search_mode : string)
| OpenSong (song_id : string)
| OpenAlbum (album_id : string)
| OpenPlaylist (playlist_id : string)
| OpenArtist (artist_id : string)
| ArtistSongs (artist_id : string) (page : Z)
| ArtistAlbums (artist_id : string) (page : Z)
| Download (song_id : string)
| DownloadAll (item_type item_id : string)
| Similar (song_id : string)
| ListPage (item_type : string) (page : Z) (query_text : string)
| DetailPage (item_type item_id : string) (page : Z)
| AdminPanel
| AdminBroadcast
| AdminStats
| BroadcastConfirm
| BackSearch
| Noop.

Definition us : ascii := "_"%char.

(** The [callback_data] written for each action. *)
Definition encode (a : Action) : string :=
  match a with
  | MainMenu => "main_menu"
  | Help => "help"
  | Settings => "settings"
  | SetQuality q => "quality_" +:+ q
  | MyStats => "my_stats"
  | History => "history"
  | ClearHistory => "clear_history"
  | SearchPrompt m => "search_" +:+ m +:+ "s"
  | OpenSong i => "song_" +:+ i
  | OpenAlbum i => "album_" +:+ i
  | OpenPlaylist i => "playlist_" +:+ i
  | OpenArtist i => "artist_" +:+ i
  | ArtistSongs i p => "artist_songs_" +:+ i +:+ "_" +:+ PyStr.str p
  | ArtistAlbums i p => "artist_albums_" +:+ i +:+ "_" +:+ PyStr.str p
  | Download i => "dl_" +:+ i
  | DownloadAll t i => "dlall_" +:+ t +:+ "_" +:+ i
  | Similar i => "sim_" +:+ i
  | ListPage t p q => "list_" +:+ t +:+ "_" +:+ PyStr.str p +:+ "_" +:+ q
  | DetailPage t i p => t +:+ "detail_" +:+ i +:+ "_" +:+ PyStr.str p
  | AdminPanel => "admin_panel"
  | AdminBroadcast => "admin_broadcast"
  | AdminStats => "admin_stats"
  | BroadcastConfirm => "broadcast_confirm"
  | BackSearch => "back_search"
  | Noop => "noop"
  end.

(** [int(parts[i]) if len(parts) > i else 0] *)
Definition page_field (parts : list string) (i : nat) : Res Z :=
  if (i <? length parts)%nat then (let? f := py_nth parts i in py_int f)
  else Ok 0.

(** The dispatch of [callback_query_handler], in source order.  [Ok None] is
    the token no branch takes; [Raise] is the [IndexError] or [ValueError] of
    a branch's parsing. *)
Definition decode (data : string) : Res (option Action) :=
  if String.eqb data "main_menu" then Ok (Some MainMenu)
  else if String.eqb data "help" then Ok (Some Help)
  else if String.eqb data "settings" then Ok (Some Settings)
  else if PyStr.startswith data "quality_" then
    let? q := py_nth (PyStr.split us data) 1 in Ok (Some (SetQuality q))
  else if String.eqb data "my_stats" then Ok (Some MyStats)
  else if String.eqb data "history" then Ok (Some History)
  else if String.eqb data "clear_history" then Ok (Some ClearHistory)
  else if String.eqb data "search_songs" then Ok (Some (SearchPrompt "song"))
  else if String.eqb data "search_albums" then Ok (Some (SearchPrompt "album"))
  else if String.eqb data "search_playlists" then Ok (Some (SearchPrompt "playlist"))
  else if String.eqb data "search_artists" then Ok (Some (SearchPrompt "artist"))
  else if PyStr.startswith data "song_" then
    let? i := py_nth (PyStr.split1 us data) 1 in Ok (Some (OpenSong i))
  else if PyStr.startswith data "album_" then
    let? i := py_nth (PyStr.split1 us data) 1 in Ok (Some (OpenAlbum i))
  else if PyStr.startswith data "playlist_" then
    let? i := py_nth (PyStr.split1 us data) 1 in Ok (Some (OpenPlaylist i))
  else if PyStr.startswith data "artist_"
          && negb (PyStr.startswith data "artist_songs")
          && negb (PyStr.startswith data "artist_albums") then
    let? i := py_nth (PyStr.split1 us data) 1 in Ok (Some (OpenArtist i))
  else if PyStr.startswith data "artist_songs_" then
    let parts := PyStr.split us data in
    let? i := py_nth parts 2 in
    let? p := page_field parts 3 in
    Ok (Some (ArtistSongs i p))
  else if PyStr.startswith data "artist_albums_" then
    let parts := PyStr.split us data in
    let? i := py_nth parts 2 in
    let? p := page_field parts 3 in
    Ok (Some (ArtistAlbums i p))
  else if PyStr.startswith data "dl_" then
    let? i := py_nth (PyStr.split1 us data) 1 in Ok (Some (Download i))
  else if PyStr.startswith data "dlall_" then
    let parts := PyStr.split us data in
    let? t := py_nth parts 1 in
    let? i := py_nth parts 2 in
    Ok (Some (DownloadAll t i))
  else if PyStr.startswith data "sim_" then
    let? i := py_nth (PyStr.split1 us data) 1 in Ok (Some (Similar i))
  else if PyStr.startswith data "list_" then
    let parts := PyStr.split us data in
    let? t := py_nth parts 1 in
    let? f := py_nth parts 2 in
    let? p := py_int f in
    let q := if (3 <? length parts)%nat then PyStr.join "_" (skipn 3 parts) else "" in
    Ok (Some (ListPage t p q))
  else if PyStr.startswith data "albumdetail_"
          || PyStr.startswith data "playlistdetail_" then
    let parts := PyStr.split us data in
    let t := if PyStr.startswith data "albumdetail" then "album" else "playlist" in
    let? i := py_nth parts 1 in
    let? p := page_field parts 2 in
    Ok (Some (DetailPage t i p))
  else if String.eqb data "admin_panel" then Ok (Some AdminPanel)
  else if String.eqb data "admin_broadcast" then Ok (Some AdminBroadcast)
  else if String.eqb data "admin_stats" then Ok (Some AdminStats)
  else if String.eqb data "back_search" then Ok (Some BackSearch)
  else if String.eqb data "noop" then Ok (Some Noop)
  else Ok None.

(** ** Catalog payloads

    The JSON objects of the catalog API, with the keys the handlers read.  A
    key read with [.get(k)] and no default is an [option]. *)

(** An entry of a [downloadUrl] or [image] list. *)
Record Variant : Type := { variant_url : option string }.

(** An item of the catalog.  [song_artists_primary] is the list under
    [artists.primary], each artist by its [name]; it is [None] when the item
    has no [artists], or an empty one, or one without the key [primary],
    which the readers of the list do not tell apart, and [Some []] when the
    list is there and empty. *)
Record Song : Type := {
  song_id : string;
  song_name : option string;
  song_artists_primary : option (list (option string));
  song_downloadUrl : list Variant;
  song_image : list Variant;
  song_duration : Z;
}.

(** [artists.get("primary", [])] of an item whose [artists] is read with the
    default [{}], as lines 770, 832, 936, 1012 and 1134 read it. *)
Definition song_primary_artists (s : Song) : list (option string) :=
  default [] (song_artists_primary s).

(** The detail payload of an album or a playlist. *)
Record Collection : Type := {
  coll_id : string;
  coll_name : option string;
  coll_songCount : Z;
  coll_songs : list Song;
  coll_image : list Variant;
}.

(** A page of search results, of an artist's songs or of an artist's albums. *)
Record Listing : Type := {
  listing_results : list Song;
  listing_total : Z;
}.

Inductive ApiRequest : Type :=
| SearchReq (search_type query : string) (page limit : Z)
| SongReq (id : string)
| AlbumReq (id : string)
| PlaylistReq (id : string) (page limit : Z)
| ArtistSongsReq (id : string) (page limit : Z)
| ArtistAlbumsReq (id : string) (page limit : Z)
| SuggestionsReq (id : string) (limit : Z).

(** What an [aiohttp] GET of a binary gives: an exception, or a response with
    its status and body. *)
Inductive HttpResult : Type :=
| HttpRaises
| HttpResponse (status : Z) (body : string).

(** The arguments of [send_audio]. *)
Record Audio : Type := {
  audio_data : string;
  audio_thumbnail : option string;
  audio_title : string;
  audio_performer : string;
  audio_duration : Z;
}.

(** ** Session store *)

Record HistoryEntry : Type := {
  entry_name : string;
  entry_artist : string;
  entry_id : string;
}.

Record UserData : Type := {
  quality : string;
  history : list HistoryEntry;
  downloads : Z;
  searches : Z;
}.

Record UserStats : Type := {
  stat_downloads : Z;
  stat_searches : Z;
  last_active : option string;
}.

Record LastSearch : Type := {
  ls_query : string;
  ls_type : string;
  ls_page : Z;
}.

(** [context.user_data], the per-user dictionary of the framework. *)
Record CtxData : Type := {
  last_search : option LastSearch;
  search_mode : option string;
  admin_mode : option string;
  broadcast_message : option string;
}.

(** The process-wide dictionaries. *)
Record State : Type := {
  user_data_store : gmap Z UserData;
  user_stats : gmap Z UserStats;
  context_user_data : gmap Z CtxData;
}.

Definition empty_ctx : CtxData :=
  {| last_search := None; search_mode := None;
     admin_mode := None; broadcast_message := None |}.

Definition empty_state : State :=
  {| user_data_store := ∅; user_stats := ∅; context_user_data := ∅ |}.

(** ** The environment of a turn

    Everything a handler reads from outside the process: the configured
    allow-list, the clock, the catalog API (already through [fetch_api],
    which turns every failure and every [success = false] into [None]), the
    binary host, whether the transport takes an upload, and which hosts in
    brackets the installed [urllib] takes for valid.  Text and
    acknowledgement effects are taken by the transport as they come. *)
Record World : Type := {
  ADMIN_IDS : list Z;
  now : string;
  catalog_listing : ApiRequest -> option Listing;
  catalog_song : string -> option Song;
  catalog_collection : ApiRequest -> option Collection;
  catalog_suggestions : string -> Z -> option (list Song);
  http : string -> HttpResult;
  upload_accepted : Audio -> bool;
  bracketed_netloc_valid : string -> bool;
}.

(** ** Rendered output

    A message is its template and the values interpolated into it. *)
Inductive Text : Type :=
| TxtWelcome
| TxtHelp
| TxtSettings (current_desc : string)
| TxtStats (stats_downloads stats_searches : Z) (in_history : nat) (quality_desc : string)
| TxtHistoryEmpty
| TxtRecentDownloads (shown : list HistoryEntry)
| TxtAdminPanel (total_users : nat) (total_downloads total_searches : Z)
| TxtDetailedStats (total_users : nat) (total_downloads total_searches : Z)
| TxtUnauthorizedAccess
| TxtUnauthorized
| TxtBroadcastFeature
| TxtLyricsNotImplemented
| TxtInvalidUrl
| TxtFetchingDetails
| TxtFetchDetailsFailed
| TxtSearching
| TxtNoneFoundTryOther (search_type query : string)
| TxtNoneFound (search_type query : string)
| TxtSearchResults (query : string) (total : Z) (search_type : string)
| TxtSearchFailed
| TxtSongCaption (s : Song)
| TxtAlbumCaption (c : Collection) (page : Z) (displayed : list Song)
| TxtPlaylistCaption (c : Collection) (page : Z) (displayed : list Song)
| TxtArtistProfile
| TxtArtistSongs
| TxtArtistAlbums
| TxtSimilarSongs
| TxtQualitySet (desc : string)
| TxtHistoryCleared
| TxtSearchPrompt (mode : string)
| TxtDownloading
| TxtPreparing
| TxtSongDetailsFailed
| TxtNoDownloadUrl
| TxtDownloadingFrame (frame : nat) (name : string)
| TxtSongDownloadFailed
| TxtDownloadFailed
| TxtBatchStarting
| TxtFetchSongsFailed
| TxtNoSongsFound
| TxtBatchStart (total : nat)
| TxtBatchProgress (idx total : nat) (name : string)
| TxtBatchComplete (sent_songs : nat)
| TxtBatchFailed
| TxtErrorOccurred.

(** The message an effect edits or deletes. *)
Inductive Msg : Type :=
| QueryMessage
| LoadingMsg
| StatusMsg.

(** An inline keyboard: rows of [callback_data]. *)
Definition Keyboard : Type := list (list string).

Inductive Effect : Type :=
| Answer (text : option Text) (show_alert : bool)
| ReplyText (t : Text) (kb : Keyboard)
| EditText (m : Msg) (t : Text) (kb : Keyboard)
| DeleteMessage (m : Msg)
| SendPhoto (photo : string) (caption : Text) (kb : Keyboard)
| SendAudio (a : Audio)
| SendChatAction
| Sleep
| ApiGet (r : ApiRequest)
| HttpGet (url : string)
| LogError (e : Exc).

(** ** The handler monad: state, trace of effects, exceptions.

    A raise keeps the state and the trace reached so far, as a Python
    exception keeps the mutations done before it. *)
Definition M (A : Type) : Type := State -> Res A * State * list Effect.

#[global] Instance M_ret : MRet M := fun A a st => (Ok a, st, []).

#[global] Instance M_bind : MBind M := fun A B k m st =>
  match m st with
  | (Ok a, st1, tr1) =>
      match k a st1 with
      | (r, st2, tr2) => (r, st2, tr1 ++ tr2)
      end
  | (Raise e, st1, tr1) => (Raise e, st1, tr1)
  end.

Definition raise {A} (e : Exc) : M A := fun st => (Raise e, st, []).

Definition lift {A} (r : Res A) : M A := fun st => (r, st, []).

Definition emit (e : Effect) : M unit := fun st => (Ok tt, st, [e]).

Definition get_state : M State := fun st => (Ok st, st, []).

Definition modify_state (f : State -> State) : M unit := fun st => (Ok tt, f st, []).

(** [try: body except Exception as e: handler(e)] *)
Definition try_except {A} (body : M A) (handler : Exc -> M A) : M A := fun st =>
  match body st with
  | (Ok a, st1, tr1) => (Ok a, st1, tr1)
  | (Raise e, st1, tr1) =>
      match handler e st1 with
      | (r, st2, tr2) => (r, st2, tr1 ++ tr2)
      end
  end.

Definition result {A} (x : Res A * State * list Effect) : Res A := x.1.1.
Definition final {A} (x : Res A * State * list Effect) : State := x.1.2.
Definition trace {A} (x : Res A * State * list Effect) : list Effect := x.2.

(** ** Python list primitives *)

(** The position a slice bound denotes in a list of length [len]. *)
Definition slice_bound (len : nat) (i : Z) : nat :=
  if i <? 0 then Z.to_nat (Z.max 0 (Z.of_nat len + i))
  else Nat.min (Z.to_nat i) len.

(** [l[start:stop]] *)
Definition py_slice {A} (l : list A) (start stop : Z) : list A :=
  let a := slice_bound (length l) start in
  let b := slice_bound (length l) stop in
  take (b - a) (drop a l).

(** [l[start:]] *)
Definition py_slice_from {A} (l : list A) (start : Z) : list A :=
  drop (slice_bound (length l) start) l.

(** [l[-1]] on a list known to be non-empty by the caller's test. *)
Definition py_last {A} (l : list A) : Res A := py_nth l (length l - 1).

(** [x if x else None] on a string: [None] and the empty string are false. *)
Definition truthy (o : option string) : option string :=
  match o with
  | Some "" => None
  | other => other
  end.

(** [images[-1].get("url") if images else None] *)
Definition last_image_url (images : list Variant) : option string :=
  match last images with
  | Some v => variant_url v
  | None => None
  end.

(** [", ".join(a.get("name", "Unknown") for a in primary) if primary else "Unknown"] *)
Definition artist_names_of (primary : list (option string)) : string :=
  match primary with
  | [] => "Unknown"
  | _ => PyStr.join ", " (map (default "Unknown") primary)
  end.

(** ** Quality settings *)

Record QualityOption : Type := {
  q_quality : string;
  q_desc : string;
  q_index : nat;
}.

Definition QUALITY_OPTIONS (key : string) : option QualityOption :=
  if String.eqb key "high" then
    Some {| q_quality := "320kbps"; q_desc := "High Quality (Slow)"; q_index := 4 |}
  else if String.eqb key "medium" then
    Some {| q_quality := "160kbps"; q_desc := "Balanced (Medium)"; q_index := 3 |}
  else if String.eqb key "low" then
    Some {| q_quality := "96kbps"; q_desc := "Fast (Low)"; q_index := 2 |}
  else None.

(** [QUALITY_OPTIONS[key]] *)
Definition quality_option (key : string) : Res QualityOption :=
  match QUALITY_OPTIONS key with
  | Some o => Ok o
  | None => Raise KeyError
  end.

(** The three tiers the settings keyboard offers. *)
Inductive QualityTier : Type := low | medium | high.

Definition tier_key (t : QualityTier) : string :=
  match t with
  | low => "low"
  | medium => "medium"
  | high => "high"
  end.

(** ** Store operations *)

Definition set_user_data_store (f : gmap Z UserData -> gmap Z UserData) (st : State) : State :=
  {| user_data_store := f (user_data_store st);
     user_stats := user_stats st;
     context_user_data := context_user_data st |}.

Definition set_user_stats (f : gmap Z UserStats -> gmap Z UserStats) (st : State) : State :=
  {| user_data_store := user_data_store st;
     user_stats := f (user_stats st);
     context_user_data := context_user_data st |}.

Definition set_context (f : gmap Z CtxData -> gmap Z CtxData) (st : State) : State :=
  {| user_data_store := user_data_store st;
     user_stats := user_stats st;
     context_user_data := f (context_user_data st) |}.

Definition default_user_data : UserData :=
  {| quality := "medium"; history := []; downloads := 0; searches := 0 |}.

(** [get_user_data]: the entry of [user_id], created on first access.  The
    dictionary it returns is the stored one; later writes through it are
    [update_user_data]. *)
Definition get_user_data (user_id : Z) : M UserData := fun st =>
  match user_data_store st !! user_id with
  | Some d => (Ok d, st, [])
  | None => (Ok default_user_data,
             set_user_data_store <[user_id := default_user_data]> st, [])
  end.

Definition update_user_data (user_id : Z) (f : UserData -> UserData) : M unit :=
  modify_state (set_user_data_store (alter f user_id)).

Definition set_quality (q : string) (d : UserData) : UserData :=
  {| quality := q; history := history d; downloads := downloads d; searches := searches d |}.

Definition set_history (h : list HistoryEntry) (d : UserData) : UserData :=
  {| quality := quality d; history := h; downloads := downloads d; searches := searches d |}.

Definition incr_downloads (d : UserData) : UserData :=
  {| quality := quality d; history := history d;
     downloads := downloads d + 1; searches := searches d |}.

(** Lines 1075-1083: append, then keep the last 50. *)
Definition append_history (e : HistoryEntry) (d : UserData) : UserData :=
  let h := history d ++ [e] in
  set_history (if (50 <? length h)%nat then py_slice_from h (-50) else h) d.

Definition default_user_stats : UserStats :=
  {| stat_downloads := 0; stat_searches := 0; last_active := None |}.

Definition update_user_stats (w : World) (user_id : Z) (action : string) : M unit :=
  modify_state (set_user_stats (fun m =>
    let s := default default_user_stats (m !! user_id) in
    let s1 :=
      if String.eqb action "download" then
        {| stat_downloads := stat_downloads s + 1;
           stat_searches := stat_searches s; last_active := last_active s |}
      else if String.eqb action "search" then
        {| stat_downloads := stat_downloads s;
           stat_searches := stat_searches s + 1; last_active := last_active s |}
      else s in
    <[user_id := {| stat_downloads := stat_downloads s1;
                    stat_searches := stat_searches s1;
                    last_active := Some (now w) |}]> m)).

Definition ctx_of (st : State) (user_id : Z) : CtxData :=
  default empty_ctx (context_user_data st !! user_id).

Definition update_ctx (user_id : Z) (f : CtxData -> CtxData) : M unit :=
  modify_state (fun st => set_context <[user_id := f (ctx_of st user_id)]> st).

Definition set_last_search (ls : LastSearch) (c : CtxData) : CtxData :=
  {| last_search := Some ls; search_mode := search_mode c;
     admin_mode := admin_mode c; broadcast_message := broadcast_message c |}.

Definition set_search_mode (m : string) (c : CtxData) : CtxData :=
  {| last_search := last_search c; search_mode := Some m;
     admin_mode := admin_mode c; broadcast_message := broadcast_message c |}.

Definition set_admin_mode (m : string) (c : CtxData) : CtxData :=
  {| last_search := last_search c; search_mode := search_mode c;
     admin_mode := Some m; broadcast_message := broadcast_message c |}.

(** [user_id in ADMIN_IDS] *)
Definition is_admin (w : World) (user_id : Z) : bool :=
  existsb (Z.eqb user_id) (ADMIN_IDS w).

(** ** Outside calls *)

Definition api_listing (w : World) (r : ApiRequest) : M (option Listing) :=
  emit (ApiGet r);; mret (catalog_listing w r).

Definition get_song_details (w : World) (id : string) : M (option Song) :=
  emit (ApiGet (SongReq id));; mret (catalog_song w id).

Definition get_album_details (w : World) (id : string) : M (option Collection) :=
  emit (ApiGet (AlbumReq id));; mret (catalog_collection w (AlbumReq id)).

Definition get_playlist_details (w : World) (id : string) (page limit : Z)
  : M (option Collection) :=
  emit (ApiGet (PlaylistReq id page limit));;
  mret (catalog_collection w (PlaylistReq id page limit)).

Definition get_song_suggestions (w : World) (id : string) (limit : Z)
  : M (option (list Song)) :=
  emit (ApiGet (SuggestionsReq id limit));; mret (catalog_suggestions w id limit).

(** [session.get(url)]: the response's status and body, or [ClientError]. *)
Definition http_get (w : World) (url : string) : M (Z * string) :=
  emit (HttpGet url);;
  match http w url with
  | HttpRaises => raise ClientError
  | HttpResponse status body => mret (status, body)
  end.

(** [context.bot.send_audio(...)] *)
Definition send_audio (w : World) (a : Audio) : M unit :=
  if upload_accepted w a then emit (SendAudio a) else raise TelegramError.

(** [ChatAction.UPLOAD_AUDIO], line 1039.  The module takes [ChatAction] from
    [telegram.constants], next to [Application], [ContextTypes] and [filters]
    of [telegram.ext]: the library of these names, python-telegram-bot from
    release 20 on, has the upload actions of voice, document, photo, video
    and video note, and none of audio.  Reading the attribute raises, before
    [send_chat_action] is called. *)
Definition upload_audio_action : M unit := raise AttributeError.

(** ** Retrieval pipeline *)

(** Lines 1019-1023 and 1150-1154: the URL of the variant at the preferred
    index, else of the last variant, else nothing.  The two subscripts are
    Python subscripts and would raise out of range. *)
Definition select_download_url (quality_index : nat) (download_urls : list Variant)
  : Res (option string) :=
  if (quality_index <? length download_urls)%nat then
    let? v := py_nth download_urls quality_index in Ok (variant_url v)
  else if negb (bool_decide (download_urls = [])) then
    let? v := py_last download_urls in Ok (variant_url v)
  else Ok None.

(** The thumbnail fetch nested in the audio response's [200] branch. *)
Definition fetch_thumbnail (w : World) (thumbnail_url : option string)
  : M (option string) :=
  match truthy thumbnail_url with
  | Some url =>
      thumb_resp ← http_get w url;
      mret (if thumb_resp.1 =? 200 then Some thumb_resp.2 else None)
  | None => mret None
  end.

(** The three sweeps over the ten loading frames. *)
Definition loading_animation (name : string) : M unit :=
  foldr (fun frame k => emit (EditText LoadingMsg (TxtDownloadingFrame frame name) []);;
                        emit Sleep;; k)
        (mret tt)
        (seq 0 10 ++ seq 0 10 ++ seq 0 10).

Definition download_song (w : World) (user_id : Z) (song_id : string) : M unit :=
  user_data ← get_user_data user_id;
  let quality := quality user_data in
  try_except
    (emit (Answer (Some TxtDownloading) false);;
     emit (ReplyText TxtPreparing []);;
     data ← get_song_details w song_id;
     match data with
     | None => emit (EditText LoadingMsg TxtSongDetailsFailed [])
     | Some song_data =>
         let name := default "Unknown" (song_name song_data) in
         let artist_names := artist_names_of (song_primary_artists song_data) in
         let download_urls := song_downloadUrl song_data in
         qo ← lift (quality_option quality);
         download_url ← lift (select_download_url (q_index qo) download_urls);
         match truthy download_url with
         | None => emit (EditText LoadingMsg TxtNoDownloadUrl [])
         | Some url =>
             loading_animation name;;
             upload_audio_action;;
             emit SendChatAction;;
             let thumbnail_url := last_image_url (song_image song_data) in
             resp ← http_get w url;
             if resp.1 =? 200 then
               let audio := resp.2 in
               thumb_data ← fetch_thumbnail w thumbnail_url;
               send_audio w {| audio_data := audio;
                               audio_thumbnail := truthy thumb_data;
                               audio_title := name;
                               audio_performer := artist_names;
                               audio_duration := song_duration song_data |};;
               update_user_stats w user_id "download";;
               update_user_data user_id incr_downloads;;
               update_user_data user_id
                 (append_history {| entry_name := name;
                                    entry_artist := artist_names;
                                    entry_id := song_id |});;
               emit (DeleteMessage LoadingMsg)
             else emit (EditText LoadingMsg TxtSongDownloadFailed [])
         end
     end)
    (fun e => emit (LogError e);;
              emit (EditText LoadingMsg TxtDownloadFailed [])).

(** The loop of [download_all_songs] keeps no record of what became of an
    item; the status names the exit an iteration takes: the end of the
    [200] branch, the [continue] of line 1157, and the other two (the
    response that is not [200], the [except] of line 1194). *)
Inductive DownloadStatus : Type := sent | skippedNoUrl | fetchFailed.

(** One iteration of the loop, lines 1130-1196. *)
Definition download_item (w : World) (user_id : Z) (quality_index total_songs : nat)
    (idx : nat) (song : Song) : M DownloadStatus :=
  try_except
    (let song_id := song_id song in
     let name := default "Unknown" (song_name song) in
     let artist_names := artist_names_of (song_primary_artists song) in
     emit (EditText StatusMsg (TxtBatchProgress idx total_songs name) []);;
     song ← (if bool_decide (song_downloadUrl song = []) then
               song_data_response ← get_song_details w song_id;
               mret (default song song_data_response)
             else mret song);
     let download_urls := song_downloadUrl song in
     download_url ← lift (select_download_url quality_index download_urls);
     match truthy download_url with
     | None => mret skippedNoUrl
     | Some url =>
         resp ← http_get w url;
         if resp.1 =? 200 then
           let audio := resp.2 in
           let thumbnail_url := last_image_url (song_image song) in
           thumb_data ← fetch_thumbnail w thumbnail_url;
           send_audio w {| audio_data := audio;
                           audio_thumbnail := truthy thumb_data;
                           audio_title := name;
                           audio_performer := artist_names;
                           audio_duration := song_duration song |};;
           update_user_stats w user_id "download";;
           emit Sleep;;
           mret sent
         else mret fetchFailed
     end)
    (fun e => emit (LogError e);; mret fetchFailed).

(** [for idx, song in enumerate(songs, idx)] *)
Fixpoint download_loop (w : World) (user_id : Z) (quality_index total_songs : nat)
    (idx : nat) (songs : list Song) : M (list DownloadStatus) :=
  match songs with
  | [] => mret []
  | song :: rest =>
      o ← download_item w user_id quality_index total_songs idx song;
      os ← download_loop w user_id quality_index total_songs (S idx) rest;
      mret (o :: os)
  end.

(** [download_all_songs]; the value is the list of the iterations' exits, empty
    when the loop is not reached. *)
Definition download_all_songs (w : World) (user_id : Z) (item_id item_type : string)
  : M (list DownloadStatus) :=
  try_except
    (emit (Answer (Some TxtBatchStarting) false);;
     data ← (if String.eqb item_type "album" then get_album_details w item_id
             else get_playlist_details w item_id 0 100);
     match data with
     | None => emit (ReplyText TxtFetchSongsFailed []);; mret []
     | Some d =>
         let songs := coll_songs d in
         if bool_decide (songs = []) then emit (ReplyText TxtNoSongsFound []);; mret []
         else
           let total_songs := length songs in
           emit (ReplyText (TxtBatchStart total_songs) []);;
           user_data ← get_user_data user_id;
           let quality := quality user_data in
           qo ← lift (quality_option quality);
           let quality_index := q_index qo in
           os ← download_loop w user_id quality_index total_songs 1 songs;
           emit (EditText StatusMsg (TxtBatchComplete total_songs) []);;
           mret os
     end)
    (fun e => emit (LogError e);;
              emit (ReplyText TxtBatchFailed []);;
              mret []).

(** ** Catalog URLs *)

Module Url.

Definition is_char (c d : ascii) : bool := Ascii.eqb c d.

Fixpoint has (c : ascii) (s : string) : bool :=
  match s with
  | "" => false
  | String d s' => is_char c d || has c s'
  end.

(** The part of [s] before the first character that satisfies [p]. *)
Fixpoint before (p : ascii -> bool) (s : string) : string :=
  match s with
  | "" => ""
  | String c s' => if p c then "" else String c (before p s')
  end.

(** The rest of [s] from the first character that satisfies [p]. *)
Fixpoint from (p : ascii -> bool) (s : string) : string :=
  match s with
  | "" => ""
  | String c s' => if p c then s else from p s'
  end.

Fixpoint remove (p : ascii -> bool) (s : string) : string :=
  match s with
  | "" => ""
  | String c s' => if p c then remove p s' else String c (remove p s')
  end.

Fixpoint lstrip_by (p : ascii -> bool) (s : string) : string :=
  match s with
  | "" => ""
  | String c s' => if p c then lstrip_by p s' else s
  end.

Fixpoint all (p : ascii -> bool) (s : string) : bool :=
  match s with
  | "" => true
  | String c s' => p c && all p s'
  end.

Definition in_range (lo hi : nat) (c : ascii) : bool :=
  let n := nat_of_ascii c in (lo <=? n)%nat && (n <=? hi)%nat.

Definition is_alpha (c : ascii) : bool := in_range 65 90 c || in_range 97 122 c.

Definition is_scheme_char (c : ascii) : bool :=
  is_alpha c || in_range 48 57 c || is_char c "+" || is_char c "-" || is_char c ".".

Definition lower (c : ascii) : ascii :=
  if in_range 65 90 c then ascii_of_nat (nat_of_ascii c + 32) else c.

Fixpoint lower_string (s : string) : string :=
  match s with
  | "" => ""
  | String c s' => String (lower c) (lower_string s')
  end.

Definition uses_params : list string :=
  [""; "ftp"; "hdl"; "prospero"; "http"; "imap"; "https"; "shttp"; "rtsp";
   "rtspu"; "sip"; "sips"; "mms"; "sftp"; "tel"].

(** The scheme, when the text before the first colon is one, and what
    follows it. *)
Definition split_scheme (url : string) : string * string :=
  let head := before (is_char ":") url in
  match url, from (is_char ":") url with
  | String c0 _, String _ rest =>
      if negb (bool_decide (head = "")) && is_alpha c0 && all is_scheme_char head
      then (lower_string head, rest)
      else ("", url)
  | _, _ => ("", url)
  end.

Definition is_delim (c : ascii) : bool :=
  is_char c "/" || is_char c "?" || is_char c "#".

(** The path left once the parameters of its last segment are cut. *)
Definition strip_params (url : string) : string :=
  if has "/" url then
    let segments := PyStr.split "/" url in
    match last segments with
    | Some seg =>
        if has ";" seg
        then PyStr.join "/" (take (length segments - 1) segments
                             ++ [before (is_char ";") seg])
        else url
    | None => url
    end
  else before (is_char ";") url.

(** [urlparse(url).path] of the standard library: leading control
    characters and blanks and all TAB, CR, LF are dropped; a scheme and a
    [//host] part are cut; the fragment, the query and the parameters are
    cut.  A host with an unmatched bracket is the library's [ValueError], and
    so is a host part with both brackets that the library's check of
    bracketed hosts refuses (no IPv6 or IPvFuture literal, or text around
    the brackets).  That check differs between the releases of the library
    and is given by [valid], on the whole host part. *)
Definition urlparse_path (valid : string -> bool) (url : string) : Res string :=
  let url := lstrip_by (in_range 0 32) url in
  let url := remove (fun c => is_char c "009" || is_char c "010" || is_char c "013") url in
  let '(scheme, url) := split_scheme url in
  let? url :=
    (if PyStr.startswith url "//" then
       let rest := match url with String _ (String _ r) => r | _ => "" end in
       let netloc := before is_delim rest in
       if (has "[" netloc && negb (has "]" netloc))
          || (has "]" netloc && negb (has "[" netloc))
       then Raise ValueError
       else if has "[" netloc && has "]" netloc && negb (valid netloc)
       then Raise ValueError
       else Ok (from is_delim rest)
     else Ok url) in
  let url := before (is_char "#") url in
  let url := before (is_char "?") url in
  Ok (if bool_decide (scheme ∈ uses_params) && has ";" url
      then strip_params url else url).

End Url.

(** [path.split("/")[-1]] *)
Definition last_segment (path : string) : Res string :=
  py_last (PyStr.split "/" path).

(** [extract_jiosaavn_id]: the id and the kind, or the source's
    [(None, None)]. *)
Definition extract_jiosaavn_id (w : World) (url : string) : option (string * string) :=
  let attempt :=
    let? path := Url.urlparse_path (bracketed_netloc_valid w) url in
    if PyStr.contains "/song/" path then
      let? song_id := last_segment path in Ok (Some (song_id, "song"))
    else if PyStr.contains "/album/" path then
      let? album_id := last_segment path in Ok (Some (album_id, "album"))
    else if PyStr.contains "/featured/" path || PyStr.contains "/playlist/" path then
      let? playlist_id := last_segment path in Ok (Some (playlist_id, "playlist"))
    else if PyStr.contains "/artist/" path then
      let? artist_id := last_segment path in Ok (Some (artist_id, "artist"))
    else Ok None in
  match attempt with
  | Ok r => r
  | Raise _ => None
  end.

(** ** Keyboards *)

Definition create_song_keyboard (song_id : string) : Keyboard :=
  [[encode (Download song_id)]; [encode (Similar song_id)]; [encode BackSearch]].

(** The button of a list entry, for the four kinds the source knows. *)
Definition open_token (item_type item_id : string) : option string :=
  if String.eqb item_type "song" then Some (encode (OpenSong item_id))
  else if String.eqb item_type "album" then Some (encode (OpenAlbum item_id))
  else if String.eqb item_type "playlist" then Some (encode (OpenPlaylist item_id))
  else if String.eqb item_type "artist" then Some (encode (OpenArtist item_id))
  else None.

(** [(total + limit - 1) // limit] with [limit = 10] *)
Definition total_pages (total : Z) : Z := (total + 10 - 1) / 10.

(** The artist named on the button of a song or of an album, lines 251 and
    257: [item.get("artists", {}).get("primary", [{}])[0].get("name",
    "Unknown") if item.get("artists") else "Unknown"].  The default [[{}]]
    stands in for a missing key only: the subscript raises on a list that is
    there and empty. *)
Definition first_artist_name (item : Song) : Res string :=
  match song_artists_primary item with
  | Some primary => let? a := py_nth primary 0 in Ok (default "Unknown" a)
  | None => Ok "Unknown"
  end.

(** One turn of the loop over the items, lines 247-272: the row it appends,
    none for a kind the source does not know.  The label is not kept; what
    raises while it is built is. *)
Definition list_row (item_type : string) (item : Song) : Res Keyboard :=
  let item_id := song_id item in
  if String.eqb item_type "song" then
    let? artist := first_artist_name item in Ok [[encode (OpenSong item_id)]]
  else if String.eqb item_type "album" then
    let? artist := first_artist_name item in Ok [[encode (OpenAlbum item_id)]]
  else if String.eqb item_type "playlist" then Ok [[encode (OpenPlaylist item_id)]]
  else if String.eqb item_type "artist" then Ok [[encode (OpenArtist item_id)]]
  else Ok [].

Fixpoint list_rows (item_type : string) (items : list Song) : Res Keyboard :=
  match items with
  | [] => Ok []
  | item :: rest =>
      let? row := list_row item_type item in
      let? rows := list_rows item_type rest in
      Ok (row ++ rows)
  end.

Definition create_list_keyboard (items : list Song) (item_type : string) (page total_items : Z)
    (query : string) : Res Keyboard :=
  let? buttons := list_rows item_type items in
  let nav :=
    if 1 <? total_pages total_items then
      [ (if 0 <? page then [encode (ListPage item_type (page - 1) query)] else [])
        ++ [encode Noop]
        ++ (if page <? total_pages total_items - 1
            then [encode (ListPage item_type (page + 1) query)] else []) ]
    else [] in
  Ok (buttons ++ nav ++ [[encode MainMenu]]).

Definition create_album_playlist_keyboard (item_id item_type : string) (page total_songs : Z)
  : Keyboard :=
  let nav :=
    if 10 <? total_songs then
      [ (if 0 <? page then [encode (DetailPage item_type item_id (page - 1))] else [])
        ++ [encode Noop]
        ++ (if page <? total_pages total_songs - 1
            then [encode (DetailPage item_type item_id (page + 1))] else []) ]
    else [] in
  [[encode (DownloadAll item_type item_id)]] ++ nav ++ [[encode BackSearch]].

Definition create_artist_keyboard (artist_id : string) : Keyboard :=
  [[encode (ArtistSongs artist_id 0)]; [encode (ArtistAlbums artist_id 0)];
   [encode BackSearch]].

(** The numbered song buttons of a detail view, five to a row. *)
Fixpoint rows_of_five (row : list string) (tokens : list string) : Keyboard :=
  match tokens with
  | [] => match row with [] => [] | _ => [row] end
  | t :: ts =>
      let row' := row ++ [t] in
      if (length row' =? 5)%nat then row' :: rows_of_five [] ts
      else rows_of_five row' ts
  end.

(** ** Views *)

(** The turn being handled: who sent it, and whether it is a text message
    ([update.message]) or a button press ([update.callback_query]). *)
Record Update : Type := {
  effective_user_id : Z;
  has_message : bool;
}.

(** [reply_text] on a message turn, [edit_text] of the pressed message
    otherwise. *)
Definition show (u : Update) (t : Text) (kb : Keyboard) : M unit :=
  if has_message u then emit (ReplyText t kb) else emit (EditText QueryMessage t kb).

(** The common tail of the three [display_*_details]. *)
Definition show_detail (u : Update) (image_url : option string) (caption : Text)
    (kb : Keyboard) (edit_message : bool) : M unit :=
  match truthy image_url with
  | Some photo =>
      if edit_message && negb (has_message u)
      then emit (DeleteMessage QueryMessage);; emit (SendPhoto photo caption kb)
      else emit (SendPhoto photo caption kb)
  | None =>
      if edit_message && negb (has_message u)
      then emit (EditText QueryMessage caption kb)
      else emit (ReplyText caption kb)
  end.

Definition display_song_details (u : Update) (song_data : Song) (edit_message : bool)
  : M unit :=
  try_except
    (show_detail u (last_image_url (song_image song_data)) (TxtSongCaption song_data)
       (create_song_keyboard (song_id song_data)) edit_message)
    (fun e => emit (LogError e)).

Definition displayed_songs (songs : list Song) (page : Z) : list Song :=
  py_slice songs (page * 10) (page * 10 + 10).

Definition display_album_details (u : Update) (album_data : Collection) (page : Z)
    (edit_message : bool) : M unit :=
  try_except
    (let shown := displayed_songs (coll_songs album_data) page in
     let keyboard :=
       rows_of_five [] (map (fun s => encode (OpenSong (song_id s))) shown)
       ++ create_album_playlist_keyboard (coll_id album_data) "album" page
            (coll_songCount album_data) in
     show_detail u (last_image_url (coll_image album_data))
       (TxtAlbumCaption album_data page shown) keyboard edit_message)
    (fun e => emit (LogError e)).

Definition display_playlist_details (u : Update) (playlist_data : Collection) (page : Z)
    (edit_message : bool) : M unit :=
  try_except
    (let shown := displayed_songs (coll_songs playlist_data) page in
     let keyboard :=
       rows_of_five [] (map (fun s => encode (OpenSong (song_id s))) shown)
       ++ create_album_playlist_keyboard (coll_id playlist_data) "playlist" page
            (coll_songCount playlist_data) in
     show_detail u (last_image_url (coll_image playlist_data))
       (TxtPlaylistCaption playlist_data page shown) keyboard edit_message)
    (fun e => emit (LogError e)).

(** ** Commands *)

Definition start_command (w : World) (u : Update) : M unit :=
  let user_id := effective_user_id u in
  get_user_data user_id;;
  let keyboard :=
    [[encode (SearchPrompt "song"); encode (SearchPrompt "album")];
     [encode (SearchPrompt "playlist"); encode (SearchPrompt "artist")];
     [encode Settings; encode History];
     [encode MyStats; encode Help]]
    ++ (if is_admin w user_id then [[encode AdminPanel]] else []) in
  show u TxtWelcome keyboard.

Definition help_command (u : Update) : M unit :=
  show u TxtHelp [[encode MainMenu]].

Definition settings_command (u : Update) : M unit :=
  user_data ← get_user_data (effective_user_id u);
  let current_quality := quality user_data in
  qo ← lift (quality_option current_quality);
  show u (TxtSettings (q_desc qo))
    [[encode (SetQuality "high")]; [encode (SetQuality "medium")];
     [encode (SetQuality "low")]; [encode MainMenu]].

Definition stats_command (u : Update) : M unit :=
  let user_id := effective_user_id u in
  user_data ← get_user_data user_id;
  st ← get_state;
  let stats := default default_user_stats (user_stats st !! user_id) in
  qo ← lift (quality_option (quality user_data));
  show u (TxtStats (stat_downloads stats) (stat_searches stats)
            (length (history user_data)) (q_desc qo))
    [[encode MainMenu]].

Definition history_command (u : Update) : M unit :=
  user_data ← get_user_data (effective_user_id u);
  let history := history user_data in
  match history with
  | [] => show u TxtHistoryEmpty [[encode (SearchPrompt "song")]]
  | _ => show u (TxtRecentDownloads (rev (py_slice_from history (-10))))
           [[encode ClearHistory]; [encode MainMenu]]
  end.

(** [sum(u.get(key, 0) for u in user_stats.values())] *)
Definition sum_stats (f : UserStats -> Z) (m : gmap Z UserStats) : Z :=
  map_fold (fun _ s acc => acc + f s) 0 m.

Definition admin_panel (w : World) (u : Update) : M unit :=
  let user_id := effective_user_id u in
  if negb (is_admin w user_id) then emit (Answer (Some TxtUnauthorizedAccess) true)
  else
    st ← get_state;
    let total_users := size (user_stats st) in
    let total_downloads := sum_stats stat_downloads (user_stats st) in
    let total_searches := sum_stats stat_searches (user_stats st) in
    emit (EditText QueryMessage (TxtAdminPanel total_users total_downloads total_searches)
            [[encode AdminBroadcast]; [encode AdminStats]; [encode MainMenu]]).

(** ** Message handlers *)

Definition search_and_display (w : World) (u : Update) (query search_type : string)
    (page : Z) : M unit :=
  let user_id := effective_user_id u in
  update_user_stats w user_id "search";;
  update_ctx user_id
    (set_last_search {| ls_query := query; ls_type := search_type; ls_page := page |});;
  (if has_message u then emit (ReplyText TxtSearching []) else mret tt);;
  try_except
    (if String.eqb search_type "song" || String.eqb search_type "album"
        || String.eqb search_type "playlist" || String.eqb search_type "artist" then
       data ← api_listing w (SearchReq search_type query page 10);
       (if has_message u then emit (DeleteMessage LoadingMsg) else mret tt);;
       match data with
       | None => show u (TxtNoneFoundTryOther search_type query) [[encode MainMenu]]
       | Some d =>
           let results := listing_results d in
           let total := listing_total d in
           match results with
           | [] => show u (TxtNoneFound search_type query) [[encode MainMenu]]
           | _ =>
               keyboard ← lift (create_list_keyboard results search_type page total query);
               show u (TxtSearchResults query total search_type) keyboard
           end
       end
     else mret tt)
    (fun e => emit (LogError e);;
              if has_message u then emit (EditText LoadingMsg TxtSearchFailed [])
              else mret tt).

Definition handle_url (w : World) (u : Update) (url : string) : M unit :=
  match extract_jiosaavn_id w url with
  | Some (String c id', item_type) =>
      let item_id := String c id' in
      emit (ReplyText TxtFetchingDetails []);;
      try_except
        ((if String.eqb item_type "song" then
            data ← get_song_details w item_id;
            match data with
            | Some d => display_song_details u d false
            | None => mret tt
            end
          else if String.eqb item_type "album" then
            data ← get_album_details w item_id;
            match data with
            | Some d => display_album_details u d 0 false
            | None => mret tt
            end
          else if String.eqb item_type "playlist" then
            data ← get_playlist_details w item_id 0 50;
            match data with
            | Some d => display_playlist_details u d 0 false
            | None => mret tt
            end
          else if String.eqb item_type "artist" then
            emit (ReplyText TxtArtistProfile (create_artist_keyboard item_id))
          else mret tt);;
         emit (DeleteMessage LoadingMsg))
        (fun e => emit (LogError e);;
                  emit (EditText LoadingMsg TxtFetchDetailsFailed []))
  | _ => emit (ReplyText TxtInvalidUrl [])
  end.

Definition handle_text_message (w : World) (u : Update) (message_text : string) : M unit :=
  let text := PyStr.strip message_text in
  if PyStr.contains "jiosaavn.com" text || PyStr.contains "saavn.com" text then
    handle_url w u text
  else
    let word_count := length (PyStr.words text) in
    if (6 <? word_count)%nat then emit (ReplyText TxtLyricsNotImplemented [])
    else search_and_display w u text "song" 0.

(** ** Button presses *)

(** A local variable of the handler: [None] while no assignment has run. *)
Definition read_local {A} (v : option A) : M A :=
  match v with
  | Some x => mret x
  | None => raise NameError
  end.

(** The body of the branch that [decode] selected. *)
Definition run_action (w : World) (u : Update) (a : Action) : M unit :=
  let user_id := effective_user_id u in
  match a with
  | MainMenu => start_command w u
  | Help => help_command u
  | Settings => settings_command u
  | SetQuality quality_choice =>
      get_user_data user_id;;
      update_user_data user_id (set_quality quality_choice);;
      qo ← lift (quality_option quality_choice);
      emit (Answer (Some (TxtQualitySet (q_desc qo))) true);;
      settings_command u
  | MyStats => stats_command u
  | History => history_command u
  | ClearHistory =>
      get_user_data user_id;;
      update_user_data user_id (set_history []);;
      emit (Answer (Some TxtHistoryCleared) true);;
      history_command u
  | SearchPrompt mode =>
      emit (EditText QueryMessage (TxtSearchPrompt mode) [[encode MainMenu]]);;
      update_ctx user_id (set_search_mode mode)
  | OpenSong song_id =>
      song_data_response ← get_song_details w song_id;
      match song_data_response with
      | Some d => display_song_details u d true
      | None => mret tt
      end
  | OpenAlbum album_id =>
      album_data_response ← get_album_details w album_id;
      match album_data_response with
      | Some d => display_album_details u d 0 true
      | None => mret tt
      end
  | OpenPlaylist playlist_id =>
      playlist_data_response ← get_playlist_details w playlist_id 0 50;
      match playlist_data_response with
      | Some d => display_playlist_details u d 0 true
      | None => mret tt
      end
  | OpenArtist artist_id =>
      emit (EditText QueryMessage TxtArtistProfile (create_artist_keyboard artist_id))
  | ArtistSongs artist_id page =>
      songs_data ← api_listing w (ArtistSongsReq artist_id page 10);
      match songs_data with
      | Some d =>
          let results := listing_results d in
          let total := listing_total d in
          keyboard ← lift (create_list_keyboard results "song" page total artist_id);
          emit (EditText QueryMessage TxtArtistSongs keyboard)
      | None => mret tt
      end
  | ArtistAlbums artist_id page =>
      (* [songs_data] is assigned in the branch above only *)
      let songs_data : option Listing := None in
      albums_data ← api_listing w (ArtistAlbumsReq artist_id page 10);
      match albums_data with
      | Some d =>
          let results := listing_results d in
          songs ← read_local songs_data;
          let total := listing_total songs in
          keyboard ← lift (create_list_keyboard results "album" page total artist_id);
          emit (EditText QueryMessage TxtArtistAlbums keyboard)
      | None => mret tt
      end
  | Download song_id => download_song w user_id song_id
  | DownloadAll item_type item_id =>
      download_all_songs w user_id item_id item_type;; mret tt
  | Similar song_id =>
      suggestions_data ← get_song_suggestions w song_id 10;
      match suggestions_data with
      | Some results =>
          keyboard ← lift (create_list_keyboard results "song" 0
                             (Z.of_nat (length results)) "");
          emit (EditText QueryMessage TxtSimilarSongs keyboard)
      | None => mret tt
      end
  | ListPage item_type page query_text =>
      st ← get_state;
      match last_search (ctx_of st user_id) with
      | Some ls =>
          if bool_decide (ls_query ls = "") then mret tt
          else search_and_display w u (ls_query ls) item_type page
      | None => mret tt
      end
  | DetailPage item_type item_id page =>
      if String.eqb item_type "album" then
        album_data ← get_album_details w item_id;
        match album_data with
        | Some d => display_album_details u d page true
        | None => mret tt
        end
      else
        playlist_data ← get_playlist_details w item_id 0 100;
        match playlist_data with
        | Some d => display_playlist_details u d page true
        | None => mret tt
        end
  | AdminPanel => admin_panel w u
  | AdminBroadcast =>
      emit (Answer (Some TxtBroadcastFeature) true);;
      update_ctx user_id (set_admin_mode "broadcast")
  | AdminStats =>
      if negb (is_admin w user_id) then emit (Answer (Some TxtUnauthorized) true)
      else
        st ← get_state;
        let total_users := size (user_stats st) in
        let total_downloads := sum_stats stat_downloads (user_stats st) in
        let total_searches := sum_stats stat_searches (user_stats st) in
        emit (EditText QueryMessage
                (TxtDetailedStats total_users total_downloads total_searches)
                [[encode AdminPanel]])
  | BroadcastConfirm => mret tt
  | BackSearch =>
      st ← get_state;
      match last_search (ctx_of st user_id) with
      | Some ls => search_and_display w u (ls_query ls) (ls_type ls) (ls_page ls)
      | None => start_command w u
      end
  | Noop => emit (Answer None false)
  end.

(** [callback_query_handler]: acknowledge, dispatch, and turn every
    exception of the dispatch or of the branch into the error alert. *)
Definition callback_query_handler (w : World) (u : Update) (data : string) : M unit :=
  emit (Answer None false);;
  try_except
    (a ← lift (decode data);
     match a with
     | Some a => run_action w u a
     | None => mret tt
     end)
    (fun e => emit (LogError e);;
              emit (Answer (Some TxtErrorOccurred) true)).

(** ** Vocabulary of the statements *)

(** Every character of [s] satisfies [p]. *)
Fixpoint every (p : ascii -> bool) (s : string) : bool :=
  match s with
  | "" => true
  | String c s' => p c && every p s'
  end.

Definition is_digit (c : ascii) : bool :=
  let n := nat_of_ascii c in (48 <=? n)%nat && (n <=? 57)%nat.

Definition is_numeral_char (c : ascii) : bool := is_digit c || Ascii.eqb c "-".

(** [x in options] for strings. *)
Definition one_of (options : list string) (x : string) : bool :=
  existsb (String.eqb x) options.

(** The precondition of the round trip: the fields are free of the
    separator, and the kinds and qualities are those the keyboards write. *)
Definition separator_free (a : Action) : bool :=
  match a with
  | SetQuality q => one_of ["high"; "medium"; "low"] q
  | SearchPrompt m => one_of ["song"; "album"; "playlist"; "artist"] m
  | OpenSong i | OpenAlbum i | OpenPlaylist i | OpenArtist i | Download i | Similar i =>
      PyStr.sep_free us i
  | ArtistSongs i _ | ArtistAlbums i _ => PyStr.sep_free us i
  | DownloadAll t i => one_of ["album"; "playlist"] t && PyStr.sep_free us i
  | ListPage t _ _ => one_of ["song"; "album"; "playlist"; "artist"] t
  | DetailPage t i _ => one_of ["album"; "playlist"] t && PyStr.sep_free us i
  | _ => true
  end.

(** The actions whose token reaches the branch meant for it: an artist id
    that begins with [songs] or [albums] is kept out of the artist menu by
    the test of line 1308, and the confirmation of a broadcast has no
    branch. *)
Definition has_branch (a : Action) : bool :=
  match a with
  | OpenArtist i => negb (PyStr.startswith i "songs") && negb (PyStr.startswith i "albums")
  | BroadcastConfirm => false
  | _ => true
  end.

(** The only exceptions of [r] are those of a subscript or of [int]. *)
Definition failure_only {A} (r : Res A) : Prop :=
  forall e, r = Raise e -> e = IndexError \/ e = ValueError.

(** The quality a handler reads for [user_id]: the stored one, or that of the
    entry [get_user_data] creates. *)
Definition current_quality (st : State) (user_id : Z) : string :=
  quality (default default_user_data (user_data_store st !! user_id)).

(** The state [get_user_data] leaves. *)
Definition with_user (user_id : Z) (st : State) : State :=
  final (get_user_data user_id st).

(** The index a progress report carries. *)
Definition progress_of (e : Effect) : option nat :=
  match e with
  | EditText StatusMsg (TxtBatchProgress idx _ _) _ => Some idx
  | _ => None
  end.

Definition is_fetch (e : Effect) : bool :=
  match e with
  | HttpGet _ => true
  | _ => false
  end.

Definition is_upload (e : Effect) : bool :=
  match e with
  | SendAudio _ => true
  | _ => false
  end.

(** No stored history is longer than the ring. *)
Definition ring_bounded (st : State) : Prop :=
  forall uid d, user_data_store st !! uid = Some d -> (length (history d) <= 50)%nat.

(** A computation that re-establishes [ring_bounded], however it ends. *)
Definition keeps_ring {A} (m : M A) : Prop :=
  forall st, ring_bounded st -> ring_bounded (final (m st)).

(** [l[-50:]] *)
Definition last_fifty {A} (l : list A) : list A := py_slice_from l (-50).

(** Recording the downloads [es] in turn, as line 1075 to 1083 do for each. *)
Definition record_all (es : list HistoryEntry) (d : UserData) : UserData :=
  foldl (fun d e => append_history e d) d es.




(** The song a batch iteration works on once line 1143 to 1146 have run. *)
Definition resolved (w : World) (song : Song) : Song :=
  if bool_decide (song_downloadUrl song = []) then
    default song (catalog_song w (song_id song))
  else song.

(** ** A catalog to run the handlers on *)

Definition variant (url : string) : Variant := {| variant_url := Some url |}.

(** A song with the five variants of the catalog, in ascending quality. *)
Definition five_variants (id : string) : list Variant :=
  [variant (id +:+ "/12"); variant (id +:+ "/48"); variant (id +:+ "/96");
   variant (id +:+ "/160"); variant (id +:+ "/320")].

Definition track (id : string) (urls images : list Variant) : Song :=
  {| song_id := id; song_name := Some ("Track " +:+ id);
     song_artists_primary := Some [Some "Artist"];
     song_downloadUrl := urls; song_image := images; song_duration := 215 |}.

(** An album of five tracks; the third has no variant. *)
Definition album_of_five : Collection :=
  {| coll_id := "al"; coll_name := Some "Album"; coll_songCount := 5;
     coll_songs := [track "a" (five_variants "a") []; track "b" (five_variants "b") [];
                    track "c" [] []; track "d" (five_variants "d") [];
                    track "e" (five_variants "e") []];
     coll_image := [] |}.

(** Every binary is served, the cover answers [cover]; the catalog knows the
    album above, the song [mute] without a variant, the song [cov] with a
    cover, any other song but [c] with five variants, and the albums of one
    artist; user 1001 is the administrator; the library is a release from
    before the check of bracketed hosts, which takes any of them. *)
Definition example_world (cover : HttpResult) : World :=
  {| ADMIN_IDS := [1001];
     now := "2024-05-01T10:00:00";
     catalog_listing := fun r =>
       match r with
       | ArtistAlbumsReq "459320" 0 10 =>
           Some {| listing_results := [track "al" [] []]; listing_total := 1 |}
       | _ => None
       end;
     catalog_song := fun id =>
       if String.eqb id "c" then None
       else if String.eqb id "mute" then Some (track "mute" [] [])
       else if String.eqb id "cov" then
         Some (track "cov" (five_variants "cov") [variant "cover.jpg"])
       else Some (track id (five_variants id) []);
     catalog_collection := fun r =>
       match r with
       | AlbumReq "al" => Some album_of_five
       | _ => None
       end;
     catalog_suggestions := fun _ _ => None;
     http := fun url =>
       if String.eqb url "cover.jpg" then cover
       else HttpResponse 200 ("audio of " +:+ url);
     upload_accepted := fun _ => true;
     bracketed_netloc_valid := fun _ => true |}.

Definition button_press (user_id : Z) : Update :=
  {| effective_user_id := user_id; has_message := false |}.

Definition text_message (user_id : Z) : Update :=
  {| effective_user_id := user_id; has_message := true |}.

(** The ids ["1"], ..., ["n"]. *)
Definition numbered (n : nat) : list string :=
  map (fun k => PyStr.str (Z.of_nat k)) (seq 1 n).

Definition entry_of (id : string) : HistoryEntry :=
  {| entry_name := "Track " +:+ id; entry_artist := "Artist"; entry_id := id |}.

(** A store written by hand, in which [user_id] has downloaded the songs
    [ids]: they are its history, and their number is its count of downloads
    in its own data and in the statistics. *)
Definition seeded (user_id : Z) (ids : list string) (st : State) : State :=
  {| user_data_store :=
       <[user_id := {| quality := "medium"; history := map entry_of ids;
                       downloads := Z.of_nat (length ids); searches := 0 |}]>
         (user_data_store st);
     user_stats :=
       <[user_id := {| stat_downloads := Z.of_nat (length ids); stat_searches := 0;
                       last_active := None |}]>
         (user_stats st);
     context_user_data := context_user_data st |}.

#[global] Instance HistoryEntry_eq_dec : EqDecision HistoryEntry.
Proof. solve_decision. Defined.


(** ** Text formatting *)

(** [f"{n:02d}"]: the numeral, with a zero before a single digit. *)
Definition format_02d (n : Z) : string :=
  let s := PyStr.str n in
  if (String.length s <? 2)%nat then "0" +:+ s else s.

(** [format_duration]: [mins:secs] with Python's floor division and
    remainder. *)
Definition format_duration (seconds : Z) : string :=
  let mins := seconds / 60 in
  let secs := seconds mod 60 in
  PyStr.str mins +:+ ":" +:+ format_02d secs.

(** The first [n] characters of [s]. *)
Fixpoint str_take (n : nat) (s : string) : string :=
  match n, s with
  | S n', String c s' => String c (str_take n' s')
  | _, _ => ""
  end.

(** [text[:stop]] *)
Definition str_slice_to (text : string) (stop : Z) : string :=
  str_take (slice_bound (String.length text) stop) text.

(** [truncate_text] *)
Definition truncate_text (text : string) (max_length : Z) : string :=
  if max_length <? Z.of_nat (String.length text)
  then str_slice_to text max_length +:+ "..."
  else text.

(** ** More vocabulary *)

(** An item whose list of primary artists is there and empty. *)
Definition unnamed_artist (item : Song) : bool :=
  match song_artists_primary item with
  | Some [] => true
  | _ => false
  end.

(** A list of [items] of kind [item_type] for which no keyboard can be
    built: the kind is labelled with the first primary artist and one of the
    items has none to name. *)
Definition unlabelled (item_type : string) (items : list Song) : bool :=
  one_of ["song"; "album"] item_type && existsb unnamed_artist items.

(** The downloads and searches counted for [user_id] in [user_stats]. *)
Definition downloads_of (st : State) (user_id : Z) : Z :=
  stat_downloads (default default_user_stats (user_stats st !! user_id)).

Definition searches_of (st : State) (user_id : Z) : Z :=
  stat_searches (default default_user_stats (user_stats st !! user_id)).

(** The number of items a batch sent. *)
Definition count_sent (os : list DownloadStatus) : Z :=
  foldr (fun o n => match o with sent => 1 + n | _ => n end) 0 os.

(** The catalog requests among the effects of a turn. *)
Definition api_requests (tr : list Effect) : list ApiRequest :=
  omap (fun e => match e with ApiGet r => Some r | _ => None end) tr.

(** The pages [0], ..., [n - 1]. *)
Definition pages (n : nat) : list Z := map Z.of_nat (seq 0 n).

(** The counters never run behind: no count of downloads in [user_stats] is
    negative, a history is no longer than the user's own download count, and
    that count is no more than the one in [user_stats]. *)
Definition counters_consistent (st : State) : Prop :=
  (forall uid s, user_stats st !! uid = Some s -> 0 <= stat_downloads s)
  /\ forall uid d, user_data_store st !! uid = Some d ->
       Z.of_nat (length (history d)) <= downloads d /\ downloads d <= downloads_of st uid.

(** A computation that re-establishes [I], however it ends. *)
Definition stays {A} (I : State -> Prop) (m : M A) : Prop :=
  forall st, I st -> I (final (m st)).

(** A character of a URL's path segment: no separator of the URL syntax and
    none of the characters the parser drops. *)
Definition segment_char (c : ascii) : bool :=
  negb (Url.is_char c "/" || Url.is_char c "?" || Url.is_char c "#" || Url.is_char c ";"
        || Url.is_char c "009" || Url.is_char c "010" || Url.is_char c "013").

(** The characters [urlparse] drops wherever they stand: TAB, LF and CR. *)
Definition dropped (c : ascii) : bool :=
  Url.is_char c "009" || Url.is_char c "010" || Url.is_char c "013".

(** Nothing, or a query, or a fragment. *)
Definition url_tail (s : string) : bool :=
  match s with
  | "" => true
  | String c _ => Url.is_char c "?" || Url.is_char c "#"
  end.

(** A link to an item of the catalog, as the site shares it: the word of the
    kind, the slug of the title and the identifier, then [tail]. *)
Definition share_link (word slug id tail : string) : string :=
  "https://www.jiosaavn.com/" +:+ word +:+ "/" +:+ slug +:+ "/" +:+ id +:+ tail.

(** The kind [extract_jiosaavn_id] gives for a word of the path. *)
Definition kind_of_word (word : string) : string :=
  if String.eqb word "featured" then "playlist" else word.

(** * Properties *)

#[local] Arguments String.append : simpl nomatch.

(** ** Strings *)

Section StringFacts.

Variable sep : ascii.

Lemma sep_free_every s :
  PyStr.sep_free sep s = every (fun c => negb (Ascii.eqb c sep)) s.
Proof. induction s as [|c s IH]; simpl; [reflexivity | now rewrite IH]. Qed.

Lemma every_weaken (p q : ascii -> bool) s :
  (forall c, p c = true -> q c = true) -> every p s = true -> every q s = true.
Proof.
  intros Hpq. induction s as [|c s IH]; simpl; [reflexivity|].
  rewrite !andb_true_iff. intros [Hc Hs]. split; auto.
Qed.

Lemma every_app p a b : every p (a +:+ b) = every p a && every p b.
Proof. induction a as [|c a IH]; simpl; [reflexivity|]. now rewrite IH, andb_assoc. Qed.

Lemma split_nonempty s : PyStr.split sep s <> [].
Proof.
  destruct s as [|c s]; simpl; [discriminate|].
  destruct (Ascii.eqb c sep); [discriminate|].
  destruct (PyStr.split sep s); discriminate.
Qed.

Lemma split_sep_free s : PyStr.sep_free sep s = true -> PyStr.split sep s = [s].
Proof.
  induction s as [|c s IH]; simpl; [reflexivity|].
  rewrite andb_true_iff, negb_true_iff. intros [Hc Hs].
  rewrite Hc, (IH Hs). reflexivity.
Qed.

Lemma split_app a b :
  PyStr.sep_free sep a = true ->
  PyStr.split sep (a +:+ String sep b) = a :: PyStr.split sep b.
Proof.
  induction a as [|c a IH]; simpl.
  - intros _. now rewrite Ascii.eqb_refl.
  - rewrite andb_true_iff, negb_true_iff. intros [Hc Ha].
    rewrite Hc, (IH Ha). reflexivity.
Qed.

Lemma split1_app a b :
  PyStr.sep_free sep a = true ->
  PyStr.split1 sep (a +:+ String sep b) = [a; b].
Proof.
  induction a as [|c a IH]; simpl.
  - intros _. now rewrite Ascii.eqb_refl.
  - rewrite andb_true_iff, negb_true_iff. intros [Hc Ha].
    rewrite Hc, (IH Ha). reflexivity.
Qed.

Lemma join_split s : PyStr.join (String sep "") (PyStr.split sep s) = s.
Proof.
  induction s as [|c s IH]; simpl; [reflexivity|].
  destruct (Ascii.eqb_spec c sep) as [->|Hne].
  - pose proof (split_nonempty s) as Hn.
    destruct (PyStr.split sep s) as [|p ps] eqn:E; [contradiction|].
    simpl in *. now rewrite IH.
  - pose proof (split_nonempty s) as Hn.
    destruct (PyStr.split sep s) as [|p ps] eqn:E; [contradiction|].
    destruct ps as [|p' ps]; simpl in *; now rewrite <- IH.
Qed.

End StringFacts.

Lemma prefix_app p s : String.prefix p (p +:+ s) = true.
Proof.
  induction p as [|c p IH]; simpl; [now destruct s|].
  destruct (ascii_dec c c); [assumption | contradiction].
Qed.

Lemma prefix_inv p s : String.prefix p s = true -> exists r, s = p +:+ r.
Proof.
  revert s. induction p as [|c p IH]; intros s H.
  - exists s. reflexivity.
  - destruct s as [|d s]; simpl in H; [discriminate|].
    destruct (ascii_dec c d) as [->|]; [|discriminate].
    destruct (IH _ H) as [r ->]. exists r. reflexivity.
Qed.

Lemma app_assoc_str a b c : (a +:+ b) +:+ c = a +:+ (b +:+ c).
Proof. induction a as [|x a IH]; simpl; [reflexivity | now rewrite IH]. Qed.

(** ** Decimal numerals *)

Lemma digits_of_uint d : every is_digit (NilEmpty.string_of_uint d) = true.
Proof. induction d; simpl; auto. Qed.

Lemma numeral_chars n : every is_numeral_char (PyStr.str n) = true.
Proof.
  assert (Hu : forall d, every is_numeral_char (NilZero.string_of_uint d) = true).
  { intros d. destruct d; try reflexivity;
      apply (every_weaken is_digit); try apply (digits_of_uint (_ d));
      intros c Hc; unfold is_numeral_char; now rewrite Hc. }
  unfold PyStr.str. destruct (Z.to_int n); simpl; auto.
Qed.

Lemma strip_by_plain (p : ascii -> bool) s :
  every (fun c => negb (p c)) s = true ->
  PyStr.rstrip_by p (PyStr.lstrip_by p s) = s.
Proof.
  intros H.
  assert (Hl : PyStr.lstrip_by p s = s).
  { destruct s as [|c s]; [reflexivity|]. simpl in *.
    apply andb_true_iff in H as [Hc _]. apply negb_true_iff in Hc. now rewrite Hc. }
  rewrite Hl. clear Hl.
  induction s as [|c s IH]; [reflexivity|].
  simpl in H. apply andb_true_iff in H as [Hc Hs]. apply negb_true_iff in Hc.
  simpl. rewrite (IH Hs), Hc. now destruct s.
Qed.

Lemma numeral_not_space c :
  is_numeral_char c = true -> negb (PyStr.is_int_space c) = true.
Proof. destruct c as [[] [] [] [] [] [] [] []]; vm_compute; congruence. Qed.

Lemma numeral_not_sep c : is_numeral_char c = true -> negb (Ascii.eqb c us) = true.
Proof. destruct c as [[] [] [] [] [] [] [] []]; vm_compute; congruence. Qed.

Lemma str_sep_free n : PyStr.sep_free us (PyStr.str n) = true.
Proof.
  rewrite sep_free_every.
  apply (every_weaken is_numeral_char); [apply numeral_not_sep | apply numeral_chars].
Qed.

Lemma int_of_numeral (c : ascii) (r : string) :
  is_numeral_char c = true ->
  match String c r with
  | String "+" r' =>
      match r' with
      | String "-" _ => None
      | _ => option_map Z.of_int (NilZero.int_of_string r')
      end
  | t => option_map Z.of_int (NilZero.int_of_string t)
  end = option_map Z.of_int (NilZero.int_of_string (String c r)).
Proof.
  destruct c as [[] [] [] [] [] [] [] []]; try reflexivity; vm_compute; discriminate.
Qed.

(** [int(str(n)) == n] *)
Lemma int_str n : PyStr.int (PyStr.str n) = Some n.
Proof.
  unfold PyStr.int.
  rewrite strip_by_plain
    by (apply (every_weaken is_numeral_char); [apply numeral_not_space | apply numeral_chars]).
  pose proof (numeral_chars n) as Hn.
  assert (Hi : NilZero.int_of_string (PyStr.str n) = Some (Z.to_int n)).
  { unfold PyStr.str. apply NilZero.isi; destruct n; simpl; try discriminate;
      intros [= E]; now apply DecimalPos.Unsigned.to_uint_nonnil in E. }
  destruct (PyStr.str n) as [|c r] eqn:E.
  - discriminate Hi.
  - simpl in Hn. apply andb_true_iff in Hn as [Hc _].
    rewrite (int_of_numeral c r Hc), Hi. simpl. now rewrite DecimalZ.of_to.
Qed.

Lemma py_int_str n : py_int (PyStr.str n) = Ok n.
Proof. unfold py_int. now rewrite int_str. Qed.

(** ** Token round trip *)

Lemma one_of_2 (a b x : string) :
  one_of [a; b] x = true -> x = a \/ x = b.
Proof.
  unfold one_of. simpl. rewrite !orb_true_iff, !String.eqb_eq. intuition discriminate.
Qed.

Lemma one_of_3 (a b c x : string) :
  one_of [a; b; c] x = true -> x = a \/ x = b \/ x = c.
Proof.
  unfold one_of. simpl. rewrite !orb_true_iff, !String.eqb_eq. intuition discriminate.
Qed.

Lemma one_of_4 (a b c d x : string) :
  one_of [a; b; c; d] x = true -> x = a \/ x = b \/ x = c \/ x = d.
Proof.
  unfold one_of. simpl. rewrite !orb_true_iff, !String.eqb_eq. intuition discriminate.
Qed.

Lemma prefix_nil s : String.prefix "" s = true.
Proof. now destruct s. Qed.

Ltac token :=
  unfold decode, encode, PyStr.startswith, page_field; simpl;
  rewrite ?prefix_nil; simpl.


(** ** Running a handler *)

Ltac unfold_monad :=
  unfold mbind, M_bind, mret, M_ret, emit, lift, raise, try_except,
    get_state, modify_state, read_local, result, final, trace in *.

Lemma split_artist_albums r :
  PyStr.split us ("artist_albums_" +:+ r) = "artist" :: "albums" :: PyStr.split us r.
Proof. reflexivity. Qed.

Lemma decode_artist_albums r :
  decode ("artist_albums_" +:+ r) =
  let parts := "artist" :: "albums" :: PyStr.split us r in
  let? i := py_nth parts 2 in
  let? p := page_field parts 3 in
  Ok (Some (ArtistAlbums i p)).
Proof. unfold decode, PyStr.startswith. simpl. rewrite prefix_nil. reflexivity. Qed.


(** ** Malformed tokens *)

Lemma failure_only_ok {A} (a : A) : failure_only (Ok a).
Proof. intros e H. discriminate. Qed.

Lemma failure_only_bind {A B} (r : Res A) (k : A -> Res B) :
  failure_only r -> (forall a, failure_only (k a)) -> failure_only (res_bind r k).
Proof.
  intros Hr Hk e. destruct r as [a|e']; simpl; [apply Hk|].
  intros [= ->]. now apply Hr.
Qed.

Lemma failure_only_nth {A} (l : list A) i : failure_only (py_nth l i).
Proof.
  intros e. unfold py_nth. destruct (l !! i); [discriminate|].
  intros [= <-]. now left.
Qed.

Lemma failure_only_int s : failure_only (py_int s).
Proof.
  intros e. unfold py_int. destruct (PyStr.int s); [discriminate|].
  intros [= <-]. now right.
Qed.

Lemma failure_only_if {A} (c : bool) (a b : Res A) :
  failure_only a -> failure_only b -> failure_only (if c then a else b).
Proof. now destruct c. Qed.

Lemma failure_only_page parts i : failure_only (page_field parts i).
Proof.
  unfold page_field. apply failure_only_if; [|apply failure_only_ok].
  apply failure_only_bind; [apply failure_only_nth | intros; apply failure_only_int].
Qed.

Lemma decode_failure_only data : failure_only (decode data).
Proof.
  unfold decode. cbv zeta.
  repeat first
    [ apply failure_only_ok
    | apply failure_only_nth
    | apply failure_only_int
    | apply failure_only_page
    | apply failure_only_if
    | apply failure_only_bind; [|intros ?] ].
Qed.

Lemma handler_catches (body : M unit) (st : State) :
  result (try_except body
            (fun e => emit (LogError e);; emit (Answer (Some TxtErrorOccurred) true)) st)
  = Ok tt.
Proof.
  unfold_monad. destruct (body st) as [[[[]|e] st1] tr1]; reflexivity.
Qed.

Lemma result_emit_then {A} (e : Effect) (m : M A) st :
  result ((emit e;; m) st) = result (m st).
Proof. unfold_monad. simpl. now destruct (m st) as [[r s] t]. Qed.

Lemma callback_returns w u data st :
  result (callback_query_handler w u data st) = Ok tt.
Proof.
  unfold callback_query_handler. rewrite result_emit_then. apply handler_catches.
Qed.

Lemma callback_decode_raises w u data st e :
  decode data = Raise e ->
  final (callback_query_handler w u data st) = st /\
  trace (callback_query_handler w u data st)
  = [Answer None false; LogError e; Answer (Some TxtErrorOccurred) true].
Proof.
  intros H. unfold callback_query_handler. unfold_monad. rewrite H. simpl. auto.
Qed.

Lemma callback_no_branch w u data st :
  decode data = Ok None ->
  final (callback_query_handler w u data st) = st /\
  trace (callback_query_handler w u data st) = [Answer None false].
Proof.
  intros H. unfold callback_query_handler. unfold_monad. rewrite H. simpl. auto.
Qed.

(** ** Variant selection *)

Lemma select_empty qi : select_download_url qi [] = Ok None.
Proof. unfold select_download_url. now destruct qi. Qed.

Lemma select_preferred qi (urls : list Variant) :
  (qi < length urls)%nat ->
  exists v, urls !! qi = Some v /\ select_download_url qi urls = Ok (variant_url v).
Proof.
  intros H. unfold select_download_url, py_nth.
  apply Nat.ltb_lt in H as Hb. rewrite Hb.
  destruct (lookup_lt_is_Some_2 urls qi H) as [v Hv].
  exists v. now rewrite Hv.
Qed.

Lemma select_highest qi (urls : list Variant) :
  urls <> [] -> (length urls <= qi)%nat ->
  exists v, urls !! (length urls - 1)%nat = Some v
            /\ select_download_url qi urls = Ok (variant_url v).
Proof.
  intros Hne H. unfold select_download_url, py_last, py_nth.
  apply Nat.ltb_ge in H as Hb. rewrite Hb.
  rewrite bool_decide_eq_false_2 by assumption. simpl.
  assert (Hl : (length urls - 1 < length urls)%nat) by (destruct urls; simpl in *; [congruence | lia]).
  destruct (lookup_lt_is_Some_2 urls _ Hl) as [v Hv].
  exists v. now rewrite Hv.
Qed.

Lemma select_total qi (urls : list Variant) :
  exists o, select_download_url qi urls = Ok o.
Proof.
  destruct (decide (qi < length urls)%nat) as [H|H].
  - destruct (select_preferred qi urls H) as (v & _ & E). eauto.
  - destruct urls as [|v0 urls]; [rewrite select_empty; eauto|].
    destruct (select_highest qi (v0 :: urls)) as (v & _ & E); [discriminate | lia | eauto].
Qed.

Lemma tier_option t : exists qo, quality_option (tier_key t) = Ok qo /\ (2 <= q_index qo <= 4)%nat.
Proof. destruct t; eexists; (split; [reflexivity | simpl; lia]). Qed.

Lemma get_user_data_run uid st :
  get_user_data uid st
  = (Ok (default default_user_data (user_data_store st !! uid)), with_user uid st, []).
Proof.
  unfold with_user, get_user_data, final. now destruct (user_data_store st !! uid).
Qed.

(** [download_song] on a song whose selected variant has no usable URL. *)
Lemma download_song_no_url w uid sid st s qo o :
  catalog_song w sid = Some s ->
  quality_option (current_quality st uid) = Ok qo ->
  select_download_url (q_index qo) (song_downloadUrl s) = Ok o ->
  truthy o = None ->
  download_song w uid sid st
  = (Ok tt, with_user uid st,
     [Answer (Some TxtDownloading) false; ReplyText TxtPreparing [];
      ApiGet (SongReq sid); EditText LoadingMsg TxtNoDownloadUrl []]).
Proof.
  intros Hs Hq Hsel Ho. unfold download_song, get_song_details.
  unfold mbind at 1. unfold M_bind at 1. rewrite get_user_data_run.
  fold (current_quality st uid).
  unfold_monad. simpl. rewrite Hs. simpl. rewrite Hq. simpl. rewrite Hsel. simpl.
  rewrite Ho. reflexivity.
Qed.

(** ** One item of a batch *)

(** Case analysis on the innermost scrutinee first. *)
Ltac case_matches :=
  repeat (match goal with
          | |- context [match ?x with _ => _ end] =>
              lazymatch x with
              | context [match _ with _ => _ end] => fail
              | _ => destruct x eqn:?
              end
          end; simpl in *).

Ltac run_item :=
  unfold download_item, fetch_thumbnail, get_song_details, http_get, send_audio,
    update_user_stats;
  unfold_monad; simpl.

Lemma download_item_returns w uid qi total idx song st :
  exists o, result (download_item w uid qi total idx song st) = Ok o.
Proof. run_item. case_matches; eauto. Qed.

Lemma download_item_progress w uid qi total idx song st :
  omap progress_of (trace (download_item w uid qi total idx song st)) = [idx].
Proof. run_item. case_matches; reflexivity. Qed.

Lemma download_item_sent w uid qi total idx song st :
  result (download_item w uid qi total idx song st) = Ok sent <->
  existsb is_upload (trace (download_item w uid qi total idx song st)) = true.
Proof. run_item. case_matches; split; intros; congruence. Qed.

(** ** The batch loop *)

Lemma bind_run {A B} (m : M A) (k : A -> M B) st a st1 tr1 :
  m st = (Ok a, st1, tr1) ->
  (m ≫= k) st = (result (k a st1), final (k a st1), tr1 ++ trace (k a st1)).
Proof.
  intros H. unfold_monad. rewrite H. now destruct (k a st1) as [[r st2] tr2].
Qed.

Lemma download_loop_outcomes w uid qi total songs : forall idx st,
  exists os, result (download_loop w uid qi total idx songs st) = Ok os
             /\ length os = length songs.
Proof.
  induction songs as [|song rest IH]; intros idx st.
  - exists []. split; reflexivity.
  - simpl.
    destruct (download_item_returns w uid qi total idx song st) as [o Ho].
    destruct (download_item w uid qi total idx song st) as [[r st1] tr1] eqn:E.
    unfold result in Ho; simpl in Ho. subst r.
    rewrite (bind_run _ _ _ _ _ _ E).
    destruct (IH (S idx) st1) as (os & Hos & Hlen).
    destruct (download_loop w uid qi total (S idx) rest st1) as [[r2 st2] tr2] eqn:E2.
    unfold result in Hos; simpl in Hos. subst r2.
    rewrite (bind_run _ _ _ _ _ _ E2).
    exists (o :: os). split; [reflexivity | simpl; now rewrite Hlen].
Qed.

Lemma download_loop_progress w uid qi total songs : forall idx st,
  omap progress_of (trace (download_loop w uid qi total idx songs st))
  = seq idx (length songs).
Proof.
  induction songs as [|song rest IH]; intros idx st.
  - reflexivity.
  - simpl.
    destruct (download_item_returns w uid qi total idx song st) as [o Ho].
    pose proof (download_item_progress w uid qi total idx song st) as Hp.
    destruct (download_item w uid qi total idx song st) as [[r st1] tr1] eqn:E.
    unfold result, trace in Ho, Hp; simpl in Ho, Hp. subst r.
    rewrite (bind_run _ _ _ _ _ _ E).
    destruct (download_loop_outcomes w uid qi total rest (S idx) st1) as (os & Hos & _).
    specialize (IH (S idx) st1).
    destruct (download_loop w uid qi total (S idx) rest st1) as [[r2 st2] tr2] eqn:E2.
    unfold result, trace in Hos, IH; simpl in Hos, IH. subst r2.
    rewrite (bind_run _ _ _ _ _ _ E2).
    unfold trace; simpl. rewrite omap_app, Hp, app_nil_r. simpl. now rewrite IH.
Qed.

Lemma try_except_returns {A} (body : M A) (handler : Exc -> M A) st :
  (forall e st', exists a, result (handler e st') = Ok a) ->
  exists a, result (try_except body handler st) = Ok a.
Proof.
  intros H. unfold try_except, result in *.
  destruct (body st) as [[[a|e] st1] tr1]; simpl; [eauto|].
  destruct (H e st1) as [a Ha].
  destruct (handler e st1) as [[r st2] tr2]. simpl in *. eauto.
Qed.

Lemma download_all_songs_returns w uid item_id item_type st :
  exists os, result (download_all_songs w uid item_id item_type st) = Ok os.
Proof.
  apply try_except_returns. intros e st'. exists []. reflexivity.
Qed.

(** ** The history ring *)

Lemma last_fifty_drop {A} (l : list A) : last_fifty l = drop (length l - 50) l.
Proof.
  unfold last_fifty, py_slice_from, slice_bound. simpl. f_equal. lia.
Qed.

Lemma last_fifty_length {A} (l : list A) : (length (last_fifty l) <= 50)%nat.
Proof. rewrite last_fifty_drop, length_drop. lia. Qed.

Lemma history_append e d : history (append_history e d) = last_fifty (history d ++ [e]).
Proof.
  unfold append_history. simpl. rewrite last_fifty_drop.
  destruct (50 <? length (history d ++ [e]))%nat eqn:E.
  - fold (last_fifty (history d ++ [e])). apply last_fifty_drop.
  - apply Nat.ltb_ge in E.
    replace (length (history d ++ [e]) - 50)%nat with 0%nat by lia. reflexivity.
Qed.

Lemma last_fifty_app {A} (l k : list A) :
  last_fifty (last_fifty l ++ k) = last_fifty (l ++ k).
Proof.
  rewrite !last_fifty_drop. rewrite !length_app, !length_drop.
  destruct (decide (length l <= 50)%nat) as [H|H].
  - replace (length l - 50)%nat with 0%nat by lia.
    rewrite drop_0, Nat.sub_0_r. reflexivity.
  - rewrite <- (drop_app_le l k (length l - 50)) by lia.
    rewrite drop_drop. f_equal. lia.
Qed.

Lemma last_fifty_short {A} (l : list A) : (length l <= 50)%nat -> last_fifty l = l.
Proof.
  intros H. rewrite last_fifty_drop.
  replace (length l - 50)%nat with 0%nat by lia. apply drop_0.
Qed.

Lemma history_record_all es : forall d,
  (length (history d) <= 50)%nat ->
  history (record_all es d) = last_fifty (history d ++ es).
Proof.
  induction es as [|e es IH]; intros d Hd.
  - simpl. rewrite app_nil_r. symmetry. now apply last_fifty_short.
  - change (record_all (e :: es) d) with (record_all es (append_history e d)).
    rewrite IH by (rewrite history_append; apply last_fifty_length).
    rewrite history_append, last_fifty_app, <- app_assoc. reflexivity.
Qed.

(** *** The ring bound is an invariant of every handler *)

Lemma keeps_ret {A} (a : A) : keeps_ring (mret a).
Proof. intros st H. exact H. Qed.

Lemma keeps_bind {A B} (m : M A) (k : A -> M B) :
  keeps_ring m -> (forall a, keeps_ring (k a)) -> keeps_ring (m ≫= k).
Proof.
  intros Hm Hk st H. specialize (Hm st H). unfold_monad.
  destruct (m st) as [[[a|e] st1] tr1]; simpl in *; [|exact Hm].
  specialize (Hk a st1 Hm). now destruct (k a st1) as [[r st2] tr2].
Qed.

Lemma keeps_try {A} (body : M A) (handler : Exc -> M A) :
  keeps_ring body -> (forall e, keeps_ring (handler e)) ->
  keeps_ring (try_except body handler).
Proof.
  intros Hm Hk st H. specialize (Hm st H). unfold_monad.
  destruct (body st) as [[[a|e] st1] tr1]; simpl in *; [exact Hm|].
  specialize (Hk e st1 Hm). now destruct (handler e st1) as [[r st2] tr2].
Qed.

Lemma keeps_emit e : keeps_ring (emit e).
Proof. intros st H. exact H. Qed.

Lemma keeps_lift {A} (r : Res A) : keeps_ring (lift r).
Proof. intros st H. exact H. Qed.

Lemma keeps_raise {A} e : keeps_ring (@raise A e).
Proof. intros st H. exact H. Qed.

Lemma keeps_get_state : keeps_ring get_state.
Proof. intros st H. exact H. Qed.

Lemma keeps_read_local {A} (v : option A) : keeps_ring (read_local v).
Proof. intros st H. destruct v; exact H. Qed.

Lemma keeps_get_user_data uid : keeps_ring (get_user_data uid).
Proof.
  intros st H. unfold get_user_data, final.
  destruct (user_data_store st !! uid) eqn:E; simpl; [exact H|].
  unfold ring_bounded, set_user_data_store. simpl.
  intros uid' d. destruct (decide (uid = uid')) as [->|Hne].
  - rewrite lookup_insert_eq. intros [= <-]. simpl. lia.
  - rewrite lookup_insert_ne by assumption. apply H.
Qed.

Lemma keeps_update_user_data uid (f : UserData -> UserData) :
  (forall d, (length (history d) <= 50)%nat -> (length (history (f d)) <= 50)%nat) ->
  keeps_ring (update_user_data uid f).
Proof.
  intros Hf st H uid' d.
  unfold update_user_data, modify_state, final, set_user_data_store. simpl.
  destruct (decide (uid = uid')) as [->|Hne].
  - rewrite lookup_alter_eq.
    destruct (user_data_store st !! uid') as [d0|] eqn:E; simpl; [|discriminate].
    intros [= <-]. apply Hf. eapply H. exact E.
  - rewrite lookup_alter_ne by assumption. apply H.
Qed.

Lemma keeps_update_user_stats w uid action : keeps_ring (update_user_stats w uid action).
Proof. intros st H. exact H. Qed.

Lemma keeps_update_ctx uid f : keeps_ring (update_ctx uid f).
Proof. intros st H. exact H. Qed.

Create HintDb ring discriminated.

#[local] Hint Resolve keeps_ret keeps_emit keeps_lift keeps_raise keeps_get_state
  keeps_read_local keeps_get_user_data keeps_update_user_stats keeps_update_ctx : ring.

(** One syntactic step through a handler's body; a call is closed by the
    lemma of the callee. *)
Ltac keep_step :=
  lazymatch goal with
  | |- keeps_ring (mbind _ _) => apply keeps_bind; [|intros ?]
  | |- keeps_ring (try_except _ _) => apply keeps_try; [|intros ?]
  | |- keeps_ring (match ?x with _ => _ end) => destruct x
  | |- keeps_ring _ => solve [auto with ring nocore]
  end.

Ltac keep := cbv zeta; repeat (keep_step; cbv zeta).

Lemma keeps_show u t kb : keeps_ring (show u t kb).
Proof. unfold show. keep. Qed.
#[local] Hint Resolve keeps_show : ring.

Lemma keeps_show_detail u image caption kb edit :
  keeps_ring (show_detail u image caption kb edit).
Proof. unfold show_detail. keep. Qed.
#[local] Hint Resolve keeps_show_detail : ring.

Lemma keeps_api_listing w r : keeps_ring (api_listing w r).
Proof. unfold api_listing. keep. Qed.
#[local] Hint Resolve keeps_api_listing : ring.

Lemma keeps_get_song_details w id : keeps_ring (get_song_details w id).
Proof. unfold get_song_details. keep. Qed.
#[local] Hint Resolve keeps_get_song_details : ring.

Lemma keeps_get_album_details w id : keeps_ring (get_album_details w id).
Proof. unfold get_album_details. keep. Qed.
#[local] Hint Resolve keeps_get_album_details : ring.

Lemma keeps_get_playlist_details w id p l : keeps_ring (get_playlist_details w id p l).
Proof. unfold get_playlist_details. keep. Qed.
#[local] Hint Resolve keeps_get_playlist_details : ring.

Lemma keeps_get_song_suggestions w id l : keeps_ring (get_song_suggestions w id l).
Proof. unfold get_song_suggestions. keep. Qed.
#[local] Hint Resolve keeps_get_song_suggestions : ring.

Lemma keeps_http_get w url : keeps_ring (http_get w url).
Proof. unfold http_get. keep. Qed.
#[local] Hint Resolve keeps_http_get : ring.

Lemma keeps_send_audio w a : keeps_ring (send_audio w a).
Proof. unfold send_audio. keep. Qed.
#[local] Hint Resolve keeps_send_audio : ring.

Lemma keeps_fetch_thumbnail w url : keeps_ring (fetch_thumbnail w url).
Proof. unfold fetch_thumbnail. keep; try apply keeps_http_get. Qed.
#[local] Hint Resolve keeps_fetch_thumbnail : ring.

Lemma keeps_loading_animation name : keeps_ring (loading_animation name).
Proof.
  unfold loading_animation.
  induction (seq 0 10 ++ seq 0 10 ++ seq 0 10) as [|f fs IH]; simpl; keep; try exact IH.
Qed.
#[local] Hint Resolve keeps_loading_animation : ring.

Lemma keeps_display_song u s e : keeps_ring (display_song_details u s e).
Proof. unfold display_song_details. keep; try apply keeps_show_detail. Qed.
#[local] Hint Resolve keeps_display_song : ring.

Lemma keeps_display_album u c p e : keeps_ring (display_album_details u c p e).
Proof. unfold display_album_details. keep; try apply keeps_show_detail. Qed.
#[local] Hint Resolve keeps_display_album : ring.

Lemma keeps_display_playlist u c p e : keeps_ring (display_playlist_details u c p e).
Proof. unfold display_playlist_details. keep; try apply keeps_show_detail. Qed.
#[local] Hint Resolve keeps_display_playlist : ring.

Lemma keeps_download_song w uid sid : keeps_ring (download_song w uid sid).
Proof.
  unfold download_song. keep;
    try first [ apply keeps_get_song_details | apply keeps_loading_animation
              | apply keeps_http_get | apply keeps_fetch_thumbnail
              | apply keeps_send_audio ].
  - apply keeps_update_user_data. intros d Hd. exact Hd.
  - apply keeps_update_user_data. intros d _.
    rewrite history_append. apply last_fifty_length.
Qed.
#[local] Hint Resolve keeps_download_song : ring.

Lemma keeps_download_item w uid qi total idx song :
  keeps_ring (download_item w uid qi total idx song).
Proof.
  unfold download_item. keep;
    try first [ apply keeps_get_song_details | apply keeps_http_get
              | apply keeps_fetch_thumbnail | apply keeps_send_audio ].
Qed.
#[local] Hint Resolve keeps_download_item : ring.

Lemma keeps_download_loop w uid qi total songs : forall idx,
  keeps_ring (download_loop w uid qi total idx songs).
Proof.
  induction songs as [|song rest IH]; intros idx; simpl; keep;
    first [ apply keeps_download_item | apply IH ].
Qed.
#[local] Hint Resolve keeps_download_loop : ring.

Lemma keeps_download_all w uid item_id item_type :
  keeps_ring (download_all_songs w uid item_id item_type).
Proof.
  unfold download_all_songs. keep;
    try first [ apply keeps_get_album_details | apply keeps_get_playlist_details
              | apply keeps_download_loop ].
Qed.
#[local] Hint Resolve keeps_download_all : ring.

Lemma keeps_search_and_display w u q t p : keeps_ring (search_and_display w u q t p).
Proof.
  unfold search_and_display. keep;
    try first [ apply keeps_api_listing | apply keeps_show ].
Qed.
#[local] Hint Resolve keeps_search_and_display : ring.

Lemma keeps_start_command w u : keeps_ring (start_command w u).
Proof. unfold start_command. keep; try apply keeps_show. Qed.
#[local] Hint Resolve keeps_start_command : ring.

Lemma keeps_settings_command u : keeps_ring (settings_command u).
Proof. unfold settings_command. keep; try apply keeps_show. Qed.
#[local] Hint Resolve keeps_settings_command : ring.

Lemma keeps_stats_command u : keeps_ring (stats_command u).
Proof. unfold stats_command. keep; try apply keeps_show. Qed.
#[local] Hint Resolve keeps_stats_command : ring.

Lemma keeps_history_command u : keeps_ring (history_command u).
Proof. unfold history_command. keep; try apply keeps_show. Qed.
#[local] Hint Resolve keeps_history_command : ring.

Lemma keeps_admin_panel w u : keeps_ring (admin_panel w u).
Proof. unfold admin_panel. keep. Qed.
#[local] Hint Resolve keeps_admin_panel : ring.

Lemma keeps_handle_url w u url : keeps_ring (handle_url w u url).
Proof.
  unfold handle_url. keep;
    try first [ apply keeps_get_song_details | apply keeps_get_album_details
              | apply keeps_get_playlist_details | apply keeps_display_song
              | apply keeps_display_album | apply keeps_display_playlist ].
Qed.
#[local] Hint Resolve keeps_handle_url : ring.

Lemma keeps_handle_text_message w u text : keeps_ring (handle_text_message w u text).
Proof.
  unfold handle_text_message. keep;
    try first [ apply keeps_handle_url | apply keeps_search_and_display ].
Qed.
#[local] Hint Resolve keeps_handle_text_message : ring.

Lemma keeps_run_action w u a : keeps_ring (run_action w u a).
Proof.
  destruct a; unfold run_action; keep;
    try first
      [ apply keeps_start_command | apply keeps_show | apply keeps_settings_command
      | apply keeps_stats_command | apply keeps_history_command
      | apply keeps_admin_panel | apply keeps_search_and_display
      | apply keeps_get_song_details | apply keeps_get_album_details
      | apply keeps_get_playlist_details | apply keeps_get_song_suggestions
      | apply keeps_api_listing | apply keeps_display_song
      | apply keeps_display_album | apply keeps_display_playlist
      | apply keeps_download_song | apply keeps_download_all
      | (apply keeps_update_user_data; intros d Hd; simpl; (exact Hd || lia)) ].
Qed.
#[local] Hint Resolve keeps_run_action : ring.

Lemma keeps_callback_query_handler w u data :
  keeps_ring (callback_query_handler w u data).
Proof. unfold callback_query_handler. keep; try apply keeps_run_action. Qed.
#[local] Hint Resolve keeps_callback_query_handler : ring.

Ltac in_trace := repeat first [ apply list_elem_of_here | apply list_elem_of_further ].


(** ** Free text *)






(** * The claims *)

(** C1.  The final summary of a batch does not report the number of songs
    sent: it reports the length of the list.  On the album of five tracks
    whose third has no variant, four songs are uploaded and the summary says
    five. *)
Theorem batch_summary_reports_total :
  let r := download_all_songs (example_world HttpRaises) 7 "al" "album" empty_state in
  result r = Ok [sent; sent; skippedNoUrl; sent; sent]
  /\ length (filter (fun e => is_upload e = true) (trace r)) = 4%nat
  /\ last (trace r) = Some (EditText StatusMsg (TxtBatchComplete 5) []).
Proof. vm_compute. auto. Qed.

(** C2.  The token [admin_broadcast] is not gated: whoever presses it, the
    handler shows the broadcast prompt, never the rejection, and writes the
    broadcast mode into the session; the token [broadcast_confirm] has no
    branch and is answered with the bare acknowledgement only.  User 7 is not
    in the allow-list of the example and has no mode before the press. *)
Theorem admin_broadcast_not_gated :
  (forall w u st,
     let r := callback_query_handler w u "admin_broadcast" st in
     trace r = [Answer None false; Answer (Some TxtBroadcastFeature) true]
     /\ admin_mode (ctx_of (final r) (effective_user_id u)) = Some "broadcast")
  /\ (forall w u st,
        trace (callback_query_handler w u "broadcast_confirm" st) = [Answer None false])
  /\ is_admin (example_world HttpRaises) 7 = false
  /\ admin_mode (ctx_of empty_state 7) = None.
Proof.
  split; [|split; [|split]]; try reflexivity.
  intros w u st. unfold callback_query_handler, run_action, update_ctx. unfold_monad. simpl.
  split; [reflexivity|].
  unfold ctx_of at 1. unfold set_context. simpl. now rewrite lookup_insert_eq.
Qed.

(** The two admin tokens that are gated, for comparison. *)
Lemma admin_views_gated w u st data :
  is_admin w (effective_user_id u) = false ->
  data = "admin_panel" \/ data = "admin_stats" ->
  final (callback_query_handler w u data st) = st /\
  exists t, trace (callback_query_handler w u data st)
            = [Answer None false; Answer (Some t) true]
            /\ (t = TxtUnauthorizedAccess \/ t = TxtUnauthorized).
Proof.
  intros Ha [-> | ->];
    unfold callback_query_handler, run_action, admin_panel; unfold_monad; simpl;
    rewrite Ha; simpl; eauto.
Qed.

Lemma download_item_unresolved w uid qi total idx song st o :
  select_download_url qi (song_downloadUrl (resolved w song)) = Ok o ->
  truthy o = None ->
  result (download_item w uid qi total idx song st) = Ok skippedNoUrl /\
  existsb is_fetch (trace (download_item w uid qi total idx song st)) = false.
Proof.
  unfold resolved. intros Hsel Ho. run_item.
  destruct (bool_decide (song_downloadUrl song = [])); simpl;
    rewrite Hsel; simpl; rewrite Ho; simpl; auto.
Qed.

Lemma download_item_fetch_fails w uid qi total idx song st o url :
  select_download_url qi (song_downloadUrl (resolved w song)) = Ok o ->
  truthy o = Some url ->
  match http w url with
  | HttpRaises => True
  | HttpResponse status _ => status <> 200
  end ->
  result (download_item w uid qi total idx song st) = Ok fetchFailed /\
  existsb is_upload (trace (download_item w uid qi total idx song st)) = false.
Proof.
  unfold resolved. intros Hsel Ho Hh. run_item.
  destruct (bool_decide (song_downloadUrl song = [])); simpl;
    rewrite Hsel; simpl; rewrite Ho; simpl;
    destruct (http w url) as [|status body]; simpl; auto;
    apply Z.eqb_neq in Hh; rewrite Hh; simpl; auto.
Qed.

(** C3.  For each of the three tiers and each variant list, the selection
    never leaves the list: with no variant there is no URL, the single
    download answers that the URL is not available and the batch iteration
    ends as skipped, neither having fetched anything; with the preferred
    index inside the list its variant is taken; with the preferred index past
    a non-empty list the last variant is taken. *)
Theorem variant_selection_in_bounds (t : QualityTier) (download_urls : list Variant) :
  exists qo,
    quality_option (tier_key t) = Ok qo
    /\ (exists o, select_download_url (q_index qo) download_urls = Ok o)
    /\ (download_urls = [] ->
        select_download_url (q_index qo) download_urls = Ok None
        /\ (forall w uid sid st s,
              catalog_song w sid = Some s ->
              song_downloadUrl s = download_urls ->
              current_quality st uid = tier_key t ->
              result (download_song w uid sid st) = Ok tt
              /\ existsb is_fetch (trace (download_song w uid sid st)) = false
              /\ last (trace (download_song w uid sid st))
                 = Some (EditText LoadingMsg TxtNoDownloadUrl []))
        /\ (forall w uid total idx song st,
              song_downloadUrl (resolved w song) = download_urls ->
              result (download_item w uid (q_index qo) total idx song st) = Ok skippedNoUrl
              /\ existsb is_fetch
                   (trace (download_item w uid (q_index qo) total idx song st)) = false))
    /\ ((q_index qo < length download_urls)%nat ->
        exists v, download_urls !! q_index qo = Some v
                  /\ select_download_url (q_index qo) download_urls = Ok (variant_url v))
    /\ (download_urls <> [] -> (length download_urls <= q_index qo)%nat ->
        exists v, download_urls !! (length download_urls - 1)%nat = Some v
                  /\ select_download_url (q_index qo) download_urls = Ok (variant_url v)).
Proof.
  destruct (tier_option t) as (qo & Hq & _). exists qo.
  split; [exact Hq|]. split; [apply select_total|].
  split; [|split; [apply select_preferred | apply select_highest]].
  intros ->. split; [apply select_empty|]. split.
  - intros w uid sid st s Hs Hu Hc.
    rewrite (download_song_no_url w uid sid st s qo None); auto.
    + rewrite Hc. exact Hq.
    + rewrite Hu. apply select_empty.
  - intros w uid total idx song st Hr.
    apply (download_item_unresolved _ _ _ _ _ _ _ None); [|reflexivity].
    rewrite Hr. apply select_empty.
Qed.

(** C4.  A batch goes through its items one after the other, in order, and
    none of them stops it: every iteration ends with a status, whatever
    happened in it, so the loop yields one status per item and reports
    progress once per item with the indices in sequence; an item without a
    usable URL ends as skipped, an item whose fetch raises or answers another
    status than 200 ends as failed, and an item ends as sent exactly when it
    was uploaded; no exception leaves [download_all_songs]; on the album of
    five tracks whose third has no variant the statuses are sent, sent,
    skipped, sent, sent. *)
Theorem batch_isolates_failures :
  (forall w uid item_id item_type st,
     exists os, result (download_all_songs w uid item_id item_type st) = Ok os)
  /\ (forall w uid qi total idx songs st,
        (exists os, result (download_loop w uid qi total idx songs st) = Ok os
                    /\ length os = length songs)
        /\ omap progress_of (trace (download_loop w uid qi total idx songs st))
           = seq idx (length songs))
  /\ (forall w uid qi total idx song st,
        (exists o, result (download_item w uid qi total idx song st) = Ok o)
        /\ (result (download_item w uid qi total idx song st) = Ok sent <->
            existsb is_upload (trace (download_item w uid qi total idx song st)) = true)
        /\ (forall o,
              select_download_url qi (song_downloadUrl (resolved w song)) = Ok o ->
              (truthy o = None ->
               result (download_item w uid qi total idx song st) = Ok skippedNoUrl)
              /\ (forall url,
                    truthy o = Some url ->
                    match http w url with
                    | HttpRaises => True
                    | HttpResponse status _ => status <> 200
                    end ->
                    result (download_item w uid qi total idx song st) = Ok fetchFailed)))
  /\ result (download_all_songs (example_world HttpRaises) 7 "al" "album" empty_state)
     = Ok [sent; sent; skippedNoUrl; sent; sent].
Proof.
  split; [intros; apply download_all_songs_returns|].
  split; [intros; split; [apply download_loop_outcomes | apply download_loop_progress]|].
  split; [|reflexivity].
  intros w uid qi total idx song st.
  split; [apply download_item_returns|]. split; [apply download_item_sent|].
  intros o Hsel. split.
  - intros Ho. now apply (download_item_unresolved _ _ _ _ _ _ _ o).
  - intros url Ho Hh. now apply (download_item_fetch_fails _ _ _ _ _ _ _ o url).
Qed.

(** C3, at the tier [high]: five variants give the fifth, two variants give
    the second, and a song without variants is answered without a fetch. *)
Lemma variant_selection_witness :
  select_download_url 4 (five_variants "x") = Ok (Some "x/320")
  /\ select_download_url 4 [variant "lo"; variant "hi"] = Ok (Some "hi")
  /\ (result (download_song (example_world HttpRaises) 7 "mute" empty_state) = Ok tt
      /\ existsb is_fetch
           (trace (download_song (example_world HttpRaises) 7 "mute" empty_state)) = false
      /\ last (trace (download_song (example_world HttpRaises) 7 "mute" empty_state))
         = Some (EditText LoadingMsg TxtNoDownloadUrl [])).
Proof.
  split; [|split].
  - destruct (variant_selection_in_bounds high (five_variants "x"))
      as (qo & Hq & _ & _ & Hin & _).
    injection Hq as <-.
    destruct (Hin ltac:(simpl; lia)) as (v & Hv & Hsel).
    injection Hv as <-. exact Hsel.
  - destruct (variant_selection_in_bounds high [variant "lo"; variant "hi"])
      as (qo & Hq & _ & _ & _ & Hout).
    injection Hq as <-.
    destruct (Hout ltac:(discriminate) ltac:(simpl; lia)) as (v & Hv & Hsel).
    injection Hv as <-. exact Hsel.
  - destruct (variant_selection_in_bounds medium []) as (qo & Hq & _ & Hnil & _).
    destruct (Hnil eq_refl) as (_ & Hsong & _).
    exact (Hsong (example_world HttpRaises) 7 "mute" empty_state (track "mute" [] [])
             eq_refl eq_refl eq_refl).
Defined.

(** C4, on a song whose only variant is refused by the host. *)
Lemma batch_isolates_failures_witness :
  http (example_world (HttpResponse 404 "")) "cover.jpg" = HttpResponse 404 ""
  /\ result (download_item (example_world (HttpResponse 404 "")) 7 3 1 1
               (track "x" [variant "cover.jpg"] []) empty_state) = Ok fetchFailed.
Proof.
  split; [reflexivity|].
  destruct batch_isolates_failures as (_ & _ & Hitem & _).
  destruct (Hitem (example_world (HttpResponse 404 "")) 7 3%nat 1%nat 1%nat
              (track "x" [variant "cover.jpg"] []) empty_state) as (_ & _ & Hfail).
  destruct (Hfail (Some "cover.jpg") eq_refl) as (_ & Hfetch).
  apply (Hfetch "cover.jpg" eq_refl). simpl. discriminate.
Defined.

(** ** The history ring, end to end *)

Lemma ring_bounded_empty : ring_bounded empty_state.
Proof. intros uid d H. unfold empty_state in H. simpl in H. now rewrite lookup_empty in H. Qed.

(** C5.  No handler leaves a history longer than fifty entries: the bound
    holds at the start, and a button press, a text message or a command that finds
    it leaves it, however the turn ends; recording a download, as lines 1075
    to 1083 do, keeps the last fifty entries in order, so that after
    fifty-one recorded downloads the history is the last fifty of them, the
    newest in it and the first one gone unless it was downloaded again. *)
Theorem history_ring_bounded_fifo :
  ring_bounded empty_state
  /\ (forall w u data, keeps_ring (callback_query_handler w u data))
  /\ (forall w u text, keeps_ring (handle_text_message w u text))
  /\ (forall w u, keeps_ring (start_command w u) /\ keeps_ring (help_command u)
                  /\ keeps_ring (settings_command u) /\ keeps_ring (stats_command u)
                  /\ keeps_ring (history_command u))
  /\ (forall e d, (length (history (append_history e d)) <= 50)%nat)
  /\ (forall es d, (length (history d) <= 50)%nat ->
                   history (record_all es d) = last_fifty (history d ++ es))
  /\ (forall first rest newest,
        length rest = 49%nat ->
        let h := history (record_all (first :: rest ++ [newest]) default_user_data) in
        h = rest ++ [newest] /\ length h = 50%nat /\ newest ∈ h
        /\ (first ∉ rest ++ [newest] -> first ∉ h)).
Proof.
  split; [apply ring_bounded_empty|].
  split; [apply keeps_callback_query_handler|].
  split; [apply keeps_handle_text_message|].
  split; [intros w u; repeat split; auto with ring nocore; unfold help_command; keep|].
  split; [intros; rewrite history_append; apply last_fifty_length|].
  split; [apply history_record_all|].
  intros first rest newest Hlen h.
  assert (Hh : h = rest ++ [newest]).
  { unfold h. rewrite history_record_all by (simpl; lia). simpl.
    rewrite last_fifty_drop. simpl. rewrite length_app, Hlen. reflexivity. }
  rewrite Hh. split; [reflexivity|]. split; [rewrite length_app; simpl; lia|].
  split; [|tauto].
  apply elem_of_app. right. apply list_elem_of_here.
Qed.

(** C5, on a download pressed in the empty store and on the entries of the
    songs [1] to [51]. *)
Lemma history_ring_witness :
  ring_bounded
    (final (callback_query_handler (example_world HttpRaises) (button_press 7) "dl_1"
              empty_state))
  /\ (let rest := map entry_of (drop 1 (numbered 50)) in
      let h := history (record_all (entry_of "1" :: rest ++ [entry_of "51"])
                          default_user_data) in
      length h = 50%nat /\ entry_of "51" ∈ h /\ entry_of "1" ∉ h).
Proof.
  destruct history_ring_bounded_fifo as (Hempty & Hpress & _ & _ & _ & _ & Hfifo).
  split.
  - exact (Hpress (example_world HttpRaises) (button_press 7) "dl_1" empty_state Hempty).
  - destruct (Hfifo (entry_of "1") (map entry_of (drop 1 (numbered 50))) (entry_of "51")
                eq_refl) as (_ & Hlen & Hnew & Hold).
    split; [exact Hlen|]. split; [exact Hnew|].
    apply Hold. apply (bool_decide_unpack _). vm_compute. exact I.
Defined.




(** C7, as stated, fails: a token with an unknown prefix raises nothing and
    is shown no error, the turn is the bare acknowledgement; a negative page
    and a surplus field are read as if well-formed. *)
Lemma malformed_token_accepted :
  callback_query_handler (example_world HttpRaises) (button_press 7) "play_123" empty_state
  = (Ok tt, empty_state, [Answer None false])
  /\ decode "list_song_-1_q" = Ok (Some (ListPage "song" (-1) "q"))
  /\ decode "dlall_album_x_y" = Ok (Some (DownloadAll "album" "x")).
Proof. vm_compute. auto. Qed.

Lemma decode_list_short t :
  PyStr.sep_free us t = true -> decode ("list_" +:+ t) = Raise IndexError.
Proof.
  intros Ht. unfold decode, PyStr.startswith. simpl. rewrite prefix_nil.
  now rewrite (split_sep_free us t Ht).
Qed.

Lemma decode_list_page t f q :
  PyStr.sep_free us t = true -> PyStr.sep_free us f = true -> PyStr.int f = None ->
  decode ("list_" +:+ t +:+ "_" +:+ f +:+ "_" +:+ q) = Raise ValueError.
Proof.
  intros Ht Hf Hi. unfold decode, PyStr.startswith. simpl. rewrite prefix_nil.
  rewrite (split_app us t _ Ht), (split_app us f _ Hf).
  simpl. unfold py_int. now rewrite Hi.
Qed.

Lemma decode_dlall_short t :
  PyStr.sep_free us t = true -> decode ("dlall_" +:+ t) = Raise IndexError.
Proof.
  intros Ht. unfold decode, PyStr.startswith. simpl. rewrite prefix_nil.
  now rewrite (split_sep_free us t Ht).
Qed.

(** C7, amended.  No exception leaves [callback_query_handler], whatever the
    token.  A token whose branch misses a field it subscripts, or whose page
    field [int] rejects, raises [IndexError] or [ValueError] before any
    effect of the branch: the stores are untouched and the user gets the
    generic error alert; so it is for a list token without a page field or
    with a page that is no number, and for a download-all token without an
    id.  A token that no branch takes changes nothing and shows nothing. *)
Theorem malformed_tokens_contained (w : World) (u : Update) (data : string) (st : State) :
  let r := callback_query_handler w u data st in
  result r = Ok tt
  /\ (forall e, decode data = Raise e ->
        (e = IndexError \/ e = ValueError)
        /\ final r = st
        /\ trace r = [Answer None false; LogError e; Answer (Some TxtErrorOccurred) true])
  /\ (decode data = Ok None -> final r = st /\ trace r = [Answer None false])
  /\ (forall t, PyStr.sep_free us t = true ->
        decode ("list_" +:+ t) = Raise IndexError
        /\ decode ("dlall_" +:+ t) = Raise IndexError
        /\ forall f q, PyStr.sep_free us f = true -> PyStr.int f = None ->
             decode ("list_" +:+ t +:+ "_" +:+ f +:+ "_" +:+ q) = Raise ValueError).
Proof.
  intros r. split; [apply callback_returns|]. split; [|split].
  - intros e He. split; [now apply (decode_failure_only data)|].
    now apply callback_decode_raises.
  - now apply callback_no_branch.
  - intros t Ht. split; [now apply decode_list_short|].
    split; [now apply decode_dlall_short|].
    intros f q Hf Hi. now apply decode_list_page.
Qed.

(** C7, amended, on a list token whose page is no number. *)
Lemma malformed_tokens_witness :
  decode "list_song_x_q" = Raise ValueError
  /\ (let r := callback_query_handler (example_world HttpRaises) (button_press 7)
                 "list_song_x_q" empty_state in
      final r = empty_state
      /\ trace r = [Answer None false; LogError ValueError;
                    Answer (Some TxtErrorOccurred) true]).
Proof.
  split; [reflexivity|].
  destruct (malformed_tokens_contained (example_world HttpRaises) (button_press 7)
              "list_song_x_q" empty_state) as (_ & Hraise & _).
  destruct (Hraise ValueError eq_refl) as (_ & Hst & Htr).
  split; [exact Hst | exact Htr].
Defined.

(** C8, as stated, fails on two actions whose fields are free of the
    separator: the artist whose id is [songs] is written as [artist_songs],
    which no branch takes, and the confirmation of a broadcast is written as
    [broadcast_confirm], which has no branch. *)
Lemma round_trip_lost :
  (separator_free (OpenArtist "songs") = true
   /\ decode (encode (OpenArtist "songs")) = Ok None)
  /\ (separator_free BroadcastConfirm = true
      /\ decode (encode BroadcastConfirm) = Ok None).
Proof. vm_compute. auto. Qed.

(** C8, amended.  Reading back the token written for an action gives the
    action, for every action whose fields are free of the separator, except
    an artist whose id begins with [songs] or [albums] and the confirmation
    of a broadcast. *)
Theorem token_round_trip (a : Action) :
  separator_free a = true -> has_branch a = true -> decode (encode a) = Ok (Some a).
Proof.
  destruct a; simpl; intros H Hb; try reflexivity; try discriminate.
  - (* SetQuality *)
    apply one_of_3 in H as [-> | [-> | ->]]; reflexivity.
  - (* SearchPrompt *)
    apply one_of_4 in H as [-> | [-> | [-> | ->]]]; reflexivity.
  - (* OpenSong *) token. reflexivity.
  - (* OpenAlbum *) token. reflexivity.
  - (* OpenPlaylist *) token. reflexivity.
  - (* OpenArtist *)
    apply andb_true_iff in Hb as [Hs Ha].
    apply negb_true_iff in Hs, Ha. unfold PyStr.startswith in Hs, Ha.
    token. rewrite Hs, Ha. reflexivity.
  - (* ArtistSongs *)
    token. rewrite (split_app us _ _ H), (split_sep_free us _ (str_sep_free page)).
    simpl. now rewrite py_int_str.
  - (* ArtistAlbums *)
    token. rewrite (split_app us _ _ H), (split_sep_free us _ (str_sep_free page)).
    simpl. now rewrite py_int_str.
  - (* Download *) token. reflexivity.
  - (* DownloadAll *)
    apply andb_true_iff in H as [Ht Hi].
    apply one_of_2 in Ht as [-> | ->]; token; now rewrite (split_sep_free us _ Hi).
  - (* Similar *) token. reflexivity.
  - (* ListPage *)
    pose proof (split_nonempty us query_text) as Hq.
    pose proof (join_split us query_text) as Hj.
    apply one_of_4 in H as [-> | [-> | [-> | ->]]]; token;
      rewrite (split_app us _ _ (str_sep_free page));
      destruct (PyStr.split us query_text) as [|q0 qs]; try contradiction;
      unfold us in Hj; simpl in Hj |- *; rewrite py_int_str; simpl; now rewrite Hj.
  - (* DetailPage *)
    apply andb_true_iff in H as [Ht Hi].
    apply one_of_2 in Ht as [-> | ->]; token;
      rewrite (split_app us _ _ Hi), (split_sep_free us _ (str_sep_free page));
      simpl; now rewrite py_int_str.
Qed.

(** C8, amended, on the pagination of a playlist. *)
Lemma token_round_trip_witness :
  encode (DetailPage "playlist" "82914609" 3) = "playlistdetail_82914609_3"
  /\ decode "playlistdetail_82914609_3" = Ok (Some (DetailPage "playlist" "82914609" 3)).
Proof.
  split; [reflexivity|].
  exact (token_round_trip (DetailPage "playlist" "82914609" 3) eq_refl eq_refl).
Defined.

(** C9.  The single retrieval never comes to the thumbnail.  Once the URL of
    the audio is chosen and the loading frames are shown, line 1039 reads
    [ChatAction.UPLOAD_AUDIO], which the library does not have: the
    [AttributeError] is caught by the function's handler, so the error is
    logged and the turn ends with the notice that the download failed.  On
    the song with a cover, whose audio the host serves and whose cover
    answers 404, nothing is fetched and no audio is sent, where the claim has
    the audio sent without its thumbnail. *)
Theorem thumbnail_never_reached :
  let w := example_world (HttpResponse 404 "") in
  let r := download_song w 7 "cov" empty_state in
  catalog_song w "cov" = Some (track "cov" (five_variants "cov") [variant "cover.jpg"])
  /\ http w "cov/160" = HttpResponse 200 "audio of cov/160"
  /\ http w "cover.jpg" = HttpResponse 404 ""
  /\ result r = Ok tt
  /\ existsb is_fetch (trace r) = false
  /\ existsb is_upload (trace r) = false
  /\ drop (length (trace r) - 2) (trace r)
     = [LogError AttributeError; EditText LoadingMsg TxtDownloadFailed []].
Proof. vm_compute. repeat split; reflexivity. Qed.

(** C10.  A token that begins with [artist_albums_] is read by the branch of
    the artist's albums, unless its page is no number.  Whenever the catalog
    then answers with a payload, the branch reads [songs_data], which it
    never assigned: the [NameError] is caught by the handler, so the turn is
    the acknowledgement, the fetch and the generic error alert, the list is
    not shown and the stores are as before. *)
Theorem artist_albums_name_error (w : World) (u : Update) (st : State) (data : string) :
  PyStr.startswith data "artist_albums_" = true ->
  match decode data with
  | Ok (Some (ArtistAlbums artist_id page)) =>
      forall l, catalog_listing w (ArtistAlbumsReq artist_id page 10) = Some l ->
      let r := callback_query_handler w u data st in
      result r = Ok tt /\ final r = st /\
      trace r = [Answer None false; ApiGet (ArtistAlbumsReq artist_id page 10);
                 LogError NameError; Answer (Some TxtErrorOccurred) true]
  | Raise ValueError => True
  | _ => False
  end.
Proof.
  intros Hp. apply prefix_inv in Hp as [r ->].
  unfold callback_query_handler.
  rewrite decode_artist_albums.
  pose proof (split_nonempty us r) as Hn.
  destruct (PyStr.split us r) as [|x xs]; [contradiction|].
  unfold page_field. simpl.
  destruct xs as [|y ys]; simpl.
  - intros l Hl. unfold run_action, api_listing. unfold_monad. simpl. rewrite Hl. simpl. auto.
  - unfold py_int. destruct (PyStr.int y); simpl; [|exact I].
    intros l Hl. unfold run_action, api_listing. unfold_monad. simpl. rewrite Hl. simpl. auto.
Qed.

(** C10, on the token the artist menu writes. *)
Lemma artist_albums_witness :
  encode (ArtistAlbums "459320" 0) = "artist_albums_459320_0"
  /\ (let r := callback_query_handler (example_world HttpRaises) (button_press 7)
                 "artist_albums_459320_0" empty_state in
      result r = Ok tt /\ final r = empty_state /\
      trace r = [Answer None false; ApiGet (ArtistAlbumsReq "459320" 0 10);
                 LogError NameError; Answer (Some TxtErrorOccurred) true]).
Proof.
  split; [reflexivity|].
  exact (artist_albums_name_error (example_world HttpRaises) (button_press 7) empty_state
           "artist_albums_459320_0" eq_refl
           {| listing_results := [track "al" [] []]; listing_total := 1 |} eq_refl).
Defined.

(** ** The codec and the URL reader on concrete inputs *)

Example decode_song_example : decode "song_3IoDK8qI" = Ok (Some (OpenSong "3IoDK8qI")).
Proof. reflexivity. Qed.
Example decode_list_example : decode "list_song_2_a_b" = Ok (Some (ListPage "song" 2 "a_b")).
Proof. reflexivity. Qed.
Example decode_list_short_example : decode "list_song" = Raise IndexError.
Proof. reflexivity. Qed.
Example decode_list_nan_example : decode "list_song_x_q" = Raise ValueError.
Proof. reflexivity. Qed.
Example decode_list_neg_example : decode "list_song_-1_q" = Ok (Some (ListPage "song" (-1) "q")).
Proof. reflexivity. Qed.
Example decode_detail_example : decode (encode (DetailPage "playlist" "82914609" 3))
                        = Ok (Some (DetailPage "playlist" "82914609" 3)).
Proof. reflexivity. Qed.
Example decode_unknown_example : decode "broadcast_confirm" = Ok None.
Proof. reflexivity. Qed.
Example decode_artist_songs_prefix_example : decode (encode (OpenArtist "songs")) = Ok None.
Proof. reflexivity. Qed.

Example int_blank_example : PyStr.int " 5" = Some 5.
Proof. reflexivity. Qed.
Example int_separator_example : PyStr.int (String "028" "5") = None.
Proof. reflexivity. Qed.

Example extract_song_example w :
  extract_jiosaavn_id w "https://www.jiosaavn.com/song/tum-hi-ho/EToxUyFpcwQ"
  = Some ("EToxUyFpcwQ", "song").
Proof. reflexivity. Qed.
Example extract_featured_example w :
  extract_jiosaavn_id w "https://www.jiosaavn.com/featured/hits/abc123?x=1#top"
  = Some ("abc123", "playlist").
Proof. reflexivity. Qed.
Example extract_bare_domain_example w : extract_jiosaavn_id w "saavn.com" = None.
Proof. reflexivity. Qed.
Example extract_trailing_slash_example w :
  extract_jiosaavn_id w "https://www.jiosaavn.com/album/x/" = Some ("", "album").
Proof. reflexivity. Qed.
Example extract_unmatched_bracket_example w :
  extract_jiosaavn_id w "http://[saavn.com/song/x" = None.
Proof. reflexivity. Qed.
Example extract_bracketed_host_example w :
  extract_jiosaavn_id w "http://[saavn.com]/song/x"
  = if bracketed_netloc_valid w "[saavn.com]" then Some ("x", "song") else None.
Proof.
  unfold extract_jiosaavn_id, Url.urlparse_path. simpl.
  now destruct (bracketed_netloc_valid w _).
Qed.

Example list_keyboard_no_artists_example :
  create_list_keyboard [track "a" [] []; track "b" [] []] "song" 0 2 "q"
  = Ok [["song_a"]; ["song_b"]; ["main_menu"]].
Proof. reflexivity. Qed.


(** * Further properties of the code *)

(** ** Durations and labels *)

Lemma numeral_not_colon c : is_numeral_char c = true -> negb (Ascii.eqb c ":") = true.
Proof. destruct c as [[] [] [] [] [] [] [] []]; vm_compute; congruence. Qed.

Lemma str_colon_free n : PyStr.sep_free ":" (PyStr.str n) = true.
Proof.
  rewrite sep_free_every.
  apply (every_weaken is_numeral_char); [apply numeral_not_colon | apply numeral_chars].
Qed.

Lemma format_02d_seconds (k : nat) :
  (k < 60)%nat ->
  String.length (format_02d (Z.of_nat k)) = 2%nat
  /\ PyStr.int (format_02d (Z.of_nat k)) = Some (Z.of_nat k)
  /\ PyStr.sep_free ":" (format_02d (Z.of_nat k)) = true.
Proof.
  intros H.
  do 60 (destruct k as [|k]; [vm_compute; auto|]).
  lia.
Qed.

(** X1.  [format_duration] writes a text that reads back: it splits at its only
    colon into the minutes and a seconds field of exactly two digits, the
    seconds are below 60, and sixty times the minutes plus the seconds is the
    input, for every integer. *)
Theorem format_duration_reads_back (seconds : Z) :
  exists mm ss,
    PyStr.split ":" (format_duration seconds) = [mm; ss]
    /\ String.length ss = 2%nat
    /\ PyStr.int mm = Some (seconds / 60)
    /\ PyStr.int ss = Some (seconds mod 60)
    /\ 0 <= seconds mod 60 < 60
    /\ 60 * (seconds / 60) + seconds mod 60 = seconds.
Proof.
  pose proof (Z.mod_pos_bound seconds 60 ltac:(lia)) as Hb.
  pose proof (Z.div_mod seconds 60 ltac:(lia)) as Hd.
  destruct (format_02d_seconds (Z.to_nat (seconds mod 60)) ltac:(lia)) as (Hl & Hi & Hs).
  rewrite Z2Nat.id in Hl, Hi, Hs by lia.
  exists (PyStr.str (seconds / 60)), (format_02d (seconds mod 60)).
  split; [|split; [exact Hl | split; [apply int_str | split; [exact Hi | lia]]]].
  unfold format_duration. cbv zeta.
  change (":" +:+ format_02d (seconds mod 60))
    with (String ":" (format_02d (seconds mod 60))).
  rewrite (split_app ":" _ _ (str_colon_free _)).
  now rewrite (split_sep_free ":" _ Hs).
Qed.

Lemma str_take_length n s : String.length (str_take n s) = Nat.min n (String.length s).
Proof.
  revert s. induction n as [|n IH]; intros [|c s]; simpl; auto.
Qed.

Lemma length_append_str a b : String.length (a +:+ b) = (String.length a + String.length b)%nat.
Proof. induction a as [|c a IH]; simpl; auto. Qed.

Lemma str_take_prefix n s : String.prefix (str_take n s) s = true.
Proof.
  revert s. induction n as [|n IH]; intros [|c s]; simpl; auto.
  destruct (ascii_dec c c); [apply IH | contradiction].
Qed.

(** X2.  [truncate_text] with a non-negative limit: a text within the limit comes
    back as it is; a longer one comes back as its first [max_length]
    characters followed by three dots, so the label is never longer than the
    limit plus three, and is longer than the text itself when the text
    exceeds the limit by one or two characters. *)
Theorem truncate_text_bounded (text : string) (max_length : Z) :
  0 <= max_length ->
  Z.of_nat (String.length (truncate_text text max_length)) <= max_length + 3
  /\ (Z.of_nat (String.length text) <= max_length -> truncate_text text max_length = text)
  /\ (max_length < Z.of_nat (String.length text) ->
      truncate_text text max_length = str_take (Z.to_nat max_length) text +:+ "..."
      /\ Z.of_nat (String.length (truncate_text text max_length)) = max_length + 3
      /\ String.prefix (str_take (Z.to_nat max_length) text) text = true).
Proof.
  intros H0. unfold truncate_text, str_slice_to, slice_bound.
  replace (max_length <? 0) with false by (symmetry; apply Z.ltb_ge; lia).
  destruct (max_length <? Z.of_nat (String.length text)) eqn:E.
  - apply Z.ltb_lt in E.
    replace (Nat.min (Z.to_nat max_length) (String.length text)) with (Z.to_nat max_length)
      by lia.
    assert (Hlen : Z.of_nat (String.length (str_take (Z.to_nat max_length) text +:+ "..."))
                   = max_length + 3).
    { rewrite length_append_str, str_take_length. simpl. lia. }
    split; [lia|]. split; [lia|]. intros _.
    split; [reflexivity|]. split; [exact Hlen | apply str_take_prefix].
  - apply Z.ltb_ge in E. split; [lia|]. split; [reflexivity | lia].
Qed.

(** On a title of 31 characters and the limit 30 of the track lists. *)
Lemma truncate_text_witness :
  0 <= 30
  /\ String.length "Supercalifragilisticexpialidoci" = 31%nat
  /\ truncate_text "Supercalifragilisticexpialidoci" 30
     = "Supercalifragilisticexpialidoc...".
Proof.
  split; [lia|]. split; [reflexivity|].
  destruct (truncate_text_bounded "Supercalifragilisticexpialidoci" 30 ltac:(lia))
    as (_ & _ & Hlong).
  destruct (Hlong ltac:(simpl; lia)) as (Heq & _).
  exact Heq.
Defined.


(** ** Pages *)

Lemma displayed_songs_take songs page :
  0 <= page ->
  displayed_songs songs page = take 10 (drop (10 * Z.to_nat page) songs).
Proof.
  intros Hp. unfold displayed_songs, py_slice, slice_bound.
  replace (page * 10 <? 0) with false by (symmetry; apply Z.ltb_ge; lia).
  replace (page * 10 + 10 <? 0) with false by (symmetry; apply Z.ltb_ge; lia).
  destruct (decide (10 * Z.to_nat page <= length songs)%nat) as [H|H].
  - replace (Nat.min (Z.to_nat (page * 10)) (length songs)) with (10 * Z.to_nat page)%nat
      by lia.
    destruct (decide (10 * Z.to_nat page + 10 <= length songs)%nat) as [H'|H'].
    + f_equal. lia.
    + replace (Nat.min (Z.to_nat (page * 10 + 10)) (length songs)) with (length songs)
        by lia.
      rewrite !take_ge by (rewrite length_drop; lia). reflexivity.
  - replace (Nat.min (Z.to_nat (page * 10)) (length songs)) with (length songs) by lia.
    replace (Nat.min (Z.to_nat (page * 10 + 10)) (length songs)) with (length songs) by lia.
    rewrite Nat.sub_diag. rewrite drop_ge by lia. rewrite (drop_ge songs) by lia.
    reflexivity.
Qed.

Lemma displayed_songs_length songs page : (length (displayed_songs songs page) <= 10)%nat.
Proof.
  unfold displayed_songs, py_slice. rewrite length_take.
  unfold slice_bound.
  destruct (page * 10 <? 0) eqn:E1; destruct (page * 10 + 10 <? 0) eqn:E2;
    rewrite ?Z.ltb_lt, ?Z.ltb_ge in *; lia.
Qed.

Lemma pages_concat {A} (l : list A) (n : nat) :
  concat (map (fun i : nat => take 10 (drop (10 * i) l)) (seq 0 n)) = take (10 * n) l.
Proof.
  induction n as [|n IH].
  - reflexivity.
  - rewrite seq_S, map_app, concat_app, IH. simpl. rewrite app_nil_r.
    rewrite take_take_drop. f_equal. lia.
Qed.

Lemma total_pages_ceiling total :
  0 <= total -> total <= 10 * total_pages total < total + 10.
Proof.
  intros H. unfold total_pages.
  pose proof (Z.div_mod (total + 10 - 1) 10 ltac:(lia)) as Hd.
  pose proof (Z.mod_pos_bound (total + 10 - 1) 10 ltac:(lia)) as Hb.
  lia.
Qed.

(** X3.  The track list of a detail view is cut into pages of ten without loss:
    a page never shows more than ten tracks, whatever its number, negative
    or past the end; the pages [0] to [total_pages - 1] of the list's own
    length, one after the other, are the list; and every page from
    [total_pages] on is empty. *)
Theorem detail_pages_partition (songs : list Song) :
  let n := total_pages (Z.of_nat (length songs)) in
  (forall page, (length (displayed_songs songs page) <= 10)%nat)
  /\ concat (map (displayed_songs songs) (pages (Z.to_nat n))) = songs
  /\ (forall page, n <= page -> displayed_songs songs page = []).
Proof.
  intros n.
  pose proof (total_pages_ceiling (Z.of_nat (length songs)) ltac:(lia)) as Hc.
  fold n in Hc.
  split; [apply displayed_songs_length|]. split.
  - unfold pages. rewrite map_map.
    rewrite (map_ext _ (fun i : nat => take 10 (drop (10 * i) songs))).
    + rewrite pages_concat. apply take_ge. lia.
    + intros i. rewrite displayed_songs_take by lia. now rewrite Nat2Z.id.
  - intros page Hp. rewrite displayed_songs_take by lia.
    rewrite drop_ge by lia. reflexivity.
Qed.

(** On 25 tracks: three pages, the last one of five. *)
Lemma detail_pages_witness :
  let songs := map (fun k => track (PyStr.str (Z.of_nat k)) [] []) (seq 1 25) in
  total_pages 25 = 3
  /\ length (displayed_songs songs 2) = 5%nat
  /\ displayed_songs songs 3 = [].
Proof.
  intros songs. split; [reflexivity|]. split; [reflexivity|].
  destruct (detail_pages_partition songs) as (_ & _ & Hpast).
  exact (Hpast 3 ltac:(vm_compute; discriminate)).
Defined.


(** ** Navigation rows *)

Lemma decode_list_token t p q :
  one_of ["song"; "album"; "playlist"; "artist"] t = true ->
  decode (encode (ListPage t p q)) = Ok (Some (ListPage t p q)).
Proof.
  intros H.
  pose proof (split_nonempty us q) as Hq.
  pose proof (join_split us q) as Hj.
  apply one_of_4 in H as [-> | [-> | [-> | ->]]]; token;
    rewrite (split_app us _ _ (str_sep_free p));
    destruct (PyStr.split us q) as [|q0 qs]; try contradiction;
    unfold us in Hj; simpl in Hj |- *; rewrite py_int_str; simpl; now rewrite Hj.
Qed.

Lemma decode_detail_token t i p :
  one_of ["album"; "playlist"] t = true -> PyStr.sep_free us i = true ->
  decode (encode (DetailPage t i p)) = Ok (Some (DetailPage t i p)).
Proof.
  intros Ht Hi.
  apply one_of_2 in Ht as [-> | ->]; token;
    rewrite (split_app us _ _ Hi), (split_sep_free us _ (str_sep_free p));
    simpl; now rewrite py_int_str.
Qed.

Lemma list_row_outcome item_type item :
  list_row item_type item
  = if one_of ["song"; "album"] item_type && unnamed_artist item then Raise IndexError
    else Ok (from_option (fun t => [[t]]) [] (open_token item_type (song_id item))).
Proof.
  unfold list_row, open_token, one_of, unnamed_artist, first_artist_name. simpl.
  destruct (String.eqb item_type "song"); simpl;
    [destruct (song_artists_primary item) as [[|a l]|]; reflexivity|].
  destruct (String.eqb item_type "album"); simpl;
    [destruct (song_artists_primary item) as [[|a l]|]; reflexivity|].
  destruct (String.eqb item_type "playlist"); simpl; [reflexivity|].
  destruct (String.eqb item_type "artist"); reflexivity.
Qed.

Lemma list_rows_outcome item_type items :
  list_rows item_type items
  = if unlabelled item_type items then Raise IndexError
    else Ok (omap (fun item => (fun t => [t]) <$> open_token item_type (song_id item))
               items).
Proof.
  unfold unlabelled. induction items as [|item rest IH].
  - simpl. now rewrite andb_false_r.
  - change (list_rows item_type (item :: rest))
      with (let? row := list_row item_type item in
            let? rows := list_rows item_type rest in Ok (row ++ rows)).
    rewrite list_row_outcome, IH.
    change (existsb unnamed_artist (item :: rest))
      with (unnamed_artist item || existsb unnamed_artist rest).
    destruct (one_of ["song"; "album"] item_type), (unnamed_artist item),
      (existsb unnamed_artist rest); simpl; try reflexivity;
      destruct (open_token item_type (song_id item)); reflexivity.
Qed.

Lemma create_list_keyboard_outcome items item_type page total_items query :
  create_list_keyboard items item_type page total_items query
  = if unlabelled item_type items then Raise IndexError
    else Ok (omap (fun item => (fun t => [t]) <$> open_token item_type (song_id item))
               items
             ++ (if 1 <? total_pages total_items then
                   [ (if 0 <? page then [encode (ListPage item_type (page - 1) query)]
                      else [])
                     ++ [encode Noop]
                     ++ (if page <? total_pages total_items - 1
                         then [encode (ListPage item_type (page + 1) query)] else []) ]
                 else [])
             ++ [[encode MainMenu]]).
Proof.
  unfold create_list_keyboard. rewrite list_rows_outcome.
  now destruct (unlabelled item_type items).
Qed.

(** X4.  The keyboard of a result list, for a known kind and a page inside the
    range.  It cannot be built, and [IndexError] is raised, exactly when the
    list is one of songs or of albums and an item has an empty list of
    primary artists.  When it is built, every button is the button of a
    listed item, the page indicator, the main menu, or a step to the page
    before or after that is itself inside the range and is read back by the
    handler as that page of the same kind and query; the step back is there
    unless the page is the first, the step forward unless it is the last. *)
Theorem list_keyboard_in_bounds (items : list Song) (item_type : string)
    (page total_items : Z) (query : string) :
  one_of ["song"; "album"; "playlist"; "artist"] item_type = true ->
  0 <= page < total_pages total_items ->
  let built := create_list_keyboard items item_type page total_items query in
  (unlabelled item_type items = true -> built = Raise IndexError)
  /\ (unlabelled item_type items = false ->
      exists kb,
        built = Ok kb
        /\ (forall row token, row ∈ kb -> token ∈ row ->
              (exists item, item ∈ items
                            /\ open_token item_type (song_id item) = Some token)
              \/ token = encode Noop \/ token = encode MainMenu
              \/ exists p, token = encode (ListPage item_type p query)
                           /\ decode token = Ok (Some (ListPage item_type p query))
                           /\ 0 <= p < total_pages total_items
                           /\ (p = page - 1 \/ p = page + 1))
        /\ (forall item, item ∈ items ->
              exists token, open_token item_type (song_id item) = Some token
                            /\ [token] ∈ kb)
        /\ (0 < page ->
            exists row, row ∈ kb /\ encode (ListPage item_type (page - 1) query) ∈ row)
        /\ (page + 1 < total_pages total_items ->
            exists row, row ∈ kb /\ encode (ListPage item_type (page + 1) query) ∈ row)).
Proof.
  intros Ht Hp built. unfold built. rewrite create_list_keyboard_outcome.
  split; [now intros ->|]. intros ->.
  eexists. split; [reflexivity|].
  split; [|split; [|split]].
  - intros row token Hrow Htok.
    apply elem_of_app in Hrow as [Hrow | Hrow].
    + left. apply list_elem_of_omap in Hrow as (item & Hitem & Hrow).
      destruct (open_token item_type (song_id item)) as [tok|] eqn:E; simpl in Hrow;
        [|discriminate].
      injection Hrow as <-. apply list_elem_of_singleton in Htok as ->. eauto.
    + right. apply elem_of_app in Hrow as [Hrow | Hrow].
      * destruct (1 <? total_pages total_items); [|now apply elem_of_nil in Hrow].
        apply list_elem_of_singleton in Hrow as ->.
        apply elem_of_app in Htok as [Htok | Htok].
        { destruct (0 <? page) eqn:E; [|now apply elem_of_nil in Htok].
          apply Z.ltb_lt in E. apply list_elem_of_singleton in Htok as ->.
          right. right. exists (page - 1).
          split; [reflexivity|]. split; [now apply decode_list_token|]. lia. }
        apply elem_of_app in Htok as [Htok | Htok].
        { apply list_elem_of_singleton in Htok as ->. now left. }
        destruct (page <? total_pages total_items - 1) eqn:E;
          [|now apply elem_of_nil in Htok].
        apply Z.ltb_lt in E. apply list_elem_of_singleton in Htok as ->.
        right. right. exists (page + 1).
        split; [reflexivity|]. split; [now apply decode_list_token|]. lia.
      * apply list_elem_of_singleton in Hrow as ->.
        apply list_elem_of_singleton in Htok as ->. right. now left.
  - intros item Hitem.
    assert (Hsome : exists token, open_token item_type (song_id item) = Some token).
    { unfold open_token. apply one_of_4 in Ht as [-> | [-> | [-> | ->]]]; simpl; eauto. }
    destruct Hsome as [token Htoken]. exists token. split; [exact Htoken|].
    apply elem_of_app. left. apply list_elem_of_omap. exists item.
    split; [exact Hitem|]. now rewrite Htoken.
  - intros H0.
    replace (1 <? total_pages total_items) with true by (symmetry; apply Z.ltb_lt; lia).
    replace (0 <? page) with true by (symmetry; apply Z.ltb_lt; lia).
    eexists. split.
    + apply elem_of_app. right. apply elem_of_app. left. apply list_elem_of_here.
    + apply elem_of_app. left. apply list_elem_of_here.
  - intros Hn.
    replace (1 <? total_pages total_items) with true by (symmetry; apply Z.ltb_lt; lia).
    replace (page <? total_pages total_items - 1) with true
      by (symmetry; apply Z.ltb_lt; lia).
    eexists. split.
    + apply elem_of_app. right. apply elem_of_app. left. apply list_elem_of_here.
    + apply elem_of_app. right. apply elem_of_app. right. apply list_elem_of_here.
Qed.

(** On the second of three pages of a search for [imagine], with two songs
    listed, and on the same list once a song has an empty list of artists. *)
Lemma list_keyboard_witness :
  let items := [track "a" [] []; track "b" [] []] in
  let bare := {| song_id := "n"; song_name := None; song_artists_primary := Some [];
                 song_downloadUrl := []; song_image := []; song_duration := 0 |} in
  one_of ["song"; "album"; "playlist"; "artist"] "song" = true
  /\ 0 <= 1 < total_pages 23
  /\ unlabelled "song" items = false
  /\ (exists kb, create_list_keyboard items "song" 1 23 "imagine" = Ok kb
                 /\ ["song_b"] ∈ kb
                 /\ exists row, row ∈ kb /\ "list_song_2_imagine" ∈ row)
  /\ create_list_keyboard (items ++ [bare]) "song" 1 23 "imagine" = Raise IndexError.
Proof.
  intros items bare.
  split; [reflexivity|]. split; [vm_compute; split; congruence|].
  split; [reflexivity|].
  destruct (list_keyboard_in_bounds items "song" 1 23 "imagine" eq_refl
              ltac:(vm_compute; split; congruence)) as (_ & Hbuilt).
  destruct (Hbuilt eq_refl) as (kb & Hkb & _ & Hitems & _ & Hnext).
  split.
  - exists kb. split; [exact Hkb|].
    destruct (Hitems (track "b" [] [])
                ltac:(apply list_elem_of_further, list_elem_of_here))
      as (token & Htoken & Hrow).
    injection Htoken as <-.
    split; [exact Hrow | exact (Hnext ltac:(vm_compute; reflexivity))].
  - destruct (list_keyboard_in_bounds (items ++ [bare]) "song" 1 23 "imagine" eq_refl
                ltac:(vm_compute; split; congruence)) as (Hraise & _).
    exact (Hraise eq_refl).
Defined.

Lemma decode_download_all_token t i :
  one_of ["album"; "playlist"] t = true -> PyStr.sep_free us i = true ->
  decode (encode (DownloadAll t i)) = Ok (Some (DownloadAll t i)).
Proof.
  intros Ht Hi.
  apply one_of_2 in Ht as [-> | ->]; token; now rewrite (split_sep_free us _ Hi).
Qed.

(** X5.  The control rows of an album or playlist view, for an id free of the
    separator and a page inside the range: the buttons are the download of
    the whole item, the page indicator, the way back, and steps to the page
    before or after, each inside the range and read back by the handler as
    that page of the same item; there is no step at all when the item has at
    most ten songs. *)
Theorem detail_keyboard_in_bounds (item_id item_type : string) (page total_songs : Z) :
  one_of ["album"; "playlist"] item_type = true ->
  PyStr.sep_free us item_id = true ->
  0 <= page < total_pages total_songs ->
  let kb := create_album_playlist_keyboard item_id item_type page total_songs in
  (forall row token, row ∈ kb -> token ∈ row ->
     (token = encode (DownloadAll item_type item_id)
      /\ decode token = Ok (Some (DownloadAll item_type item_id)))
     \/ token = encode Noop \/ token = encode BackSearch
     \/ exists p, token = encode (DetailPage item_type item_id p)
                  /\ decode token = Ok (Some (DetailPage item_type item_id p))
                  /\ 0 <= p < total_pages total_songs
                  /\ (p = page - 1 \/ p = page + 1))
  /\ (total_songs <= 10 ->
      kb = [[encode (DownloadAll item_type item_id)]; [encode BackSearch]])
  /\ (page + 1 < total_pages total_songs ->
      exists row, row ∈ kb /\ encode (DetailPage item_type item_id (page + 1)) ∈ row).
Proof.
  intros Ht Hi Hp kb. unfold kb, create_album_playlist_keyboard.
  split; [|split].
  - intros row token Hrow Htok.
    apply elem_of_app in Hrow as [Hrow | Hrow].
    + apply list_elem_of_singleton in Hrow as ->.
      apply list_elem_of_singleton in Htok as ->.
      left. split; [reflexivity | now apply decode_download_all_token].
    + right. apply elem_of_app in Hrow as [Hrow | Hrow].
      * destruct (10 <? total_songs); [|now apply elem_of_nil in Hrow].
        apply list_elem_of_singleton in Hrow as ->.
        apply elem_of_app in Htok as [Htok | Htok].
        { destruct (0 <? page) eqn:E; [|now apply elem_of_nil in Htok].
          apply Z.ltb_lt in E. apply list_elem_of_singleton in Htok as ->.
          right. right. exists (page - 1).
          split; [reflexivity|]. split; [now apply decode_detail_token|]. lia. }
        apply elem_of_app in Htok as [Htok | Htok].
        { apply list_elem_of_singleton in Htok as ->. now left. }
        destruct (page <? total_pages total_songs - 1) eqn:E;
          [|now apply elem_of_nil in Htok].
        apply Z.ltb_lt in E. apply list_elem_of_singleton in Htok as ->.
        right. right. exists (page + 1).
        split; [reflexivity|]. split; [now apply decode_detail_token|]. lia.
      * apply list_elem_of_singleton in Hrow as ->.
        apply list_elem_of_singleton in Htok as ->. right. now left.
  - intros Hs.
    replace (10 <? total_songs) with false by (symmetry; apply Z.ltb_ge; lia).
    reflexivity.
  - intros Hn.
    assert (10 < total_songs).
    { unfold total_pages in *.
      destruct (decide (10 < total_songs)) as [|Hle]; [assumption|].
      assert ((total_songs + 10 - 1) / 10 <= 1)
        by (apply Z.lt_succ_r, Z.div_lt_upper_bound; lia).
      lia. }
    replace (10 <? total_songs) with true by (symmetry; apply Z.ltb_lt; lia).
    replace (page <? total_pages total_songs - 1) with true
      by (symmetry; apply Z.ltb_lt; lia).
    eexists. split.
    + apply elem_of_app. right. apply elem_of_app. left. apply list_elem_of_here.
    + apply elem_of_app. right. apply elem_of_app. right. apply list_elem_of_here.
Qed.

(** On the first page of an album of 25 songs. *)
Lemma detail_keyboard_witness :
  one_of ["album"; "playlist"] "album" = true
  /\ PyStr.sep_free us "1142502" = true
  /\ 0 <= 0 < total_pages 25
  /\ exists row, row ∈ create_album_playlist_keyboard "1142502" "album" 0 25
                 /\ "albumdetail_1142502_1" ∈ row.
Proof.
  split; [reflexivity|]. split; [reflexivity|]. split; [vm_compute; split; congruence|].
  destruct (detail_keyboard_in_bounds "1142502" "album" 0 25 eq_refl eq_refl
              ltac:(vm_compute; split; congruence)) as (_ & _ & Hnext).
  exact (Hnext ltac:(vm_compute; reflexivity)).
Defined.


(** ** The stores *)

Lemma sum_stats_insert (f : UserStats -> Z) (m : gmap Z UserStats) i x :
  sum_stats f (<[i := x]> m)
  = sum_stats f m - from_option f 0 (m !! i) + f x.
Proof.
  unfold sum_stats.
  assert (Hc : forall (m' : gmap Z UserStats) (j1 j2 : Z) (z1 z2 : UserStats) (y : Z),
             j1 <> j2 -> m' !! j1 = Some z1 -> m' !! j2 = Some z2 ->
             y + f z2 + f z1 = y + f z1 + f z2) by (intros; lia).
  rewrite <- (insert_delete_eq m i x).
  rewrite map_fold_insert_L by (eauto using lookup_delete_eq; apply lookup_delete_eq).
  destruct (m !! i) as [o|] eqn:E; simpl.
  - rewrite (map_fold_delete_L _ 0 i o m) by eauto. lia.
  - rewrite delete_id by exact E. lia.
Qed.

(** X6.  [update_user_stats] counts one action of one user: the total of the
    downloads of all users rises by one for a download and the total of the
    searches by one for a search, and by nothing otherwise; the user's last
    activity is the clock's reading; the entries of the other users, the
    user data and the sessions are untouched. *)
Theorem update_user_stats_counts (w : World) (user_id : Z) (action : string) (st : State) :
  let st' := final (update_user_stats w user_id action st) in
  sum_stats stat_downloads (user_stats st')
  = sum_stats stat_downloads (user_stats st)
    + (if String.eqb action "download" then 1 else 0)
  /\ sum_stats stat_searches (user_stats st')
     = sum_stats stat_searches (user_stats st)
       + (if String.eqb action "download" then 0
          else if String.eqb action "search" then 1 else 0)
  /\ last_active <$> (user_stats st' !! user_id) = Some (Some (now w))
  /\ (forall other, other <> user_id -> user_stats st' !! other = user_stats st !! other)
  /\ user_data_store st' = user_data_store st
  /\ context_user_data st' = context_user_data st.
Proof.
  unfold update_user_stats, modify_state, final, set_user_stats. simpl.
  rewrite !sum_stats_insert, lookup_insert_eq.
  split; [|split; [|split; [reflexivity|split; [|split; reflexivity]]]].
  - destruct (user_stats st !! user_id) as [o|]; simpl;
      destruct (String.eqb action "download"); simpl;
      try destruct (String.eqb action "search"); simpl; lia.
  - destruct (user_stats st !! user_id) as [o|]; simpl;
      destruct (String.eqb action "download"); simpl;
      try destruct (String.eqb action "search"); simpl; lia.
  - intros other Hne. now rewrite lookup_insert_ne.
Qed.

(** On a first download of user 7. *)
Lemma update_user_stats_witness :
  let st' := final (update_user_stats (example_world HttpRaises) 7 "download" empty_state) in
  (1001 : Z) <> 7
  /\ user_stats st' !! 1001 = None
  /\ sum_stats stat_downloads (user_stats st') = 1.
Proof.
  intros st'.
  destruct (update_user_stats_counts (example_world HttpRaises) 7 "download" empty_state)
    as (Hd & _ & _ & Hother & _).
  split; [discriminate|]. split; [exact (Hother 1001 ltac:(discriminate)) | exact Hd].
Defined.

(** X7.  [get_user_data] creates the entry of a user on first access only: it
    returns the stored entry, or the default one (medium quality, empty
    history, no downloads) which it then stores; an entry that exists is
    never replaced; a second call changes nothing; the other users, the
    statistics and the sessions are untouched. *)
Theorem get_user_data_lazy (user_id : Z) (st : State) :
  let entry := default default_user_data (user_data_store st !! user_id) in
  let st' := final (get_user_data user_id st) in
  result (get_user_data user_id st) = Ok entry
  /\ user_data_store st' !! user_id = Some entry
  /\ (is_Some (user_data_store st !! user_id) -> st' = st)
  /\ get_user_data user_id st' = (Ok entry, st', [])
  /\ (forall other, other <> user_id ->
        user_data_store st' !! other = user_data_store st !! other)
  /\ user_stats st' = user_stats st
  /\ context_user_data st' = context_user_data st.
Proof.
  unfold get_user_data, final, result, set_user_data_store.
  destruct (user_data_store st !! user_id) as [d|] eqn:E; simpl.
  - rewrite E. repeat split; auto.
  - rewrite lookup_insert_eq. repeat split; auto.
    + intros [d Hd]. discriminate.
    + intros other Hne. now rewrite lookup_insert_ne.
Qed.

(** On the first access of user 7, with user 1001 in another entry. *)
Lemma get_user_data_witness :
  let st := final (update_user_data 1001 (set_quality "high")
                     (final (get_user_data 1001 empty_state))) in
  (1001 : Z) <> 7
  /\ quality <$> (user_data_store (final (get_user_data 7 st)) !! 1001) = Some "high"
  /\ final (get_user_data 1001 st) = st.
Proof.
  intros st.
  destruct (get_user_data_lazy 7 st) as (_ & _ & _ & _ & Hother & _).
  destruct (get_user_data_lazy 1001 st) as (_ & _ & Hsame & _).
  split; [discriminate|]. split.
  - rewrite (Hother 1001 ltac:(discriminate)). reflexivity.
  - apply Hsame. eexists. reflexivity.
Defined.


(** ** What a single download writes *)

Ltac run_song :=
  unfold download_song, fetch_thumbnail, get_song_details, http_get, send_audio,
    update_user_stats, update_user_data;
  unfold mbind at 1; unfold M_bind at 1; rewrite get_user_data_run;
  unfold_monad; simpl.

Lemma download_song_run w uid sid st :
  exists tr,
    download_song w uid sid st = (Ok tt, with_user uid st, tr)
    /\ existsb is_fetch tr = false
    /\ existsb is_upload tr = false.
Proof.
  remember (download_song w uid sid st) as r eqn:Hr. revert Hr.
  run_song. unfold upload_audio_action. unfold_monad. simpl.
  case_matches; intros ->; eexists; split; try reflexivity; split; reflexivity.
Qed.

(** X8.  [download_song] sends no audio and records nothing: whatever the
    catalog and the host would answer, it ends normally, fetches no binary,
    uploads nothing and leaves the stores as [get_user_data] left them, so
    that neither a download count nor the history changes.  When a URL was
    chosen for the song, the turn logs the [AttributeError] of line 1039 and
    ends with the notice that the download failed. *)
Theorem download_song_records_nothing (w : World) (user_id : Z) (song_id : string)
    (st : State) :
  let r := download_song w user_id song_id st in
  result r = Ok tt
  /\ final r = with_user user_id st
  /\ existsb is_fetch (trace r) = false
  /\ existsb is_upload (trace r) = false
  /\ downloads_of (final r) user_id = downloads_of st user_id
  /\ user_data_store (final r) !! user_id
     = Some (default default_user_data (user_data_store st !! user_id))
  /\ (forall s qo o url,
        catalog_song w song_id = Some s ->
        quality_option (current_quality st user_id) = Ok qo ->
        select_download_url (q_index qo) (song_downloadUrl s) = Ok o ->
        truthy o = Some url ->
        LogError AttributeError ∈ trace r
        /\ last (trace r) = Some (EditText LoadingMsg TxtDownloadFailed [])).
Proof.
  intros r. unfold r.
  assert (Hd : user_data_store (with_user user_id st) !! user_id
               = Some (default default_user_data (user_data_store st !! user_id))).
  { unfold with_user, get_user_data, final, set_user_data_store.
    destruct (user_data_store st !! user_id) eqn:E'; simpl;
      [exact E' | apply lookup_insert_eq]. }
  assert (Hst : user_stats (with_user user_id st) = user_stats st).
  { unfold with_user, get_user_data, final, set_user_data_store.
    now destruct (user_data_store st !! user_id). }
  split; [|split; [|split; [|split; [|split; [|split]]]]].
  1-6: destruct (download_song_run w user_id song_id st) as (tr & E & Hf & Hu);
    rewrite E; unfold result, final, trace; simpl; auto.
  - unfold downloads_of. now rewrite Hst.
  - intros s qo o url Hs Hq Hsel Ho.
    eassert (E : download_song w user_id song_id st = _).
    { run_song. fold (current_quality st user_id).
      rewrite Hs. simpl. rewrite Hq. simpl. rewrite Hsel. simpl. rewrite Ho. simpl.
      unfold upload_audio_action. unfold_monad. simpl. reflexivity. }
    rewrite E. unfold trace. simpl. split; [in_trace | reflexivity].
Qed.

(** On the song [x], whose five variants the host serves. *)
Lemma download_song_records_witness :
  let r := download_song (example_world HttpRaises) 7 "x" empty_state in
  http (example_world HttpRaises) "x/160" = HttpResponse 200 "audio of x/160"
  /\ downloads_of (final r) 7 = 0
  /\ history <$> (user_data_store (final r) !! 7) = Some []
  /\ last (trace r) = Some (EditText LoadingMsg TxtDownloadFailed []).
Proof.
  intros r.
  destruct (download_song_records_nothing (example_world HttpRaises) 7 "x" empty_state)
    as (_ & _ & _ & _ & Hcount & Hdata & Hlast).
  split; [reflexivity|]. split; [exact Hcount|].
  split; [unfold r; rewrite Hdata; reflexivity|].
  exact (proj2 (Hlast (track "x" (five_variants "x") [])
                  {| q_quality := "160kbps"; q_desc := "Balanced (Medium)"; q_index := 3 |}
                  (Some "x/160") "x/160" eq_refl eq_refl eq_refl eq_refl)).
Defined.


(** ** What a batch writes *)

Lemma downloads_of_counted w uid st :
  downloads_of (final (update_user_stats w uid "download" st)) uid = downloads_of st uid + 1.
Proof.
  unfold downloads_of, update_user_stats, modify_state, final, set_user_stats. simpl.
  now rewrite lookup_insert_eq.
Qed.

Lemma download_item_state w uid qi total idx song st :
  exists o,
    result (download_item w uid qi total idx song st) = Ok o
    /\ user_data_store (final (download_item w uid qi total idx song st))
       = user_data_store st
    /\ context_user_data (final (download_item w uid qi total idx song st))
       = context_user_data st
    /\ downloads_of (final (download_item w uid qi total idx song st)) uid
       = downloads_of st uid + match o with sent => 1 | _ => 0 end
    /\ (forall other, other <> uid ->
          user_stats (final (download_item w uid qi total idx song st)) !! other
          = user_stats st !! other).
Proof.
  pose proof (downloads_of_counted w uid st) as Hc.
  unfold update_user_stats, modify_state, final in Hc. simpl in Hc.
  run_item. unfold final.
  case_matches; eexists; (split; [reflexivity|]); simpl;
    repeat split; auto; try lia;
    intros other Hne; unfold set_user_stats; simpl; now rewrite lookup_insert_ne.
Qed.

Lemma download_loop_state w uid qi total songs : forall idx st,
  exists os,
    result (download_loop w uid qi total idx songs st) = Ok os
    /\ user_data_store (final (download_loop w uid qi total idx songs st))
       = user_data_store st
    /\ context_user_data (final (download_loop w uid qi total idx songs st))
       = context_user_data st
    /\ downloads_of (final (download_loop w uid qi total idx songs st)) uid
       = downloads_of st uid + count_sent os
    /\ (forall other, other <> uid ->
          user_stats (final (download_loop w uid qi total idx songs st)) !! other
          = user_stats st !! other).
Proof.
  induction songs as [|song rest IH]; intros idx st.
  - exists []. unfold final, result. simpl. repeat split; auto. lia.
  - simpl.
    destruct (download_item_state w uid qi total idx song st)
      as (o & Ho & Hd & Hc & Hn & Hs).
    destruct (download_item w uid qi total idx song st) as [[r st1] tr1] eqn:E.
    unfold result, final in Ho, Hd, Hc, Hn, Hs; simpl in Ho, Hd, Hc, Hn, Hs. subst r.
    rewrite (bind_run _ _ _ _ _ _ E).
    destruct (IH (S idx) st1) as (os & Hos & Hd2 & Hc2 & Hn2 & Hs2).
    destruct (download_loop w uid qi total (S idx) rest st1) as [[r2 st2] tr2] eqn:E2.
    unfold result, final in Hos, Hd2, Hc2, Hn2, Hs2; simpl in Hos, Hd2, Hc2, Hn2, Hs2.
    subst r2.
    rewrite (bind_run _ _ _ _ _ _ E2).
    exists (o :: os). unfold result, final. simpl.
    split; [reflexivity|]. split; [congruence|]. split; [congruence|].
    split.
    + rewrite Hn2, Hn. destruct o; simpl; lia.
    + intros other Hne. rewrite Hs2, Hs by assumption. reflexivity.
Qed.

(** X9.  A batch counts in the statistics exactly the songs it sent, and writes
    nothing else: the user's count of downloads rises by the number of
    iterations that ended as sent; no history and no download count of the
    user data changes, the user data being at most created by
    [get_user_data]; the statistics of the other users and the sessions are
    untouched. *)
Theorem batch_counts_sent_only (w : World) (user_id : Z) (item_id item_type : string)
    (st : State) :
  let r := download_all_songs w user_id item_id item_type st in
  exists os,
    result r = Ok os
    /\ downloads_of (final r) user_id = downloads_of st user_id + count_sent os
    /\ (user_data_store (final r) = user_data_store st
        \/ user_data_store (final r) = user_data_store (with_user user_id st))
    /\ context_user_data (final r) = context_user_data st
    /\ (forall other, other <> user_id ->
          user_stats (final r) !! other = user_stats st !! other).
Proof.
  intros r. unfold r. clear r.
  assert (Hw : user_stats (with_user user_id st) = user_stats st
               /\ context_user_data (with_user user_id st) = context_user_data st).
  { unfold with_user, get_user_data, final, set_user_data_store.
    now destruct (user_data_store st !! user_id). }
  destruct Hw as [Hws Hwc].
  assert (Hwd : downloads_of (with_user user_id st) user_id = downloads_of st user_id).
  { unfold downloads_of. now rewrite Hws. }
  unfold download_all_songs, get_album_details, get_playlist_details.
  unfold mbind, M_bind, mret, M_ret, emit, lift, try_except, result, final. simpl.
  destruct (if String.eqb item_type "album"
            then catalog_collection w (AlbumReq item_id)
            else catalog_collection w (PlaylistReq item_id 0 100)) as [d|] eqn:Ed.
  2:{ destruct (String.eqb item_type "album"); simpl; rewrite Ed; simpl;
        exists []; simpl; repeat split; auto; lia. }
  assert (Hgoal : forall qi,
    exists os,
      (let '(r, st2, _) := download_loop w user_id qi (length (coll_songs d)) 1
                             (coll_songs d) (with_user user_id st) in
       r = Ok os
       /\ downloads_of st2 user_id = downloads_of st user_id + count_sent os
       /\ user_data_store st2 = user_data_store (with_user user_id st)
       /\ context_user_data st2 = context_user_data st
       /\ forall other, other <> user_id -> user_stats st2 !! other = user_stats st !! other)).
  { intros qi.
    destruct (download_loop_state w user_id qi (length (coll_songs d)) (coll_songs d) 1
                (with_user user_id st)) as (os & H1 & H2 & H3 & H4 & H5).
    exists os. unfold result, final in *.
    destruct (download_loop w user_id qi (length (coll_songs d)) 1 (coll_songs d)
                (with_user user_id st)) as [[r2 st2] tr2]. simpl in *.
    rewrite Hwd in H4. rewrite Hwc in H3. rewrite Hws in H5. auto. }
  destruct (String.eqb item_type "album"); simpl; rewrite Ed; simpl;
    (destruct (bool_decide (coll_songs d = [])); simpl;
     [exists []; simpl; repeat split; auto; lia|]);
    rewrite get_user_data_run; simpl;
    (destruct (quality_option
                 (quality (default default_user_data (user_data_store st !! user_id))))
       as [qo|e]; simpl;
     [|exists []; simpl; rewrite ?Hwd, ?Hwc, ?Hws; repeat split; auto; lia]);
    destruct (Hgoal (q_index qo)) as (os & Hos);
    destruct (download_loop w user_id (q_index qo) (length (coll_songs d)) 1 (coll_songs d)
                (with_user user_id st)) as [[r2 st2] tr2];
    destruct Hos as (-> & H2 & H3 & H4 & H5); simpl;
    exists os; repeat split; auto.
Qed.


(** On the album of five tracks whose third has no variant. *)
Lemma batch_counts_witness :
  (1001 : Z) <> 7
  /\ (let r := download_all_songs (example_world HttpRaises) 7 "al" "album" empty_state in
      downloads_of (final r) 7 = 4
      /\ user_stats (final r) !! 1001 = None
      /\ history <$> (user_data_store (final r) !! 7) = Some []).
Proof.
  split; [discriminate|]. intros r.
  destruct (batch_counts_sent_only (example_world HttpRaises) 7 "al" "album" empty_state)
    as (os & Hos & Hcount & _ & _ & Hother).
  fold r in Hos, Hcount, Hother.
  assert (os = [sent; sent; skippedNoUrl; sent; sent]) as ->
    by (apply (f_equal (fun x => match x with Ok o => o | Raise _ => [] end)) in Hos;
        symmetry; exact Hos).
  split; [exact Hcount|]. split; [exact (Hother 1001 ltac:(discriminate)) | reflexivity].
Defined.

(** ** Searches *)

Lemma kind_test t :
  String.eqb t "song" || String.eqb t "album" || String.eqb t "playlist"
  || String.eqb t "artist"
  = one_of ["song"; "album"; "playlist"; "artist"] t.
Proof.
  unfold one_of. simpl.
  destruct (String.eqb t "song"), (String.eqb t "album"), (String.eqb t "playlist"),
    (String.eqb t "artist"); reflexivity.
Qed.

Lemma search_and_display_run w u query search_type page st :
  let r := search_and_display w u query search_type page st in
  let uid := effective_user_id u in
  result r = Ok tt
  /\ api_requests (trace r)
     = (if one_of ["song"; "album"; "playlist"; "artist"] search_type
        then [SearchReq search_type query page 10] else [])
  /\ searches_of (final r) uid = searches_of st uid + 1
  /\ downloads_of (final r) uid = downloads_of st uid
  /\ last_search (ctx_of (final r) uid)
     = Some {| ls_query := query; ls_type := search_type; ls_page := page |}
  /\ user_data_store (final r) = user_data_store st.
Proof.
  intros r uid. unfold r. clear r.
  rewrite <- kind_test.
  unfold search_and_display, api_listing, show, update_ctx, update_user_stats.
  unfold_monad. simpl. fold uid.
  unfold searches_of, downloads_of, ctx_of, set_context, set_user_stats. simpl.
  destruct (has_message u); simpl;
    destruct (String.eqb search_type "song" || String.eqb search_type "album"
              || String.eqb search_type "playlist" || String.eqb search_type "artist");
    simpl;
    try (destruct (catalog_listing w _) as [d|]; simpl;
         try (destruct (listing_results d) as [|item rest]; simpl;
              try (destruct (create_list_keyboard (item :: rest) search_type page
                               (listing_total d) query); simpl)));
    rewrite !lookup_insert_eq; simpl; repeat split; auto.
Qed.



Lemma callback_runs_action w u data st a :
  decode data = Ok (Some a) ->
  result (run_action w u a st) = Ok tt ->
  callback_query_handler w u data st
  = (Ok tt, final (run_action w u a st), Answer None false :: trace (run_action w u a st)).
Proof.
  intros Hd Hr. unfold callback_query_handler. unfold_monad. rewrite Hd. simpl.
  destruct (run_action w u a st) as [[r st1] tr1]. simpl in *. now subst r.
Qed.

Lemma run_list_page w u st t p q :
  run_action w u (ListPage t p q) st
  = match last_search (ctx_of st (effective_user_id u)) with
    | Some ls =>
        if bool_decide (ls_query ls = "") then (Ok tt, st, [])
        else search_and_display w u (ls_query ls) t p st
    | None => (Ok tt, st, [])
    end.
Proof.
  unfold run_action. unfold_monad. simpl.
  destruct (last_search (ctx_of st (effective_user_id u))) as [ls|]; [|reflexivity].
  destruct (bool_decide (ls_query ls = "")); simpl; [reflexivity|].
  now destruct (search_and_display w u (ls_query ls) t p st) as [[r st1] tr1].
Qed.

Lemma callback_list_page (w : World) (u : Update) (data : string) (st : State)
    (t : string) (p : Z) (q : string) :
  decode data = Ok (Some (ListPage t p q)) ->
  let r := callback_query_handler w u data st in
  result r = Ok tt
  /\ match last_search (ctx_of st (effective_user_id u)) with
     | Some ls =>
         if bool_decide (ls_query ls = "")
         then final r = st /\ trace r = [Answer None false]
         else final r = final (search_and_display w u (ls_query ls) t p st)
              /\ api_requests (trace r)
                 = (if one_of ["song"; "album"; "playlist"; "artist"] t
                    then [SearchReq t (ls_query ls) p 10] else [])
     | None => final r = st /\ trace r = [Answer None false]
     end.
Proof.
  intros Hd r. unfold r. clear r.
  split; [apply callback_returns|].
  pose proof (run_list_page w u st t p q) as Hrun.
  destruct (last_search (ctx_of st (effective_user_id u))) as [ls|].
  - destruct (bool_decide (ls_query ls = "")).
    + rewrite (callback_runs_action w u data st _ Hd) by now rewrite Hrun.
      rewrite Hrun. auto.
    + destruct (search_and_display_run w u (ls_query ls) t p st) as (Hr & Ha & _).
      rewrite (callback_runs_action w u data st _ Hd) by now rewrite Hrun.
      rewrite Hrun. unfold final, trace. simpl. split; [reflexivity|]. exact Ha.
  - rewrite (callback_runs_action w u data st _ Hd) by now rewrite Hrun.
    rewrite Hrun. auto.
Qed.

(** X11.  A list-pagination token is answered from the session, not from the
    token: whatever query the token carries, the handler searches the query
    of the session's last search, at the token's kind and page; with no last
    search, or an empty one, the press is acknowledged and nothing else
    happens. *)
Theorem list_page_uses_last_search (w : World) (u : Update) (data : string) (st : State)
    (t : string) (p : Z) (q : string) :
  decode data = Ok (Some (ListPage t p q)) ->
  let r := callback_query_handler w u data st in
  result r = Ok tt
  /\ match last_search (ctx_of st (effective_user_id u)) with
     | Some ls =>
         if bool_decide (ls_query ls = "")
         then final r = st /\ trace r = [Answer None false]
         else final r = final (search_and_display w u (ls_query ls) t p st)
              /\ api_requests (trace r)
                 = (if one_of ["song"; "album"; "playlist"; "artist"] t
                    then [SearchReq t (ls_query ls) p 10] else [])
     | None => final r = st /\ trace r = [Answer None false]
     end.
Proof. apply callback_list_page. Qed.

(** On a token that carries another query than the session. *)
Lemma list_page_witness :
  let st := final (search_and_display (example_world HttpRaises) (text_message 7)
                     "imagine" "song" 0 empty_state) in
  decode "list_song_1_yesterday" = Ok (Some (ListPage "song" 1 "yesterday"))
  /\ api_requests (trace (callback_query_handler (example_world HttpRaises) (button_press 7)
                            "list_song_1_yesterday" st))
     = [SearchReq "song" "imagine" 1 10].
Proof.
  intros st. split; [reflexivity|].
  destruct (list_page_uses_last_search (example_world HttpRaises) (button_press 7)
              "list_song_1_yesterday" st "song" 1 "yesterday" eq_refl) as (_ & H).
  exact (proj2 H).
Defined.

(** X12.  The page buttons under an artist's songs do not turn the artist's pages:
    the token they carry, written by [create_list_keyboard] with the artist's
    id in the place of the query, makes the handler ask the catalog for
    nothing but a search of the session's last query, and for nothing at all
    when there is none; the artist's songs are never fetched for it. *)
Theorem artist_list_pages_search (w : World) (u : Update) (st : State)
    (artist_id : string) (p : Z) :
  let r := callback_query_handler w u (encode (ListPage "song" p artist_id)) st in
  (forall req, req ∈ api_requests (trace r) ->
     exists ls, last_search (ctx_of st (effective_user_id u)) = Some ls
                /\ req = SearchReq "song" (ls_query ls) p 10)
  /\ (last_search (ctx_of st (effective_user_id u)) = None ->
      final r = st /\ trace r = [Answer None false]).
Proof.
  intros r.
  pose proof (decode_list_token "song" p artist_id eq_refl) as Hd.
  destruct (callback_list_page w u _ st "song" p artist_id Hd) as (_ & H).
  fold r in H.
  destruct (last_search (ctx_of st (effective_user_id u))) as [ls|].
  - split; [|discriminate].
    destruct (bool_decide (ls_query ls = "")).
    + destruct H as (_ & ->). intros req Hreq. simpl in Hreq.
      now apply elem_of_nil in Hreq.
    + destruct H as (_ & ->). simpl. intros req Hreq.
      apply list_elem_of_singleton in Hreq as ->. eauto.
  - destruct H as (Hst & Htr). split; [|auto].
    rewrite Htr. simpl. intros req Hreq. now apply elem_of_nil in Hreq.
Qed.


(** On an artist's list opened after a search for [imagine]. *)
Lemma artist_list_pages_witness :
  let st := final (search_and_display (example_world HttpRaises) (text_message 7)
                     "imagine" "song" 0 empty_state) in
  encode (ListPage "song" 1 "459320") = "list_song_1_459320"
  /\ api_requests (trace (callback_query_handler (example_world HttpRaises) (button_press 7)
                            "list_song_1_459320" st))
     = [SearchReq "song" "imagine" 1 10]
  /\ exists ls, last_search (ctx_of st 7) = Some ls
                /\ SearchReq "song" "imagine" 1 10 = SearchReq "song" (ls_query ls) 1 10.
Proof.
  intros st. split; [reflexivity|]. split; [reflexivity|].
  destruct (artist_list_pages_search (example_world HttpRaises) (button_press 7) st
              "459320" 1) as (Hreq & _).
  exact (Hreq (SearchReq "song" "imagine" 1 10) ltac:(apply list_elem_of_here)).
Defined.


Lemma start_command_returns w u st : result (start_command w u st) = Ok tt.
Proof.
  unfold start_command, show. unfold mbind, M_bind. rewrite get_user_data_run.
  unfold_monad. now destruct (has_message u).
Qed.

Lemma run_back_search w u st :
  run_action w u BackSearch st
  = match last_search (ctx_of st (effective_user_id u)) with
    | Some ls => search_and_display w u (ls_query ls) (ls_type ls) (ls_page ls) st
    | None => start_command w u st
    end.
Proof.
  unfold run_action. unfold_monad. simpl.
  destruct (last_search (ctx_of st (effective_user_id u))) as [ls|].
  - now destruct (search_and_display w u (ls_query ls) (ls_type ls) (ls_page ls) st)
      as [[r st1] tr1].
  - now destruct (start_command w u st) as [[r st1] tr1].
Qed.

(** X13.  The way back leads to the search one came from: after any search, the
    press of [back_search] by the same user asks the catalog for exactly that
    query, kind and page again; without a last search it is the main
    menu. *)
Theorem back_search_repeats_search (w : World) (u u' : Update) :
  effective_user_id u' = effective_user_id u ->
  (forall query search_type page st0,
     let st := final (search_and_display w u query search_type page st0) in
     api_requests (trace (callback_query_handler w u' "back_search" st))
     = (if one_of ["song"; "album"; "playlist"; "artist"] search_type
        then [SearchReq search_type query page 10] else []))
  /\ (forall st,
        last_search (ctx_of st (effective_user_id u')) = None ->
        callback_query_handler w u' "back_search" st
        = callback_query_handler w u' "main_menu" st).
Proof.
  intros Hu. split.
  - intros query search_type page st0 st.
    destruct (search_and_display_run w u query search_type page st0)
      as (_ & _ & _ & _ & Hls & _).
    fold st in Hls. rewrite <- Hu in Hls.
    pose proof (run_back_search w u' st) as Hrun.
    destruct (search_and_display_run w u' query search_type page st) as (Hr & Ha & _).
    rewrite (callback_runs_action w u' "back_search" st BackSearch eq_refl)
      by (rewrite Hrun, Hls; exact Hr).
    rewrite Hrun, Hls. exact Ha.
  - intros st Hnone.
    pose proof (run_back_search w u' st) as Hrun.
    rewrite (callback_runs_action w u' "back_search" st BackSearch eq_refl)
      by (rewrite Hrun, Hnone; apply start_command_returns).
    rewrite (callback_runs_action w u' "main_menu" st MainMenu eq_refl)
      by apply start_command_returns.
    now rewrite Hrun, Hnone.
Qed.

(** On a search typed by user 7 and the button pressed afterwards. *)
Lemma back_search_witness :
  effective_user_id (button_press 7) = effective_user_id (text_message 7)
  /\ api_requests
       (trace (callback_query_handler (example_world HttpRaises) (button_press 7)
                 "back_search"
                 (final (search_and_display (example_world HttpRaises) (text_message 7)
                           "imagine" "album" 2 empty_state))))
     = [SearchReq "album" "imagine" 2 10]
  /\ callback_query_handler (example_world HttpRaises) (button_press 7) "back_search"
       empty_state
     = callback_query_handler (example_world HttpRaises) (button_press 7) "main_menu"
         empty_state.
Proof.
  destruct (back_search_repeats_search (example_world HttpRaises) (text_message 7)
              (button_press 7) eq_refl) as (Hafter & Hnone).
  split; [reflexivity|]. split.
  - exact (Hafter "imagine" "album" 2 empty_state).
  - exact (Hnone empty_state eq_refl).
Defined.

(** ** Settings and history *)

Lemma decode_quality q :
  PyStr.sep_free us q = true -> decode ("quality_" +:+ q) = Ok (Some (SetQuality q)).
Proof.
  intros Hq. unfold decode, PyStr.startswith. simpl. rewrite prefix_nil.
  now rewrite (split_sep_free us q Hq).
Qed.

Lemma download_song_unknown_quality w uid sid st e :
  quality_option (current_quality st uid) = Raise e ->
  existsb is_fetch (trace (download_song w uid sid st)) = false
  /\ existsb is_upload (trace (download_song w uid sid st)) = false.
Proof.
  intros Hq.
  remember (download_song w uid sid st) as r eqn:Hr. revert Hr.
  run_song. fold (current_quality st uid). rewrite Hq.
  destruct (catalog_song w sid); simpl; intros ->; auto.
Qed.

(** X14.  The quality named by a quality token is stored before it is looked up:
    the handler writes it into the user's data, whatever it is, and leaves
    the history and the download count alone.  For one of the three known
    qualities the press is confirmed and the settings are shown again with
    it.  For any other the look-up fails after the write: the user gets the
    error alert, the unknown quality stays, and from then on no download of
    this user fetches or sends anything. *)
Theorem quality_stored_unchecked (w : World) (u : Update) (st : State) (q : string) :
  PyStr.sep_free us q = true ->
  let uid := effective_user_id u in
  let r := callback_query_handler w u ("quality_" +:+ q) st in
  let d := default default_user_data (user_data_store st !! uid) in
  user_data_store (final r) !! uid = Some (set_quality q d)
  /\ current_quality (final r) uid = q
  /\ (forall qo, QUALITY_OPTIONS q = Some qo ->
        result r = Ok tt
        /\ Answer (Some (TxtQualitySet (q_desc qo))) true ∈ trace r
        /\ exists kb, last (trace r)
                      = Some (EditText QueryMessage (TxtSettings (q_desc qo)) kb)
                      \/ last (trace r) = Some (ReplyText (TxtSettings (q_desc qo)) kb))
  /\ (QUALITY_OPTIONS q = None ->
      trace r = [Answer None false; LogError KeyError; Answer (Some TxtErrorOccurred) true]
      /\ forall w' sid,
           existsb is_fetch (trace (download_song w' uid sid (final r))) = false
           /\ existsb is_upload (trace (download_song w' uid sid (final r))) = false).
Proof.
  intros Hq uid r d.
  assert (Hrun : exists tr,
             r = (Ok tt, set_user_data_store (alter (set_quality q) uid) (with_user uid st), tr)
             /\ (forall qo, QUALITY_OPTIONS q = Some qo ->
                   Answer (Some (TxtQualitySet (q_desc qo))) true ∈ tr
                   /\ exists kb, last tr = Some (EditText QueryMessage (TxtSettings (q_desc qo)) kb)
                                 \/ last tr = Some (ReplyText (TxtSettings (q_desc qo)) kb))
             /\ (QUALITY_OPTIONS q = None ->
                 tr = [Answer None false; LogError KeyError;
                       Answer (Some TxtErrorOccurred) true])).
  { unfold r, callback_query_handler. rewrite (decode_quality q Hq).
    unfold run_action, settings_command, show, update_user_data, quality_option.
    fold uid.
    unfold mbind, M_bind, mret, M_ret, emit, lift, try_except, modify_state.
    rewrite get_user_data_run. simpl.
    assert (Hq' : quality (default default_user_data
                             (alter (set_quality q) uid (user_data_store (with_user uid st))
                              !! uid)) = q).
    { rewrite lookup_alter_eq. unfold with_user, get_user_data, final, set_user_data_store.
      destruct (user_data_store st !! uid) eqn:E; simpl;
        [rewrite E | rewrite lookup_insert_eq]; reflexivity. }
    assert (Hsame : with_user uid
                      (set_user_data_store (alter (set_quality q) uid) (with_user uid st))
                    = set_user_data_store (alter (set_quality q) uid) (with_user uid st)).
    { unfold with_user at 1. unfold get_user_data, final. simpl.
      rewrite lookup_alter_eq.
      unfold with_user, get_user_data, final, set_user_data_store.
      destruct (user_data_store st !! uid) eqn:E; simpl;
        [rewrite E | rewrite lookup_insert_eq]; reflexivity. }
    destruct (QUALITY_OPTIONS q) as [qo|] eqn:Eo; simpl.
    - rewrite get_user_data_run. simpl. rewrite Hq', Eo, Hsame. simpl.
      destruct (has_message u); simpl; eexists; (split; [reflexivity|]);
        (split; [|discriminate]); intros qo' [= <-];
        (split; [apply list_elem_of_further, list_elem_of_here|]);
        eexists; simpl; eauto.
    - eexists. split; [reflexivity|]. split; [discriminate | reflexivity]. }
  destruct Hrun as (tr & Hr & Hsome & Hnone).
  assert (Hd : user_data_store (final r) !! uid = Some (set_quality q d)).
  { rewrite Hr. unfold final, set_user_data_store. simpl. rewrite lookup_alter_eq.
    unfold d, with_user, get_user_data, final, set_user_data_store.
    destruct (user_data_store st !! uid) eqn:E; simpl;
      [rewrite E | rewrite lookup_insert_eq]; reflexivity. }
  assert (Hc : current_quality (final r) uid = q)
    by (unfold current_quality; now rewrite Hd).
  split; [exact Hd|]. split; [exact Hc|]. split.
  - intros qo Hqo. rewrite Hr. unfold result, trace. simpl.
    split; [reflexivity|]. now apply Hsome.
  - intros Hqo. split; [rewrite Hr; now apply Hnone|].
    intros w' sid. apply (download_song_unknown_quality w' uid sid (final r) KeyError).
    rewrite Hc. unfold quality_option. now rewrite Hqo.
Qed.


(** On the token [quality_ultra]. *)
Lemma quality_stored_witness :
  let r := callback_query_handler (example_world HttpRaises) (button_press 7)
             "quality_ultra" empty_state in
  PyStr.sep_free us "ultra" = true
  /\ QUALITY_OPTIONS "ultra" = None
  /\ current_quality (final r) 7 = "ultra"
  /\ existsb is_fetch
       (trace (download_song (example_world HttpRaises) 7 "x" (final r))) = false.
Proof.
  intros r.
  destruct (quality_stored_unchecked (example_world HttpRaises) (button_press 7)
              empty_state "ultra" eq_refl) as (_ & Hq & _ & Hbad).
  destruct (Hbad eq_refl) as (_ & Hdl).
  split; [reflexivity|]. split; [reflexivity|]. split; [exact Hq|].
  exact (proj1 (Hdl (example_world HttpRaises) "x")).
Defined.

(** X15.  Clearing the history empties the history of the user who pressed the
    button and nothing else: the quality and the download count of the
    user's data stay, as do the other users' data, the statistics and the
    sessions; the press is confirmed and the empty history is shown. *)
Theorem clear_history_only_history (w : World) (u : Update) (st : State) :
  let uid := effective_user_id u in
  let r := callback_query_handler w u "clear_history" st in
  let d := default default_user_data (user_data_store st !! uid) in
  result r = Ok tt
  /\ user_data_store (final r) !! uid = Some (set_history [] d)
  /\ (forall other, other <> uid ->
        user_data_store (final r) !! other = user_data_store st !! other)
  /\ user_stats (final r) = user_stats st
  /\ context_user_data (final r) = context_user_data st
  /\ Answer (Some TxtHistoryCleared) true ∈ trace r
  /\ (last (trace r) = Some (EditText QueryMessage TxtHistoryEmpty
                               [[encode (SearchPrompt "song")]])
      \/ last (trace r) = Some (ReplyText TxtHistoryEmpty [[encode (SearchPrompt "song")]])).
Proof.
  intros uid r d.
  assert (Hl : alter (set_history []) uid (user_data_store (with_user uid st)) !! uid
               = Some (set_history [] d)).
  { rewrite lookup_alter_eq. unfold d, with_user, get_user_data, final, set_user_data_store.
    destruct (user_data_store st !! uid) eqn:E; simpl;
      [rewrite E | rewrite lookup_insert_eq]; reflexivity. }
  assert (Hrun : exists tr,
             r = (Ok tt, set_user_data_store (alter (set_history []) uid) (with_user uid st),
                  tr)
             /\ Answer (Some TxtHistoryCleared) true ∈ tr
             /\ (last tr = Some (EditText QueryMessage TxtHistoryEmpty
                                   [[encode (SearchPrompt "song")]])
                 \/ last tr = Some (ReplyText TxtHistoryEmpty
                                      [[encode (SearchPrompt "song")]]))).
  { unfold r, callback_query_handler.
    change (decode "clear_history") with (Ok (Some ClearHistory) : Res (option Action)).
    unfold run_action, history_command, show, update_user_data. fold uid.
    unfold mbind, M_bind, mret, M_ret, emit, lift, try_except, modify_state.
    rewrite get_user_data_run. simpl.
    unfold get_user_data. simpl. rewrite Hl. simpl.
    destruct (has_message u); simpl; eexists; (split; [reflexivity|]);
      (split; [apply list_elem_of_further, list_elem_of_here | auto]). }
  destruct Hrun as (tr & Hr & Ha & Hlast).
  assert (Hw : user_stats (with_user uid st) = user_stats st
               /\ context_user_data (with_user uid st) = context_user_data st).
  { unfold with_user, get_user_data, final, set_user_data_store.
    now destruct (user_data_store st !! uid). }
  rewrite Hr. unfold result, final, trace, set_user_data_store. simpl.
  split; [reflexivity|]. split; [exact Hl|].
  split; [|split; [apply Hw | split; [apply Hw | split; [exact Ha | exact Hlast]]]].
  intros other Hne. rewrite lookup_alter_ne by congruence.
  unfold with_user, get_user_data, final, set_user_data_store.
  destruct (user_data_store st !! uid) eqn:E; simpl; [reflexivity|].
  now rewrite lookup_insert_ne by congruence.
Qed.

(** On a store in which user 7 has two songs in the history and user 8
    one. *)
Lemma clear_history_witness :
  let w := example_world HttpRaises in
  let st := seeded 8 ["z"] (seeded 7 ["x"; "y"] empty_state) in
  let r := callback_query_handler w (button_press 7) "clear_history" st in
  (8 : Z) <> 7
  /\ (length ∘ history) <$> (user_data_store st !! 7) = Some 2%nat
  /\ (length ∘ history) <$> (user_data_store (final r) !! 7) = Some 0%nat
  /\ downloads <$> (user_data_store (final r) !! 7) = Some 2
  /\ (length ∘ history) <$> (user_data_store (final r) !! 8) = Some 1%nat.
Proof.
  intros w st r.
  destruct (clear_history_only_history w (button_press 7) st) as (_ & _ & Hother & _).
  split; [discriminate|]. split; [reflexivity|]. split; [reflexivity|].
  split; [reflexivity|].
  fold r in Hother. rewrite (Hother 8 ltac:(discriminate)). reflexivity.
Defined.

Lemma rev_head_last {A} (l : list A) : head (rev l) = last l.
Proof.
  induction l as [|x l IH] using rev_ind; [reflexivity|].
  now rewrite rev_app_distr, last_snoc.
Qed.

Lemma last_drop {A} (l : list A) n : (n < length l)%nat -> last (drop n l) = last l.
Proof.
  revert n. induction l as [|x l IH]; intros n H; simpl in *; [lia|].
  destruct n as [|n]; [reflexivity|]. simpl.
  rewrite IH by lia. destruct l; simpl in *; [lia | reflexivity].
Qed.

(** X16.  The history view lists the last ten downloads at most, the newest first:
    for a user with a non-empty history it shows the reversed tail of the
    history, which has as many entries as the history up to ten and begins
    with the latest download; it changes nothing. *)
Theorem history_shows_latest_first (u : Update) (st : State) (d : UserData) :
  user_data_store st !! effective_user_id u = Some d ->
  history d <> [] ->
  let r := history_command u st in
  let shown := rev (drop (length (history d) - 10) (history d)) in
  final r = st
  /\ length shown = Nat.min 10 (length (history d))
  /\ head shown = last (history d)
  /\ trace r
     = [if has_message u
        then ReplyText (TxtRecentDownloads shown) [[encode ClearHistory]; [encode MainMenu]]
        else EditText QueryMessage (TxtRecentDownloads shown)
               [[encode ClearHistory]; [encode MainMenu]]].
Proof.
  intros Hd Hne r shown.
  assert (Hs : rev (py_slice_from (history d) (-10)) = shown).
  { unfold shown, py_slice_from, slice_bound. simpl. do 2 f_equal. lia. }
  split; [|split; [|split]].
  - unfold r, history_command, show. unfold mbind, M_bind. rewrite get_user_data_run.
    rewrite Hd. simpl. unfold with_user, get_user_data, final. rewrite Hd. simpl.
    destruct (history d); [contradiction|]. now destruct (has_message u).
  - unfold shown. rewrite length_rev, length_drop. lia.
  - unfold shown. rewrite rev_head_last. apply last_drop.
    destruct (history d); simpl; [contradiction | lia].
  - unfold r, history_command, show. unfold mbind, M_bind. rewrite get_user_data_run.
    rewrite Hd. simpl. rewrite <- Hs.
    destruct (history d) eqn:E; [contradiction|]. now destruct (has_message u).
Qed.

(** On a store in which user 7 has the songs [1] to [12] in the history. *)
Lemma history_shows_witness :
  let st := seeded 7 (numbered 12) empty_state in
  let r := history_command (button_press 7) st in
  trace r
  = [EditText QueryMessage
       (TxtRecentDownloads (map entry_of (rev (drop 2 (numbered 12)))))
       [[encode ClearHistory]; [encode MainMenu]]].
Proof.
  intros st r.
  destruct (history_shows_latest_first (button_press 7) st
              {| quality := "medium"; history := map entry_of (numbered 12);
                 downloads := 12; searches := 0 |} eq_refl ltac:(discriminate))
    as (_ & _ & _ & Htr).
  exact Htr.
Defined.


(** ** The counters agree *)

Section Stays.

Variable I : State -> Prop.

Lemma stays_ret {A} (a : A) : stays I (mret a).
Proof. intros st H. exact H. Qed.

Lemma stays_bind {A B} (m : M A) (k : A -> M B) :
  stays I m -> (forall a, stays I (k a)) -> stays I (m ≫= k).
Proof.
  intros Hm Hk st H. specialize (Hm st H). unfold_monad.
  destruct (m st) as [[[a|e] st1] tr1]; simpl in *; [|exact Hm].
  specialize (Hk a st1 Hm). now destruct (k a st1) as [[r st2] tr2].
Qed.

Lemma stays_try {A} (body : M A) (handler : Exc -> M A) :
  stays I body -> (forall e, stays I (handler e)) -> stays I (try_except body handler).
Proof.
  intros Hm Hk st H. specialize (Hm st H). unfold_monad.
  destruct (body st) as [[[a|e] st1] tr1]; simpl in *; [exact Hm|].
  specialize (Hk e st1 Hm). now destruct (handler e st1) as [[r st2] tr2].
Qed.

Lemma stays_emit e : stays I (emit e).
Proof. intros st H. exact H. Qed.

Lemma stays_lift {A} (r : Res A) : stays I (lift r).
Proof. intros st H. exact H. Qed.

Lemma stays_raise {A} e : stays I (@raise A e).
Proof. intros st H. exact H. Qed.

Lemma stays_get_state : stays I get_state.
Proof. intros st H. exact H. Qed.

Lemma stays_read_local {A} (v : option A) : stays I (read_local v).
Proof. intros st H. destruct v; exact H. Qed.

End Stays.

Lemma downloads_of_nonneg st uid :
  counters_consistent st -> 0 <= downloads_of st uid.
Proof.
  intros [Hs _]. unfold downloads_of.
  destruct (user_stats st !! uid) as [s|] eqn:E; simpl; [eapply Hs; eauto | lia].
Qed.

Lemma consistent_get_user_data uid : stays counters_consistent (get_user_data uid).
Proof.
  intros st H. pose proof (downloads_of_nonneg st uid H) as Hn. destruct H as [Hs Hd].
  unfold get_user_data, final.
  destruct (user_data_store st !! uid) eqn:E; simpl; [split; assumption|].
  unfold set_user_data_store, counters_consistent. simpl. split; [exact Hs|].
  intros uid' d. destruct (decide (uid = uid')) as [->|Hne].
  - rewrite lookup_insert_eq. intros [= <-]. simpl.
    unfold downloads_of in *. simpl. lia.
  - rewrite lookup_insert_ne by assumption. apply Hd.
Qed.

Lemma consistent_update_user_data uid (f : UserData -> UserData) :
  (forall d, 0 <= downloads d ->
     Z.of_nat (length (history (f d))) <= Z.max 0 (Z.of_nat (length (history d)))
     /\ downloads (f d) = downloads d) ->
  stays counters_consistent (update_user_data uid f).
Proof.
  intros Hf st [Hs Hd].
  unfold update_user_data, modify_state, final, set_user_data_store, counters_consistent.
  simpl. split; [exact Hs|]. intros uid' d.
  destruct (decide (uid = uid')) as [->|Hne].
  - rewrite lookup_alter_eq.
    destruct (user_data_store st !! uid') as [d0|] eqn:E; simpl; [|discriminate].
    intros [= <-]. destruct (Hd uid' d0 E) as [H1 H2].
    destruct (Hf d0 ltac:(lia)) as [H3 H4].
    unfold downloads_of in *. simpl. lia.
  - rewrite lookup_alter_ne by assumption. apply Hd.
Qed.

Lemma consistent_update_user_stats w uid action :
  stays counters_consistent (update_user_stats w uid action).
Proof.
  intros st H. pose proof (downloads_of_nonneg st uid H) as Hn. destruct H as [Hs Hd].
  unfold update_user_stats, modify_state, final, set_user_stats, counters_consistent.
  unfold downloads_of in *. simpl. split.
  - intros uid' s. destruct (decide (uid = uid')) as [->|Hne].
    + rewrite lookup_insert_eq. intros [= <-]. simpl.
      destruct (String.eqb action "download"); simpl;
        try destruct (String.eqb action "search"); simpl; lia.
    + rewrite lookup_insert_ne by assumption. apply Hs.
  - intros uid' d Hl. specialize (Hd uid' d Hl).
    destruct (decide (uid = uid')) as [->|Hne].
    + rewrite lookup_insert_eq. simpl.
      destruct (String.eqb action "download"); simpl;
        try destruct (String.eqb action "search"); simpl; lia.
    + rewrite lookup_insert_ne by assumption. exact Hd.
Qed.

Lemma consistent_update_ctx uid f : stays counters_consistent (update_ctx uid f).
Proof. intros st H. exact H. Qed.

(** The three writes of a successful download, taken together. *)
Lemma consistent_download_block {A} w uid e (m : M A) :
  stays counters_consistent m ->
  stays counters_consistent
    (update_user_stats w uid "download";;
     update_user_data uid incr_downloads;;
     update_user_data uid (append_history e);;
     m).
Proof.
  intros Hm st H.
  assert (Hst : counters_consistent
                  (final ((update_user_stats w uid "download";;
                           update_user_data uid incr_downloads;;
                           update_user_data uid (append_history e)) st))).
  { pose proof (downloads_of_nonneg st uid H) as Hn. destruct H as [Hs Hd].
    unfold update_user_stats, update_user_data. unfold_monad.
    unfold counters_consistent in Hs, Hd |- *.
    unfold set_user_data_store, set_user_stats, downloads_of in *.
    simpl. split.
    - intros uid' s. destruct (decide (uid = uid')) as [->|Hne].
      + rewrite lookup_insert_eq. intros [= <-]. simpl. lia.
      + rewrite lookup_insert_ne by assumption. apply Hs.
    - intros uid' d. destruct (decide (uid = uid')) as [->|Hne].
      + rewrite !lookup_alter_eq, lookup_insert_eq.
        destruct (user_data_store st !! uid') as [d0|] eqn:E; simpl; [|discriminate].
        intros [= <-]. destruct (Hd uid' d0 E) as [H1 H2].
        pose proof (history_append e (incr_downloads d0)) as Ha.
        pose proof (last_fifty_length (history (incr_downloads d0) ++ [e])) as Hl.
        pose proof (last_fifty_drop (history (incr_downloads d0) ++ [e])) as Hdr.
        assert (length (history (append_history e (incr_downloads d0)))
                <= length (history d0) + 1)%nat.
        { rewrite Ha, Hdr, length_drop, length_app. simpl. lia. }
        assert (downloads (append_history e (incr_downloads d0)) = downloads d0 + 1)
          by reflexivity.
        lia.
      + rewrite !lookup_alter_ne, lookup_insert_ne by assumption. apply Hd. }
  revert Hst. unfold_monad. unfold update_user_stats, update_user_data, modify_state.
  simpl. intros Hst. specialize (Hm _ Hst). unfold final in Hm.
  now destruct (m _) as [[r st2] tr2].
Qed.

Create HintDb counters discriminated.

#[local] Hint Resolve stays_ret stays_emit stays_lift stays_raise stays_get_state
  stays_read_local consistent_get_user_data consistent_update_user_stats
  consistent_update_ctx : counters.

(** One syntactic step through a handler's body. *)
Ltac stay_step :=
  lazymatch goal with
  | |- stays _ (mbind (fun _ => mbind _ (update_user_data _ incr_downloads))
                  (update_user_stats _ _ _)) =>
      apply consistent_download_block
  | |- stays _ (mbind _ _) => apply stays_bind; [|intros ?]
  | |- stays _ (try_except _ _) => apply stays_try; [|intros ?]
  | |- stays _ (match ?x with _ => _ end) => destruct x
  | |- stays _ _ => solve [auto with counters nocore]
  end.

Ltac stay := cbv zeta; repeat (stay_step; cbv zeta).

Lemma consistent_show u t kb : stays counters_consistent (show u t kb).
Proof. unfold show. stay. Qed.
#[local] Hint Resolve consistent_show : counters.

Lemma consistent_show_detail u image caption kb edit :
  stays counters_consistent (show_detail u image caption kb edit).
Proof. unfold show_detail. stay. Qed.
#[local] Hint Resolve consistent_show_detail : counters.

Lemma consistent_api_listing w r : stays counters_consistent (api_listing w r).
Proof. unfold api_listing. stay. Qed.
#[local] Hint Resolve consistent_api_listing : counters.

Lemma consistent_get_song_details w id : stays counters_consistent (get_song_details w id).
Proof. unfold get_song_details. stay. Qed.
#[local] Hint Resolve consistent_get_song_details : counters.

Lemma consistent_get_album_details w id : stays counters_consistent (get_album_details w id).
Proof. unfold get_album_details. stay. Qed.
#[local] Hint Resolve consistent_get_album_details : counters.

Lemma consistent_get_playlist_details w id p l :
  stays counters_consistent (get_playlist_details w id p l).
Proof. unfold get_playlist_details. stay. Qed.
#[local] Hint Resolve consistent_get_playlist_details : counters.

Lemma consistent_get_song_suggestions w id l :
  stays counters_consistent (get_song_suggestions w id l).
Proof. unfold get_song_suggestions. stay. Qed.
#[local] Hint Resolve consistent_get_song_suggestions : counters.

Lemma consistent_http_get w url : stays counters_consistent (http_get w url).
Proof. unfold http_get. stay. Qed.
#[local] Hint Resolve consistent_http_get : counters.

Lemma consistent_send_audio w a : stays counters_consistent (send_audio w a).
Proof. unfold send_audio. stay. Qed.
#[local] Hint Resolve consistent_send_audio : counters.

Lemma consistent_fetch_thumbnail w url : stays counters_consistent (fetch_thumbnail w url).
Proof. unfold fetch_thumbnail. stay. Qed.
#[local] Hint Resolve consistent_fetch_thumbnail : counters.

Lemma consistent_loading_animation name : stays counters_consistent (loading_animation name).
Proof.
  unfold loading_animation.
  induction (seq 0 10 ++ seq 0 10 ++ seq 0 10) as [|f fs IH]; simpl; stay; try exact IH.
Qed.
#[local] Hint Resolve consistent_loading_animation : counters.

Lemma consistent_display_song u s e : stays counters_consistent (display_song_details u s e).
Proof. unfold display_song_details. stay. Qed.
#[local] Hint Resolve consistent_display_song : counters.

Lemma consistent_display_album u c p e :
  stays counters_consistent (display_album_details u c p e).
Proof. unfold display_album_details. stay. Qed.
#[local] Hint Resolve consistent_display_album : counters.

Lemma consistent_display_playlist u c p e :
  stays counters_consistent (display_playlist_details u c p e).
Proof. unfold display_playlist_details. stay. Qed.
#[local] Hint Resolve consistent_display_playlist : counters.

Lemma consistent_upload_audio_action : stays counters_consistent upload_audio_action.
Proof. apply stays_raise. Qed.
#[local] Hint Resolve consistent_upload_audio_action : counters.

Lemma consistent_download_song w uid sid : stays counters_consistent (download_song w uid sid).
Proof. unfold download_song. stay. Qed.
#[local] Hint Resolve consistent_download_song : counters.

Lemma consistent_download_item w uid qi total idx song :
  stays counters_consistent (download_item w uid qi total idx song).
Proof. unfold download_item. stay. Qed.
#[local] Hint Resolve consistent_download_item : counters.

Lemma consistent_download_loop w uid qi total songs : forall idx,
  stays counters_consistent (download_loop w uid qi total idx songs).
Proof.
  induction songs as [|song rest IH]; intros idx; simpl; stay; try apply IH.
Qed.
#[local] Hint Resolve consistent_download_loop : counters.

Lemma consistent_download_all w uid item_id item_type :
  stays counters_consistent (download_all_songs w uid item_id item_type).
Proof. unfold download_all_songs. stay. Qed.
#[local] Hint Resolve consistent_download_all : counters.

Lemma consistent_search_and_display w u q t p :
  stays counters_consistent (search_and_display w u q t p).
Proof. unfold search_and_display. stay. Qed.
#[local] Hint Resolve consistent_search_and_display : counters.

Lemma consistent_start_command w u : stays counters_consistent (start_command w u).
Proof. unfold start_command. stay. Qed.
#[local] Hint Resolve consistent_start_command : counters.

Lemma consistent_help_command u : stays counters_consistent (help_command u).
Proof. unfold help_command. stay. Qed.
#[local] Hint Resolve consistent_help_command : counters.

Lemma consistent_settings_command u : stays counters_consistent (settings_command u).
Proof. unfold settings_command. stay. Qed.
#[local] Hint Resolve consistent_settings_command : counters.

Lemma consistent_stats_command u : stays counters_consistent (stats_command u).
Proof. unfold stats_command. stay. Qed.
#[local] Hint Resolve consistent_stats_command : counters.

Lemma consistent_history_command u : stays counters_consistent (history_command u).
Proof. unfold history_command. stay. Qed.
#[local] Hint Resolve consistent_history_command : counters.

Lemma consistent_admin_panel w u : stays counters_consistent (admin_panel w u).
Proof. unfold admin_panel. stay. Qed.
#[local] Hint Resolve consistent_admin_panel : counters.

Lemma consistent_handle_url w u url : stays counters_consistent (handle_url w u url).
Proof. unfold handle_url. stay. Qed.
#[local] Hint Resolve consistent_handle_url : counters.

Lemma consistent_handle_text_message w u text :
  stays counters_consistent (handle_text_message w u text).
Proof. unfold handle_text_message. stay. Qed.
#[local] Hint Resolve consistent_handle_text_message : counters.

Lemma consistent_run_action w u a : stays counters_consistent (run_action w u a).
Proof.
  destruct a; unfold run_action; stay;
    apply consistent_update_user_data; intros d Hd; simpl; lia.
Qed.
#[local] Hint Resolve consistent_run_action : counters.

Lemma consistent_callback_query_handler w u data :
  stays counters_consistent (callback_query_handler w u data).
Proof. unfold callback_query_handler. stay. Qed.

Lemma consistent_empty : counters_consistent empty_state.
Proof.
  split.
  - intros uid s H. unfold empty_state in H. simpl in H. now rewrite lookup_empty in H.
  - intros uid d H. unfold empty_state in H. simpl in H. now rewrite lookup_empty in H.
Qed.


(** X17.  The counters shown to a user agree in every state the bot reaches: at
    the start, and after any button press, text message or command, no
    download count of the statistics is negative, no history is longer than
    the user's own download count, and that count is at most the one of the
    statistics; so the history length shown on the statistics view never
    exceeds the downloads shown beside it. *)
Theorem counters_stay_consistent :
  counters_consistent empty_state
  /\ (forall w u data, stays counters_consistent (callback_query_handler w u data))
  /\ (forall w u text, stays counters_consistent (handle_text_message w u text))
  /\ (forall w u, stays counters_consistent (start_command w u)
                  /\ stays counters_consistent (help_command u)
                  /\ stays counters_consistent (settings_command u)
                  /\ stays counters_consistent (stats_command u)
                  /\ stays counters_consistent (history_command u))
  /\ (forall st uid d,
        counters_consistent st -> user_data_store st !! uid = Some d ->
        Z.of_nat (length (history d)) <= downloads_of st uid).
Proof.
  split; [apply consistent_empty|].
  split; [apply consistent_callback_query_handler|].
  split; [apply consistent_handle_text_message|].
  split.
  - intros w u.
    split; [apply consistent_start_command|].
    split; [apply consistent_help_command|].
    split; [apply consistent_settings_command|].
    split; [apply consistent_stats_command|apply consistent_history_command].
  - intros st0 uid d [_ H] Hd. destruct (H uid d Hd). lia.
Qed.

(** After user 7 pressed the download of a song and then the download of the
    album of five tracks: the batch sent four songs. *)
Lemma counters_witness :
  let w := example_world HttpRaises in
  let st := final (callback_query_handler w (button_press 7) "dlall_album_al"
                     (final (callback_query_handler w (button_press 7) "dl_x"
                               empty_state))) in
  counters_consistent st
  /\ (length ∘ history) <$> (user_data_store st !! 7) = Some 0%nat
  /\ downloads_of st 7 = 4.
Proof.
  intros w st.
  destruct counters_stay_consistent as (Hempty & Hpress & _).
  split; [|split; reflexivity].
  apply Hpress. apply Hpress. exact Hempty.
Defined.

(** ** The admin views *)

(** X18.  The admin panel and the detailed statistics are for the allow-list only,
    and so is the button that leads there: a user outside it gets the
    rejection alert and sees no number; a user inside it is shown the number
    of users and the totals of downloads and searches; neither press changes
    a store; and the main menu carries the admin button exactly for the users
    of the allow-list. *)
Theorem admin_views_for_admins_only (w : World) (u : Update) (st : State) :
  let uid := effective_user_id u in
  let users := size (user_stats st) in
  let total_downloads := sum_stats stat_downloads (user_stats st) in
  let total_searches := sum_stats stat_searches (user_stats st) in
  (is_admin w uid = false ->
   callback_query_handler w u "admin_panel" st
   = (Ok tt, st, [Answer None false; Answer (Some TxtUnauthorizedAccess) true])
   /\ callback_query_handler w u "admin_stats" st
      = (Ok tt, st, [Answer None false; Answer (Some TxtUnauthorized) true]))
  /\ (is_admin w uid = true ->
      callback_query_handler w u "admin_panel" st
      = (Ok tt, st,
         [Answer None false;
          EditText QueryMessage (TxtAdminPanel users total_downloads total_searches)
            [[encode AdminBroadcast]; [encode AdminStats]; [encode MainMenu]]])
      /\ callback_query_handler w u "admin_stats" st
         = (Ok tt, st,
            [Answer None false;
             EditText QueryMessage (TxtDetailedStats users total_downloads total_searches)
               [[encode AdminPanel]]]))
  /\ exists kb,
       (trace (start_command w u st) = [ReplyText TxtWelcome kb]
        \/ trace (start_command w u st) = [EditText QueryMessage TxtWelcome kb])
       /\ ([encode AdminPanel] ∈ kb <-> is_admin w uid = true).
Proof.
  intros uid users total_downloads total_searches.
  split; [|split].
  - intros Ha. split;
      unfold callback_query_handler, run_action, admin_panel; unfold_monad; simpl;
      fold uid; rewrite Ha; reflexivity.
  - intros Ha. split;
      unfold callback_query_handler, run_action, admin_panel; unfold_monad; simpl;
      fold uid; rewrite Ha; reflexivity.
  - unfold start_command, show. unfold mbind, M_bind. rewrite get_user_data_run.
    fold uid. unfold emit, trace. simpl.
    destruct (is_admin w uid); destruct (has_message u); simpl; eexists;
      (split; [first [left; reflexivity | right; reflexivity]|]);
      (split; [intros H; try reflexivity | intros H; try discriminate]).
    all: try (do 4 apply list_elem_of_further; apply list_elem_of_here).
    all: repeat (apply elem_of_cons in H as [H|H]; [discriminate|]);
      now apply elem_of_nil in H.
Qed.

(** On user 7, outside the allow-list, and user 1001, inside it. *)
Lemma admin_views_witness :
  let w := example_world HttpRaises in
  is_admin w 7 = false /\ is_admin w 1001 = true
  /\ callback_query_handler w (button_press 7) "admin_stats" empty_state
     = (Ok tt, empty_state, [Answer None false; Answer (Some TxtUnauthorized) true])
  /\ callback_query_handler w (button_press 1001) "admin_stats" empty_state
     = (Ok tt, empty_state,
        [Answer None false;
         EditText QueryMessage (TxtDetailedStats 0 0 0) [[encode AdminPanel]]]).
Proof.
  intros w.
  destruct (admin_views_for_admins_only w (button_press 7) empty_state) as (Hout & _).
  destruct (admin_views_for_admins_only w (button_press 1001) empty_state) as (_ & Hin & _).
  split; [reflexivity|]. split; [reflexivity|].
  split; [exact (proj2 (Hout eq_refl)) | exact (proj2 (Hin eq_refl))].
Defined.

(** ** Share links *)

Section UrlParts.

Variable p : ascii -> bool.

Lemma remove_app a b : Url.remove p (a +:+ b) = Url.remove p a +:+ Url.remove p b.
Proof.
  induction a as [|c a IH]; simpl; [reflexivity|].
  destruct (p c); simpl; now rewrite IH.
Qed.

Lemma remove_none s : every (fun c => negb (p c)) s = true -> Url.remove p s = s.
Proof.
  induction s as [|c s IH]; simpl; [reflexivity|].
  rewrite andb_true_iff, negb_true_iff. intros [-> Hs]. now rewrite (IH Hs).
Qed.

Lemma before_app a b :
  every (fun c => negb (p c)) a = true ->
  Url.before p (a +:+ b) = a +:+ Url.before p b.
Proof.
  induction a as [|c a IH]; simpl; [reflexivity|].
  rewrite andb_true_iff, negb_true_iff. intros [-> Ha]. now rewrite (IH Ha).
Qed.

End UrlParts.

Lemma has_every c s : Url.has c s = negb (every (fun d => negb (Url.is_char c d)) s).
Proof.
  induction s as [|d s IH]; simpl; [reflexivity|].
  rewrite IH. now destruct (Url.is_char c d).
Qed.

Lemma has_app c a b : Url.has c (a +:+ b) = Url.has c a || Url.has c b.
Proof. induction a as [|d a IH]; simpl; [reflexivity|]. now rewrite IH, orb_assoc. Qed.

Lemma append_empty s : s +:+ "" = s.
Proof. induction s as [|c s IH]; simpl; [reflexivity | now rewrite IH]. Qed.

Lemma tail_cut tail :
  url_tail tail = true ->
  Url.before (Url.is_char "?") (Url.before (Url.is_char "#") (Url.remove dropped tail)) = "".
Proof.
  destruct tail as [|c t]; [reflexivity|]. simpl. unfold Url.is_char.
  destruct (Ascii.eqb_spec c "?") as [->|]; [reflexivity|].
  destruct (Ascii.eqb_spec c "#") as [->|]; [reflexivity|discriminate].
Qed.

Lemma segment_kept s :
  every segment_char s = true ->
  every (fun c => negb (dropped c)) s = true
  /\ every (fun c => negb (Url.is_char "#" c)) s = true
  /\ every (fun c => negb (Url.is_char "?" c)) s = true
  /\ every (fun c => negb (Url.is_char ";" c)) s = true
  /\ PyStr.sep_free "/" s = true.
Proof.
  intros H. rewrite sep_free_every.
  repeat split; revert H; apply every_weaken; intros c; unfold segment_char, dropped, Url.is_char;
    rewrite ?(Ascii.eqb_sym _ c);
    destruct (Ascii.eqb c "/"), (Ascii.eqb c "?"), (Ascii.eqb c "#"), (Ascii.eqb c ";"),
      (Ascii.eqb c "009"), (Ascii.eqb c "010"), (Ascii.eqb c "013"); simpl; congruence.
Qed.

Lemma urlparse_share_link valid a b c tail :
  every segment_char a = true -> every segment_char b = true ->
  every segment_char c = true -> url_tail tail = true ->
  Url.urlparse_path valid
    ("https://www.jiosaavn.com/" +:+ a +:+ "/" +:+ b +:+ "/" +:+ c +:+ tail)
  = Ok ("/" +:+ a +:+ "/" +:+ b +:+ "/" +:+ c).
Proof.
  intros Ha Hb Hc Ht.
  destruct (segment_kept a Ha) as (Ha1 & Ha2 & Ha3 & Ha4 & _).
  destruct (segment_kept b Hb) as (Hb1 & Hb2 & Hb3 & Hb4 & _).
  destruct (segment_kept c Hc) as (Hc1 & Hc2 & Hc3 & Hc4 & _).
  unfold Url.urlparse_path. simpl. fold dropped.
  assert (E : Url.before (Url.is_char "?")
                (Url.before (Url.is_char "#")
                   (Url.remove dropped (a +:+ String "/" (b +:+ String "/" (c +:+ tail)))))
              = a +:+ String "/" (b +:+ String "/" c)).
  { rewrite remove_app, (remove_none _ a Ha1). simpl.
    rewrite remove_app, (remove_none _ b Hb1). simpl.
    rewrite remove_app, (remove_none _ c Hc1).
    rewrite (before_app _ a _ Ha2). simpl. rewrite (before_app _ b _ Hb2). simpl.
    rewrite (before_app _ c _ Hc2).
    rewrite (before_app _ a _ Ha3). simpl. rewrite (before_app _ b _ Hb3). simpl.
    rewrite (before_app _ c _ Hc3).
    now rewrite tail_cut, append_empty. }
  rewrite E.
  assert (Hs : Url.has ";" (a +:+ String "/" (b +:+ String "/" c)) = false).
  { rewrite has_app. simpl. rewrite has_app. simpl.
    rewrite !has_every, Ha4, Hb4, Hc4. reflexivity. }
  now rewrite Hs.
Qed.

Lemma prefix_cons c d p s :
  String.prefix (String c p) (String d s) = Ascii.eqb c d && String.prefix p s.
Proof.
  simpl. destruct (ascii_dec c d) as [->|Hne].
  - now rewrite Ascii.eqb_refl.
  - apply Ascii.eqb_neq in Hne. now rewrite Hne.
Qed.

Lemma string_eqb_cons c d a b :
  String.eqb (String c a) (String d b) = Ascii.eqb c d && String.eqb a b.
Proof. simpl. now destruct (Ascii.eqb c d). Qed.

Lemma sep_free_cons sep c s :
  PyStr.sep_free sep (String c s) = true ->
  Ascii.eqb c sep = false /\ PyStr.sep_free sep s = true.
Proof. simpl. now rewrite andb_true_iff, negb_true_iff. Qed.

Section Needle.

Variable n : string.
Hypothesis Hn : PyStr.sep_free "/" n = true.

Lemma needle_prefix_segment a r :
  PyStr.sep_free "/" a = true ->
  String.prefix (n +:+ "/") (a +:+ String "/" r) = String.eqb n a.
Proof.
  revert a Hn. induction n as [|c m IH]; intros a Hm Ha.
  - destruct a as [|d a]; [now destruct r|].
    apply sep_free_cons in Ha as [Hd _].
    change (String.prefix (String "/" "") (String d (a +:+ String "/" r)) = false).
    now rewrite prefix_cons, Ascii.eqb_sym, Hd.
  - apply sep_free_cons in Hm as [Hc Hm].
    destruct a as [|d a].
    + change (String.prefix (String c (m +:+ "/")) (String "/" r) = false).
      now rewrite prefix_cons, Hc.
    + apply sep_free_cons in Ha as [_ Ha].
      change (String.prefix (String c (m +:+ "/")) (String d (a +:+ String "/" r))
              = String.eqb (String c m) (String d a)).
      now rewrite prefix_cons, string_eqb_cons, (IH a Hm Ha).
Qed.

Lemma needle_prefix_last c :
  PyStr.sep_free "/" c = true -> String.prefix (n +:+ "/") c = false.
Proof.
  revert c Hn. induction n as [|d m IH]; intros c Hm Hc.
  - destruct c as [|e c]; [reflexivity|].
    apply sep_free_cons in Hc as [He _].
    change (String.prefix (String "/" "") (String e c) = false).
    now rewrite prefix_cons, Ascii.eqb_sym, He.
  - apply sep_free_cons in Hm as [_ Hm].
    destruct c as [|e c]; [reflexivity|].
    apply sep_free_cons in Hc as [_ Hc].
    change (String.prefix (String d (m +:+ "/")) (String e c) = false).
    now rewrite prefix_cons, (IH c Hm Hc), andb_false_r.
Qed.

Lemma contains_cons c s :
  PyStr.contains ("/" +:+ n +:+ "/") (String c s)
  = (Ascii.eqb "/" c && String.prefix (n +:+ "/") s)
    || PyStr.contains ("/" +:+ n +:+ "/") s.
Proof.
  change (PyStr.contains ("/" +:+ n +:+ "/") (String c s))
    with (String.prefix (String "/" (n +:+ "/")) (String c s)
          || PyStr.contains ("/" +:+ n +:+ "/") s).
  now rewrite prefix_cons.
Qed.

Lemma contains_skip a r :
  PyStr.sep_free "/" a = true ->
  PyStr.contains ("/" +:+ n +:+ "/") (a +:+ r) = PyStr.contains ("/" +:+ n +:+ "/") r.
Proof.
  induction a as [|d a IH]; [reflexivity|].
  intros Ha. apply sep_free_cons in Ha as [Hd Ha].
  change (String d a +:+ r) with (String d (a +:+ r)).
  now rewrite contains_cons, Ascii.eqb_sym, Hd, (IH Ha).
Qed.

Lemma contains_none c :
  PyStr.sep_free "/" c = true -> PyStr.contains ("/" +:+ n +:+ "/") c = false.
Proof.
  intros Hc. rewrite <- (append_empty c), (contains_skip c "" Hc). reflexivity.
Qed.

Lemma contains_segments a b c :
  PyStr.sep_free "/" a = true -> PyStr.sep_free "/" b = true ->
  PyStr.sep_free "/" c = true ->
  PyStr.contains ("/" +:+ n +:+ "/") ("/" +:+ a +:+ "/" +:+ b +:+ "/" +:+ c)
  = String.eqb n a || String.eqb n b.
Proof.
  intros Ha Hb Hc.
  change ("/" +:+ a +:+ "/" +:+ b +:+ "/" +:+ c)
    with (String "/" (a +:+ String "/" (b +:+ String "/" c))).
  rewrite contains_cons, (needle_prefix_segment a _ Ha), (contains_skip a _ Ha).
  rewrite contains_cons, (needle_prefix_segment b _ Hb), (contains_skip b _ Hb).
  rewrite contains_cons, (needle_prefix_last c Hc), (contains_none c Hc).
  simpl. now rewrite !orb_false_r.
Qed.

End Needle.

Lemma last_segment_segments a b c :
  PyStr.sep_free "/" a = true -> PyStr.sep_free "/" b = true ->
  PyStr.sep_free "/" c = true ->
  last_segment ("/" +:+ a +:+ "/" +:+ b +:+ "/" +:+ c) = Ok c.
Proof.
  intros Ha Hb Hc. unfold last_segment.
  change ("/" +:+ a +:+ "/" +:+ b +:+ "/" +:+ c)
    with ("" +:+ String "/" (a +:+ String "/" (b +:+ String "/" c))).
  rewrite (split_app "/" "" _ eq_refl), (split_app "/" a _ Ha), (split_app "/" b _ Hb),
    (split_sep_free "/" c Hc).
  reflexivity.
Qed.

Lemma extract_share_link w a b c tail :
  every segment_char a = true -> every segment_char b = true ->
  every segment_char c = true -> url_tail tail = true ->
  extract_jiosaavn_id w (share_link a b c tail) =
  let names k := String.eqb k a || String.eqb k b in
  if names "song" then Some (c, "song")
  else if names "album" then Some (c, "album")
  else if names "featured" || names "playlist" then Some (c, "playlist")
  else if names "artist" then Some (c, "artist")
  else None.
Proof.
  intros Ha Hb Hc Ht.
  destruct (segment_kept a Ha) as (_ & _ & _ & _ & Sa).
  destruct (segment_kept b Hb) as (_ & _ & _ & _ & Sb).
  destruct (segment_kept c Hc) as (_ & _ & _ & _ & Sc).
  unfold extract_jiosaavn_id, share_link.
  rewrite (urlparse_share_link _ a b c tail Ha Hb Hc Ht).
  unfold res_bind at 1. cbv beta iota zeta.
  pose proof (fun n Hn => contains_segments n Hn a b c Sa Sb Sc) as E.
  rewrite (E "song" eq_refl : PyStr.contains "/song/" _ = _).
  rewrite (E "album" eq_refl : PyStr.contains "/album/" _ = _).
  rewrite (E "featured" eq_refl : PyStr.contains "/featured/" _ = _).
  rewrite (E "playlist" eq_refl : PyStr.contains "/playlist/" _ = _).
  rewrite (E "artist" eq_refl : PyStr.contains "/artist/" _ = _).
  rewrite (last_segment_segments a b c Sa Sb Sc).
  repeat match goal with |- context [if ?x then _ else _] => destruct x end; reflexivity.
Qed.

(** X19.  A share link of the site is read as its last path segment and the kind
    its first word names, whatever query or fragment follows, as long as the
    slug is not itself one of the five words; a slug that is the word song
    makes any link a song link. *)
Theorem share_link_parsed (w : World) (word slug id tail : string) :
  one_of ["song"; "album"; "featured"; "playlist"; "artist"] word = true ->
  every segment_char slug = true ->
  every segment_char id = true ->
  url_tail tail = true ->
  (one_of ["song"; "album"; "featured"; "playlist"; "artist"] slug = false ->
   extract_jiosaavn_id w (share_link word slug id tail) = Some (id, kind_of_word word))
  /\ (slug = "song" ->
      extract_jiosaavn_id w (share_link word slug id tail) = Some (id, "song")).
Proof.
  intros Hw Hs Hi Ht.
  assert (Hw' : every segment_char word = true
                /\ (word = "song" \/ word = "album" \/ word = "featured"
                    \/ word = "playlist" \/ word = "artist")).
  { unfold one_of in Hw. simpl in Hw. rewrite !orb_true_iff, !String.eqb_eq in Hw.
    destruct Hw as [->|[->|[->|[->|[->|H]]]]]; try discriminate; split; auto 6. }
  destruct Hw' as [Hseg Hw'].
  rewrite (extract_share_link w word slug id tail Hseg Hs Hi Ht). cbv zeta.
  split.
  - intros H. unfold one_of in H. simpl in H. rewrite !orb_false_iff in H.
    destruct H as (H1 & H2 & H3 & H4 & H5 & _).
    rewrite (String.eqb_sym "song" slug), (String.eqb_sym "album" slug),
      (String.eqb_sym "featured" slug), (String.eqb_sym "playlist" slug),
      (String.eqb_sym "artist" slug), H1, H2, H3, H4, H5.
    destruct Hw' as [Hk|[Hk|[Hk|[Hk|Hk]]]]; rewrite Hk; reflexivity.
  - intros ->. now rewrite orb_true_r.
Qed.

(** On a song link with a query and on an album whose title is the word
    song. *)
Lemma share_link_witness :
  let w := example_world HttpRaises in
  extract_jiosaavn_id w "https://www.jiosaavn.com/song/tum-hi-ho/EToxUyFpcwQ?ref=share"
  = Some ("EToxUyFpcwQ", "song")
  /\ extract_jiosaavn_id w "https://www.jiosaavn.com/featured/song/abc"
     = Some ("abc", "song").
Proof.
  intros w. split.
  - exact (proj1 (share_link_parsed w "song" "tum-hi-ho" "EToxUyFpcwQ" "?ref=share"
                    eq_refl eq_refl eq_refl eq_refl) eq_refl).
  - exact (proj2 (share_link_parsed w "featured" "song" "abc" ""
                    eq_refl eq_refl eq_refl eq_refl) eq_refl).
Defined.
